(** * python-barcode: the writer, the registry and the barcode base class

    A shallow embedding of [barcode/writer.py], [barcode/__init__.py] and
    [barcode/base.py], and the properties of the rendering pass, the size
    computation, the option handling and the symbology registry.

    Conventions of the embedding.
    - A Python [str] is a [string] whose characters are the code points
      U+0000..U+00FF; a list of lines is a [list string].
    - A Python [int] is a [Z].
    - The numbers held by the writer options (millimetres, points, dpi)
      range over a type [T] with a [Number] instance; the file provides
      exact rationals ([Qc]) and IEEE binary64 ([float]).  The code is
      embedded once, for any [T].  What is stated of all options at once
      (the size formula, the positions of the paint calls) is proved in
      exact arithmetic: it is about the formulas the code computes, and
      leaves the rounding of binary64 aside.  The sizes of the examples
      are evaluated in both.
    - A function that can raise returns a [result]; a method that mutates
      [self] is a computation in the monad [M S], which threads the
      object's state and keeps it when an exception is raised.
    - What the code takes from modules that are not at hand (the barcode
      classes, [barcode.version], [xml.dom.minidom]'s serialisers, the
      formatting built-ins) is a [Variable] of the section that uses it. *)

From Stdlib Require Import ZArith QArith Qcanon List String Ascii Lia Bool.
From Stdlib Require Import PrimFloat FloatOps SpecFloat.
From stdpp Require Import gmap strings.
Import ListNotations.

Local Open Scope string_scope.
Local Open Scope list_scope.
Local Open Scope Z_scope.

(* ================================================================== *)
(** * Part I. Definitions                                              *)
(* ================================================================== *)

(** ** Exceptions and results *)

(** The exceptions the modelled code can raise.  Messages are kept where
    the code inspects them; [BarcodeNotFoundError] carries the name its
    message is formatted from. *)
Inductive exn : Type :=
| ZeroDivisionError
| OverflowError
| ValueError (msg : string)
| TypeError (msg : string)
| IndexError
| AttributeError (name : string)
| NameError (name : string)
| UnboundLocalError (name : string)
| NotImplementedError
| BarcodeNotFoundError (name : string)
| SystemExit (status : Z).

Inductive result (A : Type) : Type :=
| Return (a : A)
| Raise (e : exn).
Arguments Return {A} a.
Arguments Raise {A} e.

Definition rbind {A B} (r : result A) (k : A -> result B) : result B :=
  match r with
  | Return a => k a
  | Raise e => Raise e
  end.

Declare Scope result_scope.
Delimit Scope result_scope with result.
Notation "'let*' x := r 'in' k" := (rbind r (fun x => k))
  (at level 10, x pattern, r at level 100, k at level 200) : result_scope.

(** ** Strings *)

(** [s[i]]; [None] stands for Python's IndexError. *)
Definition char_at (s : string) (i : nat) : option ascii := String.get i s.

Definition ascii_eqb (a b : ascii) : bool := Ascii.eqb a b.

Definition opt_ascii_eqb (a b : option ascii) : bool :=
  match a, b with
  | Some x, Some y => ascii_eqb x y
  | None, None => true
  | _, _ => false
  end.

(** [s != EmptyString], the truth value of a string. *)
Definition str_truth (s : string) : bool :=
  match s with
  | EmptyString => false
  | String _ _ => true
  end.

(** [key.lstrip("_")] *)
Fixpoint lstrip_underscore (s : string) : string :=
  match s with
  | String c rest => if ascii_eqb c "_" then lstrip_underscore rest else s
  | EmptyString => EmptyString
  end.

(** [str.lower] on one code point below 256: A-Z and the Latin-1 capitals
    U+00C0..U+00DE (the multiplication sign U+00D7 apart) move up by 32. *)
Definition lower_char (c : ascii) : ascii :=
  let n := N_of_ascii c in
  if ((65 <=? n) && (n <=? 90) ||
      (192 <=? n) && (n <=? 222) && negb (n =? 215))%N
  then ascii_of_N (n + 32) else c.

(** [name.lower()] *)
Fixpoint lower (s : string) : string :=
  match s with
  | EmptyString => EmptyString
  | String c rest => String (lower_char c) (lower rest)
  end.

(** The line boundaries of [str.splitlines] below U+0100: LF, VT, FF, CR,
    FS, GS, RS and NEL. *)
Definition is_linebreak (c : ascii) : bool :=
  let n := N_of_ascii c in
  ((n =? 10) || (n =? 11) || (n =? 12) || (n =? 13) ||
   (n =? 28) || (n =? 29) || (n =? 30) || (n =? 133))%N.

(** [splitlines] with the line read so far in [cur]; [after_cr] is set just
    after a CR, so that the LF of a CR LF pair ends no second line. *)
Fixpoint splitlines_from (after_cr : bool) (cur : string) (s : string)
  : list string :=
  match s with
  | EmptyString => if str_truth cur then [cur] else []
  | String c rest =>
      if after_cr && ascii_eqb c "010" then splitlines_from false cur rest
      else if is_linebreak c
           then cur :: splitlines_from (ascii_eqb c "013") EmptyString rest
           else splitlines_from false (cur +:+ String c EmptyString) rest
  end.

(** [text.splitlines()] *)
Definition splitlines (s : string) : list string :=
  splitlines_from false EmptyString s.

(** [needle in hay] on strings. *)
Definition str_contains (needle hay : string) : bool :=
  match String.index 0 needle hay with
  | Some _ => true
  | None => false
  end.

(** ** writer.py: packing a line into signed run lengths *)

(** One turn of the loop [for i in range(0, len(line) - 1)] of
    [BaseWriter.render]: the state is the run counter [c] and [mlist]. *)
Definition mlist_step (line : string) (st : Z * list Z) (i : nat)
  : Z * list Z :=
  let '(c, mlist) := st in
  if opt_ascii_eqb (char_at line i) (char_at line (i + 1))
  then (c + 1, mlist)
  else if opt_ascii_eqb (char_at line i) (Some "1"%char)
       then (1, mlist ++ [c])
       else (1, mlist ++ [- c]).

(** The list [mlist] that [render] computes for one line:
    ['11010111' -> [2, -1, 1, -1, 3]]. *)
Definition mlist (line : string) : list Z :=
  let line := line +:+ " " in
  snd (fold_left (mlist_step line)
                 (seq 0 (String.length line - 1)) (1, [])).

(** Reading the tokens back, as the spec words it: a token stands for as
    many modules as its absolute value, a positive one for bars ([1]) and
    a negative one for spaces ([0]). *)
Definition module_of_token (t : Z) : ascii :=
  if 0 <? t then "1"%char else "0"%char.

Fixpoint repeat_char (c : ascii) (n : nat) : string :=
  match n with
  | O => EmptyString
  | S k => String c (repeat_char c k)
  end.

Fixpoint expand (tokens : list Z) : string :=
  match tokens with
  | [] => EmptyString
  | t :: rest =>
      repeat_char (module_of_token t) (Z.to_nat (Z.abs t)) +:+ expand rest
  end.

(** A line of modules: only the characters [0] and [1]. *)
Fixpoint binary_line (s : string) : bool :=
  match s with
  | EmptyString => true
  | String c rest =>
      (ascii_eqb c "0" || ascii_eqb c "1") && binary_line rest
  end.

(** A module: the character [0] or [1]. *)
Definition is_module (a : ascii) : Prop := a = "0"%char \/ a = "1"%char.

(** Neighbouring tokens have opposite signs. *)
Fixpoint alternating (tokens : list Z) : Prop :=
  match tokens with
  | a :: ((b :: _) as rest) => a * b < 0 /\ alternating rest
  | _ => True
  end.

Definition sum_abs (tokens : list Z) : Z :=
  fold_right (fun t acc => Z.abs t + acc) 0 tokens.

(** The same packing by recursion on the line, used to reason about
    [mlist]: [rle_from a c s] is what the loop still appends when it is
    in a run of [c] modules [a] and [s] remains to be read. *)
Definition token (a : ascii) (c : Z) : Z :=
  if ascii_eqb a "1" then c else - c.

Fixpoint rle_from (a : ascii) (c : Z) (s : string) : list Z :=
  match s with
  | EmptyString => [token a c]
  | String b rest =>
      if ascii_eqb a b then rle_from a (c + 1) rest
      else token a c :: rle_from b 1 rest
  end.

(** ** Numbers *)

(** The arithmetic [writer.py] performs on the writer options.  [of_int]
    is the conversion of a Python [int] that meets such a number in an
    expression, [decimal m k] the literal [m * 10^-k], [truediv] is [/]
    (ZeroDivisionError on a zero divisor), [num_truth] the truth value of
    a number, [num_eqb] is [==] and [int_of] is [int(x)], truncation toward
    zero. *)
Class Number (T : Type) : Type := {
  of_int : Z -> T;
  decimal : Z -> nat -> T;
  add : T -> T -> T;
  sub : T -> T -> T;
  mul : T -> T -> T;
  truediv : T -> T -> result T;
  num_truth : T -> bool;
  num_eqb : T -> T -> bool;
  int_of : T -> result Z
}.

Declare Scope num_scope.
Delimit Scope num_scope with num.
Infix "+" := add : num_scope.
Infix "-" := sub : num_scope.
Infix "*" := mul : num_scope.

(** Exact arithmetic on rationals in lowest terms. *)
Definition Qc_is_zero (x : Qc) : bool := (Qnum (this x) =? 0)%Z.

Definition Qc_of_int (z : Z) : Qc := Q2Qc (inject_Z z).

Definition Qc_decimal (m : Z) (k : nat) : Qc :=
  Q2Qc (inject_Z m / inject_Z (10 ^ Z.of_nat k)).

Definition Qc_truediv (x y : Qc) : result Qc :=
  if Qc_is_zero y then Raise ZeroDivisionError else Return (x / y)%Qc.

Definition Qc_trunc (x : Qc) : Z := Z.quot (Qnum (this x)) (Zpos (Qden (this x))).

#[export] Instance Qc_Number : Number Qc := {|
  of_int := Qc_of_int;
  decimal := Qc_decimal;
  add := Qcplus;
  sub := Qcminus;
  mul := Qcmult;
  truediv := Qc_truediv;
  num_truth x := negb (Qc_is_zero x);
  num_eqb := Qc_eq_bool;
  int_of x := Return (Qc_trunc x)
|}.

(** IEEE 754 binary64, the arithmetic of a Python [float].  [of_int]
    rounds to nearest, ties to even, as Python does; an [int] beyond the
    range of binary64, for which Python raises OverflowError, becomes an
    infinity here.  [decimal m k] is the quotient of two exact floats, the
    float nearest to the literal, for [m] below [2^53] and [k] up to 22. *)
Definition float_of_Z (z : Z) : float :=
  SF2Prim (binary_normalize prec emax z 0 false).

Definition float_truediv (x y : float) : result float :=
  if PrimFloat.eqb y PrimFloat.zero then Raise ZeroDivisionError
  else Return (PrimFloat.div x y).

Definition float_int_of (x : float) : result Z :=
  match Prim2SF x with
  | S754_zero _ => Return 0
  | S754_infinity _ => Raise OverflowError
  | S754_nan => Raise (ValueError "cannot convert float NaN to integer")
  | S754_finite s m e =>
      let v := if 0 <=? e then Z.shiftl (Zpos m) e
               else Z.shiftr (Zpos m) (- e) in
      Return (if s then - v else v)
  end.

#[export] Instance float_Number : Number float | 10 := {|
  of_int := float_of_Z;
  decimal m k := PrimFloat.div (float_of_Z m) (float_of_Z (10 ^ Z.of_nat k));
  add := PrimFloat.add;
  sub := PrimFloat.sub;
  mul := PrimFloat.mul;
  truediv := float_truediv;
  num_truth x := negb (PrimFloat.eqb x PrimFloat.zero);
  num_eqb := PrimFloat.eqb;
  int_of := float_int_of
|}.

(** ** writer.py: sizes *)

Section Writer.
Context {T : Type} `{Number T}.
Local Open Scope num_scope.
Local Open Scope result_scope.

(** [mm2px(mm, dpi)] *)
Definition mm2px (mm dpi : T) : result T :=
  truediv (mm * dpi) (decimal 254 1).

(** [pt2mm(pt)] *)
Definition pt2mm (pt : T) : T := pt * decimal 352777778 9.

(** The attributes [BaseWriter.__init__] sets, the callbacks apart. *)
Record BaseWriter : Type := {
  module_width : T;
  module_height : T;
  font_size : T;
  quiet_zone : T;
  background : string;
  foreground : string;
  write_text : bool;
  text : string;
  human : string;
  text_distance : T;
  text_line_distance : T;
  center_text : bool;
  supported_file_types : list string;
  _file_type : option string
}.

(** [BaseWriter.__init__] *)
Definition BaseWriter_init : BaseWriter := {|
  module_width := of_int 10;
  module_height := of_int 10;
  font_size := of_int 10;
  quiet_zone := decimal 65 1;
  background := "white";
  foreground := "black";
  write_text := true;
  text := EmptyString;
  human := EmptyString;
  text_distance := of_int 5;
  text_line_distance := of_int 1;
  center_text := true;
  supported_file_types := [];
  _file_type := None
|}.

(** [BaseWriter.calculate_size(modules_per_line, number_of_lines, dpi)] *)
Definition calculate_size (self : BaseWriter)
    (modules_per_line number_of_lines : Z) (dpi : T) : result (Z * Z) :=
  let width :=
    of_int 2 * quiet_zone self + of_int modules_per_line * module_width self in
  let height := decimal 20 1 + module_height self * of_int number_of_lines in
  let number_of_text_lines := Z.of_nat (length (splitlines (text self))) in
  let* height :=
    if num_truth (font_size self) && str_truth (text self) then
      let* scale := truediv (of_int 2 * dpi) (of_int 200) in
      let* line_height := truediv (pt2mm (font_size self)) scale in
      let height :=
        height + (line_height * of_int number_of_text_lines
                  + text_distance self) in
      Return (height
              + text_line_distance self * of_int (number_of_text_lines - 1))
    else Return height in
  let* width_px := mm2px width dpi in
  let* width_px := int_of width_px in
  let* height_px := mm2px height dpi in
  let* height_px := int_of height_px in
  Return (width_px, height_px).

End Writer.

Arguments BaseWriter T : clear implicits.

(** ** Methods that mutate [self] *)

(** A computation on an object of state [S]: it ends with a value or an
    exception, and the state as it was left either way. *)
Definition M (S A : Type) : Type := S -> S * result A.

Definition mret {S A} (a : A) : M S A := fun s => (s, Return a).

Definition mraise {S A} (e : exn) : M S A := fun s => (s, Raise e).

Definition mbind {S A B} (m : M S A) (k : A -> M S B) : M S B :=
  fun s =>
    match m s with
    | (s', Return a) => k a s'
    | (s', Raise e) => (s', Raise e)
    end.

(** Reading [self]. *)
Definition mget {S} : M S S := fun s => (s, Return s).

(** A pure computation that can raise. *)
Definition mlift {S A} (r : result A) : M S A := fun s => (s, r).

Declare Scope M_scope.
Delimit Scope M_scope with M.
Notation "'let*' x := m 'in' k" := (mbind m (fun x => k))
  (at level 10, x pattern, m at level 100, k at level 200) : M_scope.

(** ** writer.py: the rendering pass *)

Section Render.
Context {T : Type} `{Number T}.
(** [S] is the state of the writer object, of which [base] is the part
    [BaseWriter] declares, and [Out] what its [finish] callback returns. *)
Context {S Out : Type} (base : S -> BaseWriter T).
Local Open Scope num_scope.
Local Open Scope M_scope.

(** [self._callbacks]; [None] is a callback that was not registered. *)
Record Callbacks : Type := {
  initialize : option (list string -> M S unit);
  paint_module : option (T -> T -> T -> string -> M S unit);
  paint_text : option (T -> T -> M S unit);
  finish : option (M S Out)
}.

Variable _callbacks : Callbacks.

Definition not_callable : exn :=
  TypeError "'NoneType' object is not callable".

(** [self._callbacks["paint_module"](xpos, ypos, width, color)] *)
Definition call_paint_module (xpos ypos width : T) (color : string)
  : M S unit :=
  match paint_module _callbacks with
  | Some f => f xpos ypos width color
  | None => mraise not_callable
  end.

(** The loop [for mod in mlist] ([mod_] here); the value is [xpos] after
    it. *)
Fixpoint paint_mlist (mlist : list Z) (xpos ypos : T) : M S T :=
  match mlist with
  | [] => mret xpos
  | mod_ :: rest =>
      let* self := mget in
      let color :=
        if mod_ <? 1 then background (base self) else foreground (base self) in
      let* _ :=
        call_paint_module xpos ypos
          (module_width (base self) * of_int (Z.abs mod_)) color in
      let* self := mget in
      paint_mlist rest
        (xpos + module_width (base self) * of_int (Z.abs mod_)) ypos
  end.

(** The loop [for cc, line in enumerate(code)], from line [cc] on, [lines]
    being the lines left and [len_code] the length of [code].  [bx] holds
    [(bxs, bxe)] once a line has bound them.  The value is [ypos] and [bx]
    after the loop. *)
Fixpoint render_lines (len_code : Z) (cc : Z) (lines : list string)
    (ypos : T) (bx : option (T * T)) : M S (T * option (T * T)) :=
  match lines with
  | [] => mret (ypos, bx)
  | line :: rest =>
      let mlist := mlist line in
      let* self := mget in
      let xpos := quiet_zone (base self) in
      let bxs := xpos in
      let* xpos := paint_mlist mlist xpos ypos in
      let bxe := xpos in
      let* _ :=
        if negb (cc + 1 =? len_code) then
          let* self := mget in
          call_paint_module xpos ypos
            (quiet_zone (base self)) (background (base self))
        else mret tt in
      let* self := mget in
      render_lines len_code (cc + 1) rest
        (ypos + module_height (base self)) (Some (bxs, bxe))
  end.

(** The local [bxs] or [bxe], unbound when [code] has no line. *)
Definition local_bx (bx : option (T * T)) (name : string)
    (pick : T * T -> T) : M S T :=
  match bx with
  | Some p => mret (pick p)
  | None => mraise (UnboundLocalError name)
  end.

(** [BaseWriter.render(code)] *)
Definition render (code : list string) : M S Out :=
  let* _ :=
    match initialize _callbacks with
    | Some f => f code
    | None => mret tt
    end in
  let ypos := decimal 10 1 in
  let* after :=
    render_lines (Z.of_nat (length code)) 0 code ypos None in
  let ypos := fst after in
  let bx := snd after in
  let* self := mget in
  let* _ :=
    if str_truth (text (base self)) then
      match paint_text _callbacks with
      | Some f =>
          let ypos := ypos + text_distance (base self) in
          let* xpos :=
            if center_text (base self) then
              let* bxs := local_bx bx "bxs" fst in
              let* bxe := local_bx bx "bxe" snd in
              let* half := mlift (truediv (bxe - bxs) (decimal 20 1)) in
              mret (bxs + half)
            else local_bx bx "bxs" fst in
          f xpos ypos
      | None => mret tt
      end
    else mret tt in
  match finish _callbacks with
  | Some f => f
  | None => mraise not_callable
  end.

End Render.

Arguments Callbacks : clear implicits.

(** ** The size formula as the specification words it *)

Section SizeSpec.
Context {T : Type} `{Number T}.
Local Open Scope num_scope.
Local Open Scope result_scope.

(** Millimetres to device pixels: [int(mm2px(mm, dpi))]. *)
Definition mm_to_pixels (mm dpi : T) : result Z :=
  let* px := mm2px mm dpi in int_of px.

Definition size_in_pixels (width height dpi : T) : result (Z * Z) :=
  let* width_px := mm_to_pixels width dpi in
  let* height_px := mm_to_pixels height dpi in
  Return (width_px, height_px).

(** The height of the text block, in millimetres: what lines 136-141 of
    [calculate_size] add to the height. *)
Definition text_block_height (self : BaseWriter T) (dpi : T) : result T :=
  let number_of_text_lines := Z.of_nat (length (splitlines (text self))) in
  if num_truth (font_size self) && str_truth (text self) then
    let* scale := truediv (of_int 2 * dpi) (of_int 200) in
    let* line_height := truediv (pt2mm (font_size self)) scale in
    Return (line_height * of_int number_of_text_lines + text_distance self
            + text_line_distance self * of_int (number_of_text_lines - 1))
  else Return (of_int 0).

(** The image size as the specification states it: the width is
    [2*quiet_zone + modules_per_line*module_width], the height
    [number_of_lines*module_height] plus the text block and nothing else. *)
Definition spec_calculate_size (self : BaseWriter T)
    (modules_per_line number_of_lines : Z) (dpi : T) : result (Z * Z) :=
  let* text_block := text_block_height self dpi in
  size_in_pixels
    (of_int 2 * quiet_zone self + of_int modules_per_line * module_width self)
    (of_int number_of_lines * module_height self + text_block)
    dpi.

(** The text block as the specification gates it: left out when
    [write_text] is false or the text is empty. *)
Definition spec_text_block_present (self : BaseWriter T) : bool :=
  write_text self && str_truth (text self).

(** [self.text = text'] and [self.write_text = b] *)
Definition set_text (text' : string) (self : BaseWriter T) : BaseWriter T :=
  {| module_width := module_width self;
     module_height := module_height self;
     font_size := font_size self;
     quiet_zone := quiet_zone self;
     background := background self;
     foreground := foreground self;
     write_text := write_text self;
     text := text';
     human := human self;
     text_distance := text_distance self;
     text_line_distance := text_line_distance self;
     center_text := center_text self;
     supported_file_types := supported_file_types self;
     _file_type := _file_type self |}.

Definition set_write_text (b : bool) (self : BaseWriter T) : BaseWriter T :=
  {| module_width := module_width self;
     module_height := module_height self;
     font_size := font_size self;
     quiet_zone := quiet_zone self;
     background := background self;
     foreground := foreground self;
     write_text := b;
     text := text self;
     human := human self;
     text_distance := text_distance self;
     text_line_distance := text_line_distance self;
     center_text := center_text self;
     supported_file_types := supported_file_types self;
     _file_type := _file_type self |}.

(** A writer holding [Barcode.default_writer_options]. *)
Definition default_writer : BaseWriter T :=
  {| module_width := decimal 2 1;
     module_height := decimal 150 1;
     font_size := of_int 10;
     quiet_zone := decimal 65 1;
     background := "white";
     foreground := "black";
     write_text := true;
     text := EmptyString;
     human := EmptyString;
     text_distance := decimal 50 1;
     text_line_distance := of_int 1;
     center_text := true;
     supported_file_types := [];
     _file_type := None |}.

End SizeSpec.

(** [round(x)] on an exact rational: to the nearest integer, a tie to the
    even one. *)
Definition round_half_even (q : Q) : Z :=
  let n2 := 2 * Qnum q in
  let d2 := 2 * Zpos (Qden q) in
  let fl := Z.div (Qnum q) (Zpos (Qden q)) in
  let twice_frac := n2 - fl * d2 in
  if twice_frac <? Zpos (Qden q) then fl
  else if Zpos (Qden q) <? twice_frac then fl + 1
  else if Z.even fl then fl else fl + 1.

(** The rational a finite binary64 number is. *)
Definition float_exact (x : float) : option Q :=
  match Prim2SF x with
  | S754_zero _ => Some (inject_Z 0)
  | S754_finite s m e =>
      let v := (inject_Z (Zpos m) * Qpower (inject_Z 2) e)%Q in
      Some (if s then Qopp v else v)
  | _ => None
  end.

(** The default writer with the text of an EAN-13 code, in exact
    arithmetic. *)
Definition example_writer : BaseWriter Qc :=
  set_text "4006381333931" default_writer.

(** ** A writer that records the paint protocol *)

Section Recorder.
Context {T : Type} `{Number T}.
Local Open Scope num_scope.

(** One call of a callback, with its arguments. *)
Inductive call : Type :=
| Initialize (code : list string)
| PaintModule (xpos ypos width : T) (color : string)
| PaintText (xpos ypos : T)
| Finish.

(** A [BaseWriter] whose four callbacks append the call they receive to a
    list. *)
Record Recorder : Type := {
  rec_writer : BaseWriter T;
  rec_calls : list call
}.

Definition record (c : call) : M Recorder unit :=
  fun s =>
    ({| rec_writer := rec_writer s; rec_calls := rec_calls s ++ [c] |},
     Return tt).

Definition recorder_callbacks : Callbacks T Recorder unit := {|
  initialize := Some (fun code => record (Initialize code));
  paint_module :=
    Some (fun xpos ypos width color =>
            record (PaintModule xpos ypos width color));
  paint_text := Some (fun xpos ypos => record (PaintText xpos ypos));
  finish := Some (record Finish)
|}.

(** The calls [render(code)] makes on a writer with the options [w], and
    how it ends. *)
Definition render_recorded (w : BaseWriter T) (code : list string)
  : Recorder * result unit :=
  render rec_writer recorder_callbacks code
    {| rec_writer := w; rec_calls := [] |}.

Definition trace (w : BaseWriter T) (code : list string) : list call :=
  rec_calls (fst (render_recorded w code)).

(** The [paint_module] calls for the tokens of one line, from [xpos] on. *)
Fixpoint module_calls (w : BaseWriter T) (ypos xpos : T) (mlist : list Z)
  : list call :=
  match mlist with
  | [] => []
  | mod_ :: rest =>
      PaintModule xpos ypos (module_width w * of_int (Z.abs mod_))
        (if mod_ <? 1 then background w else foreground w)
      :: module_calls w ypos (xpos + module_width w * of_int (Z.abs mod_)) rest
  end.

(** [xpos] after the modules of one line. *)
Fixpoint xpos_after (w : BaseWriter T) (xpos : T) (mlist : list Z) : T :=
  match mlist with
  | [] => xpos
  | mod_ :: rest =>
      xpos_after w (xpos + module_width w * of_int (Z.abs mod_)) rest
  end.

(** The [paint_module] calls of the lines from line [cc] on: the modules of
    each line, and the right quiet zone unless the line is the last. *)
Fixpoint lines_calls (w : BaseWriter T) (len_code cc : Z) (ypos : T)
    (lines : list string) : list call :=
  match lines with
  | [] => []
  | line :: rest =>
      module_calls w ypos (quiet_zone w) (mlist line)
      ++ (if negb (cc + 1 =? len_code)
          then [PaintModule (xpos_after w (quiet_zone w) (mlist line)) ypos
                  (quiet_zone w) (background w)]
          else [])
      ++ lines_calls w len_code (cc + 1) (ypos + module_height w) rest
  end.

(** [ypos] and [(bxs, bxe)] after the loop over the lines. *)
Fixpoint lines_end (w : BaseWriter T) (ypos : T) (bx : option (T * T))
    (lines : list string) : T * option (T * T) :=
  match lines with
  | [] => (ypos, bx)
  | line :: rest =>
      lines_end w (ypos + module_height w)
        (Some (quiet_zone w, xpos_after w (quiet_zone w) (mlist line))) rest
  end.

Definition is_paint_module (c : call) : bool :=
  match c with
  | PaintModule _ _ _ _ => true
  | _ => false
  end.

End Recorder.

Arguments call T : clear implicits.
Arguments Recorder T : clear implicits.

(** In exact arithmetic: where the modules of a line end, the vertical
    position of line [k], and the calls of line [k] of [n]. *)
Definition body_end (w : BaseWriter Qc) (line : string) : Qc :=
  (quiet_zone w + module_width w * Qc_of_int (sum_abs (mlist line)))%Qc.



(** The calls of [render] after the loop over the lines, [after] being
    [ypos] and [(bxs, bxe)] as the loop left them: the text, if there is
    one, and [finish]; nothing when [bxs] is unbound, as [render] raises
    then. *)
Definition closing_calls (w : BaseWriter Qc) (after : Qc * option (Qc * Qc))
  : list (call Qc) :=
  if str_truth (text w) then
    match snd after with
    | Some (bxs, bxe) =>
        [PaintText
           (if center_text w then (bxs + (bxe - bxs) / Qc_decimal 20 1)%Qc
            else bxs)
           (fst after + text_distance w)%Qc;
         Finish]
    | None => []
    end
  else [Finish].

(** Where the text goes, as the specification states it, for a code whose
    last line is [line]: the midpoint of the body, from the end of the left
    quiet zone to the end of the modules, when [center_text] is set, and
    the start of the body otherwise. *)
Definition text_xpos (w : BaseWriter Qc) (line : string) : Qc :=
  if center_text w
  then ((quiet_zone w + body_end w line) / Qc_of_int 2)%Qc
  else quiet_zone w.

(** ** writer.py: the SVG writer *)

(** The part of [xml.dom.minidom] the writer uses.  Nodes are objects of
    the document, named by their index in its store; an element holds its
    attributes in the order they were first set, and the indices of its
    children. *)
Inductive dom_node : Type :=
| ElementNode (tagName : string) (attributes : list (string * string))
    (childNodes : list nat)
| CommentNode (data : string)
| TextNode (data : string).

Record Document : Type := {
  doctype : string * string * string;
  nodes : list dom_node;
  documentElement : nat
}.

(** A new node of the document; the value is its index. *)
Definition createNode (n : dom_node) (d : Document) : Document * nat :=
  ({| doctype := doctype d;
      nodes := nodes d ++ [n];
      documentElement := documentElement d |},
   length (nodes d)).

Definition createElement (tagName : string) : Document -> Document * nat :=
  createNode (ElementNode tagName [] []).

Definition createComment (data : string) : Document -> Document * nat :=
  createNode (CommentNode data).

Definition createTextNode (data : string) : Document -> Document * nat :=
  createNode (TextNode data).

Definition update_node (i : nat) (f : dom_node -> dom_node) (d : Document)
  : Document :=
  {| doctype := doctype d;
     nodes := alter f i (nodes d);
     documentElement := documentElement d |}.

(** [attrs[key] = value] on an ordered dictionary. *)
Fixpoint dict_set {V : Type} (key : string) (value : V)
    (attrs : list (string * V)) : list (string * V) :=
  match attrs with
  | [] => [(key, value)]
  | (k, v) :: rest =>
      if String.eqb k key then (k, value) :: rest
      else (k, v) :: dict_set key value rest
  end.

(** [element.setAttribute(key, value)] *)
Definition setAttribute (element : nat) (key value : string)
  : Document -> Document :=
  update_node element (fun n =>
    match n with
    | ElementNode tag attrs children =>
        ElementNode tag (dict_set key value attrs) children
    | _ => n
    end).

(** [parent.appendChild(child)], of a child that has no parent yet. *)
Definition appendChild (parent child : nat) : Document -> Document :=
  update_node parent (fun n =>
    match n with
    | ElementNode tag attrs children =>
        ElementNode tag attrs (children ++ [child])
    | _ => n
    end).

(** [_set_attributes(element, **attributes)] *)
Definition _set_attributes (element : nat)
    (attributes : list (string * string)) (d : Document) : Document :=
  fold_left (fun d kv => setAttribute element (fst kv) (snd kv) d)
            attributes d.

(** [create_svg_object()] *)
Definition create_svg_object : Document :=
  let document :=
    {| doctype := ("svg", "-//W3C//DTD SVG 1.1//EN",
                   "http://www.w3.org/Graphics/SVG/1.1/DTD/svg11.dtd");
       nodes := [ElementNode "svg" [] []];
       documentElement := 0%nat |} in
  _set_attributes (documentElement document)
    [("version", "1.1"); ("xmlns", "http://www.w3.org/2000/svg")] document.

(** [s.split(sep)] for a separator of one character. *)
Fixpoint split_char (sep : ascii) (cur : string) (s : string) : list string :=
  match s with
  | EmptyString => [cur]
  | String c rest =>
      if ascii_eqb c sep then cur :: split_char sep EmptyString rest
      else split_char sep (cur +:+ String c EmptyString) rest
  end.

Section SVG.
Context {T : Type} `{Number T}.
(** [barcode.version.version], a module the sources at hand do not hold. *)
Variable version : string.
(** The built-in formatting of numbers: [SIZE.format(x)], that is
    ["{0:.3f}mm".format(x)], and ["{0}".format(x)]. *)
Variable format_size : T -> string.
Variable format_number : T -> string.
(** [minidom]'s serialisers: [document.toxml(encoding="UTF-8")] and
    [document.toprettyxml(indent=4 * " ", newl=os.linesep,
    encoding="UTF-8")]. *)
Variable toxml : Document -> string.
Variable toprettyxml : Document -> string.
Local Open Scope num_scope.
Local Open Scope M_scope.

Definition COMMENT : string := "Autogenerated with python-barcode " +:+ version.

(** The attributes of an [SVGWriter]: those of the base class, [compress]
    and [dpi], and the document under construction with the two nodes of
    it the writer keeps a reference to. *)
Record SVGWriter : Type := {
  base : BaseWriter T;
  compress : bool;
  dpi : T;
  _document : option Document;
  _root : option nat;
  _group : option nat
}.

(** [SVGWriter.__init__] *)
Definition SVGWriter_init : SVGWriter := {|
  base :=
    {| module_width := of_int 10;
       module_height := of_int 10;
       font_size := of_int 10;
       quiet_zone := decimal 65 1;
       background := "white";
       foreground := "black";
       write_text := true;
       text := EmptyString;
       human := EmptyString;
       text_distance := of_int 5;
       text_line_distance := of_int 1;
       center_text := true;
       supported_file_types := ["SVG"];
       _file_type := Some "SVG" |};
  compress := false;
  dpi := decimal 254 1;
  _document := None;
  _root := None;
  _group := None
|}.

(** What of the writer a pass reads and never writes. *)
Definition svg_options (self : SVGWriter) : BaseWriter T * bool * T :=
  (base self, compress self, dpi self).

(** [self._document = d] *)
Definition set_document (d : Document) (self : SVGWriter) : SVGWriter :=
  {| base := base self; compress := compress self; dpi := dpi self;
     _document := Some d; _root := _root self; _group := _group self |}.

(** An attribute that holds [None] where an object is needed. *)
Definition none_has_no (name : string) : exn := AttributeError name.

(** [SVGWriter._init(code)] *)
Definition _init (code : list string) : M SVGWriter unit := fun self =>
  match code with
  | [] => (self, Raise IndexError)
  | line0 :: _ =>
      match calculate_size (base self) (Z.of_nat (String.length line0))
              (Z.of_nat (length code)) (dpi self) with
      | Raise e => (self, Raise e)
      | Return (width, height) =>
          let document := create_svg_object in
          let root := documentElement document in
          let document :=
            _set_attributes root
              [("width", format_size (of_int width));
               ("height", format_size (of_int height))] document in
          let '(document, comment) := createComment COMMENT document in
          let document := appendChild root comment document in
          let '(document, group) := createElement "g" document in
          let document :=
            _set_attributes group [("id", "barcode_group")] document in
          let document := appendChild root group document in
          let '(document, background_rect) :=
            createElement "rect" document in
          let document :=
            _set_attributes background_rect
              [("width", "100%"); ("height", "100%");
               ("style", "fill:" +:+ background (base self))] document in
          let document := appendChild group background_rect document in
          ({| base := base self; compress := compress self;
              dpi := dpi self; _document := Some document;
              _root := Some root; _group := Some group |},
           Return tt)
      end
  end.

(** [SVGWriter._create_module(xpos, ypos, width, color)] *)
Definition _create_module (xpos ypos width : T) (color : string)
  : M SVGWriter unit := fun self =>
  match _document self with
  | None => (self, Raise (none_has_no "createElement"))
  | Some document =>
      let '(document, element) := createElement "rect" document in
      let document :=
        _set_attributes element
          [("x", format_size xpos);
           ("y", format_size ypos);
           ("width", format_size width);
           ("height", format_size (module_height (base self)));
           ("style", "fill:" +:+ color +:+ ";")] document in
      match _group self with
      | None => (set_document document self, Raise (none_has_no "appendChild"))
      | Some group =>
          (set_document (appendChild group element document) self, Return tt)
      end
  end.

(** One turn of the loop [for subtext in barcodetext.split("\n")]. *)
Definition create_text_line (xpos ypos : T) (subtext : string)
  : M SVGWriter unit := fun self =>
  match _document self with
  | None => (self, Raise (none_has_no "createElement"))
  | Some document =>
      let '(document, element) := createElement "text" document in
      let document :=
        _set_attributes element
          [("x", format_size xpos);
           ("y", format_size ypos);
           ("style",
            "fill:" +:+ foreground (base self) +:+ ";font-size:"
            +:+ format_number (font_size (base self))
            +:+ "pt;text-anchor:middle;")] document in
      let '(document, text_element) := createTextNode subtext document in
      let document := appendChild element text_element document in
      match _group self with
      | None => (set_document document self, Raise (none_has_no "appendChild"))
      | Some group =>
          (set_document (appendChild group element document) self, Return tt)
      end
  end.

Fixpoint create_text_lines (xpos ypos : T) (subtexts : list string)
  : M SVGWriter unit :=
  match subtexts with
  | [] => mret tt
  | subtext :: rest =>
      let* _ := create_text_line xpos ypos subtext in
      let* self := mget in
      create_text_lines xpos
        (ypos + (pt2mm (font_size (base self))
                 + text_line_distance (base self))) rest
  end.

(** [SVGWriter._create_text(xpos, ypos)] *)
Definition _create_text (xpos ypos : T) : M SVGWriter unit :=
  let* self := mget in
  let barcodetext :=
    if str_truth (human (base self)) then human (base self)
    else text (base self) in
  create_text_lines xpos ypos (split_char "010" EmptyString barcodetext).

(** [SVGWriter._finish()] *)
Definition _finish : M SVGWriter string := fun self =>
  match _document self with
  | None => (self, Raise (none_has_no (if compress self then "toxml"
                                       else "toprettyxml")))
  | Some document =>
      (self, Return (if compress self then toxml document
                     else toprettyxml document))
  end.

(** The callbacks [SVGWriter.__init__] hands to [BaseWriter.__init__]. *)
Definition svg_callbacks : Callbacks T SVGWriter string := {|
  initialize := Some _init;
  paint_module := Some _create_module;
  paint_text := Some _create_text;
  finish := Some _finish
|}.

(** [SVGWriter.render(code)], inherited from [BaseWriter]. *)
Definition svg_render (code : list string) : M SVGWriter string :=
  render base svg_callbacks code.

End SVG.

Arguments SVGWriter T : clear implicits.

(** The writer holds a document and its group: [_init] has run. *)
Definition svg_ready (s : SVGWriter Qc) : Prop :=
  (exists d, _document s = Some d) /\ (exists g, _group s = Some g).

(** ** Objects, attributes and options *)

Section Objects.
Context {T : Type} `{Number T}.
Local Open Scope M_scope.

(** The values an attribute or an option can hold; [VObj] is any other
    object, by a name. *)
#[warnings="-register-all"]
Inductive pyval : Type :=
| VNone
| VBool (b : bool)
| VInt (z : Z)
| VFloat (x : T)
| VStr (s : string)
| VList (items : list pyval)
| VObj (name : string).

(** [a == b] *)
Definition as_int (v : pyval) : option Z :=
  match v with
  | VBool b => Some (if b then 1 else 0)
  | VInt z => Some z
  | _ => None
  end.

Definition as_number (v : pyval) : option T :=
  match v with
  | VFloat x => Some x
  | _ => option_map of_int (as_int v)
  end.

Fixpoint py_eq (a b : pyval) : bool :=
  match a, b with
  | VNone, VNone => true
  | VStr s, VStr t => String.eqb s t
  | VObj s, VObj t => String.eqb s t
  | VList l, VList m =>
      (fix all_eq (l m : list pyval) : bool :=
         match l, m with
         | [], [] => true
         | x :: l', y :: m' => py_eq x y && all_eq l' m'
         | _, _ => false
         end) l m
  | _, _ =>
      match as_int a, as_int b with
      | Some x, Some y => x =? y
      | _, _ =>
          match as_number a, as_number b with
          | Some x, Some y => num_eqb x y
          | _, _ => false
          end
      end
  end.

(** [x in container] *)
Definition py_in (x container : pyval) : result bool :=
  match container with
  | VList items => Return (existsb (py_eq x) items)
  | VStr hay =>
      match x with
      | VStr needle => Return (str_contains needle hay)
      | _ => Raise (TypeError "'in <string>' requires string as left operand")
      end
  | _ => Raise (TypeError "argument is not iterable")
  end.

(** A dictionary in the order of insertion. *)
Definition dict : Type := list (string * pyval).

(** [dict(d, **kwargs)] *)
Definition dict_update (d kwargs : dict) : dict :=
  fold_left (fun acc kv => dict_set (fst kv) (snd kv) acc) kwargs d.

(** An object: the attributes of the instance, and the names its class
    and the classes above define. *)
Record pyobject : Type := {
  instance_dict : gmap string pyval;
  class_attrs : list string
}.

(** The names [object] defines; each starts with two underscores. *)
Definition object_attrs : list string :=
  ["__class__"; "__delattr__"; "__dict__"; "__dir__"; "__doc__"; "__eq__";
   "__format__"; "__ge__"; "__getattribute__"; "__gt__"; "__hash__";
   "__init__"; "__init_subclass__"; "__le__"; "__lt__"; "__module__";
   "__ne__"; "__new__"; "__reduce__"; "__reduce_ex__"; "__repr__";
   "__setattr__"; "__sizeof__"; "__str__"; "__subclasshook__";
   "__weakref__"].

(** The names [BaseWriter] and [SVGWriter] define. *)
Definition BaseWriter_attrs : list string :=
  ["file_type"; "calculate_size"; "save"; "register_callback";
   "set_options"; "render"].

Definition SVGWriter_attrs : list string :=
  ["_init"; "_create_module"; "_create_text"; "_finish"; "save"].

(** [hasattr(self, key)] *)
Definition hasattr (self : pyobject) (key : string) : bool :=
  match instance_dict self !! key with
  | Some _ => true
  | None => existsb (String.eqb key) (class_attrs self)
  end.

Definition set_instance_attr (key : string) (val : pyval) (self : pyobject)
  : pyobject :=
  {| instance_dict := <[key := val]> (instance_dict self);
     class_attrs := class_attrs self |}.

(** The setter of the property [file_type]. *)
Definition file_type_setter (file_type : pyval) : M pyobject unit :=
  fun self =>
    match instance_dict self !! "supported_file_types" with
    | None => (self, Raise (AttributeError "supported_file_types"))
    | Some supported =>
        match py_in file_type supported with
        | Raise e => (self, Raise e)
        | Return true =>
            (set_instance_attr "_file_type" file_type self, Return tt)
        | Return false =>
            (self, Raise (ValueError "file_type not supported"))
        end
    end.

(** [setattr(self, key, val)] on a writer: [file_type] is a property of
    the class with a setter; any other name becomes an attribute of the
    instance. *)
Definition setattr (key : string) (val : pyval) : M pyobject unit :=
  fun self =>
    if String.eqb key "file_type"
       && existsb (String.eqb "file_type") (class_attrs self)
    then file_type_setter val self
    else (set_instance_attr key val self, Return tt).

(** [BaseWriter.set_options(options)] *)
Fixpoint set_options (options : dict) : M pyobject unit :=
  match options with
  | [] => mret tt
  | (key, val) :: rest =>
      let key := lstrip_underscore key in
      let* self := mget in
      let* _ := if hasattr self key then setattr key val else mret tt in
      set_options rest
  end.

(** An option [set_options] acts on: its name, the leading underscores
    apart, is an attribute of the writer. *)
Definition known_option (self : pyobject) (kv : string * pyval) : bool :=
  hasattr self (lstrip_underscore (fst kv)).

(** The object an [SVGWriter] in state [w] is. *)
Definition object_of_SVGWriter (w : SVGWriter T) : pyobject :=
  let opt_obj {A} (name : string) (o : option A) :=
    match o with Some _ => VObj name | None => VNone end in
  {| instance_dict :=
       list_to_map
         [("_callbacks", VObj "dict");
          ("module_width", VFloat (module_width (base w)));
          ("module_height", VFloat (module_height (base w)));
          ("font_size", VFloat (font_size (base w)));
          ("quiet_zone", VFloat (quiet_zone (base w)));
          ("background", VStr (background (base w)));
          ("foreground", VStr (foreground (base w)));
          ("write_text", VBool (write_text (base w)));
          ("text", VStr (text (base w)));
          ("human", VStr (human (base w)));
          ("text_distance", VFloat (text_distance (base w)));
          ("text_line_distance", VFloat (text_line_distance (base w)));
          ("center_text", VBool (center_text (base w)));
          ("supported_file_types",
           VList (map VStr (supported_file_types (base w))));
          ("_file_type",
           match _file_type (base w) with
           | Some s => VStr s
           | None => VNone
           end);
          ("compress", VBool (compress w));
          ("dpi", VFloat (dpi w));
          ("_document", opt_obj "Document" (_document w));
          ("_root", opt_obj "Element" (_root w));
          ("_group", opt_obj "Element" (_group w))];
     class_attrs := SVGWriter_attrs ++ BaseWriter_attrs ++ object_attrs |}.

End Objects.

Arguments pyval T : clear implicits.
Arguments pyobject T : clear implicits.
Arguments dict T : clear implicits.

(** ** __init__.py: the registry of symbologies *)

(** The barcode classes [__init__.py] imports. *)
Inductive barcode_class : Type :=
| EAN8 | EAN13 | EAN14 | JAN | UPCA | ISBN13 | ISBN10 | ISSN
| Code39 | PZN | Code128 | ITF | Gs1_128.

Definition __BARCODE_MAP : gmap string barcode_class :=
  list_to_map
    [("ean8", EAN8);
     ("ean13", EAN13);
     ("ean", EAN13);
     ("gtin", EAN14);
     ("ean14", EAN14);
     ("jan", JAN);
     ("upc", UPCA);
     ("upca", UPCA);
     ("isbn", ISBN13);
     ("isbn13", ISBN13);
     ("gs1", ISBN13);
     ("isbn10", ISBN10);
     ("issn", ISSN);
     ("code39", Code39);
     ("pzn", PZN);
     ("code128", Code128);
     ("itf", ITF);
     ("gs1_128", Gs1_128)].

Section Registry.
Context {T : Type} `{Number T}.

(** A barcode object: its class, the code it was made from, its writer,
    and the [default_writer_options] its class gives it. *)
Record Barcode : Type := {
  barcode_type : barcode_class;
  barcode_code : pyval T;
  writer : pyobject T;
  default_writer_options : dict T
}.

(** [Barcode.default_writer_options] of base.py. *)
Definition Barcode_default_writer_options : dict T :=
  [("module_width", VFloat (decimal 2 1));
   ("module_height", VFloat (decimal 150 1));
   ("quiet_zone", VFloat (decimal 65 1));
   ("font_size", VInt 10);
   ("text_distance", VFloat (decimal 50 1));
   ("background", VStr "white");
   ("foreground", VStr "black");
   ("write_text", VBool true);
   ("text", VStr EmptyString)].

(** The constructors of the barcode classes, [barcode(code, writer)]:
    the modules that define them are not among the sources at hand. *)
Variable construct :
  barcode_class -> pyval T -> option (pyobject T) -> result Barcode.
(** [str(writer_options)], the built-in of Python. *)
Variable str_of_dict : dict T -> string.

(** What [get] returns: a class when [code] is [None], a barcode
    otherwise. *)
Inductive got : Type :=
| GotClass (c : barcode_class)
| GotBarcode (bc : Barcode).

(** [str(e)] of a [TypeError]. *)
Definition type_error_message (e : exn) : option string :=
  match e with
  | TypeError msg => Some msg
  | _ => None
  end.

(** [get(name, code=None, writer=None, writer_options=None)]; the value
    is what the call printed and how it ended. *)
Definition get (name : string) (code : option (pyval T))
    (writer_arg : option (pyobject T)) (writer_options : option (dict T))
  : list string * result got :=
  let writer_options :=
    match writer_options with
    | Some d => d
    | None => []
    end in
  match __BARCODE_MAP !! lower name with
  | None => ([], Raise (BarcodeNotFoundError name))
  | Some barcode =>
      match code with
      | Some code =>
          let attempt :=
            rbind (construct barcode code writer_arg) (fun bc =>
              match
                set_options
                  (dict_update (default_writer_options bc) writer_options)
                  (writer bc)
              with
              | (w, Return _) =>
                  Return (GotBarcode
                            {| barcode_type := barcode_type bc;
                               barcode_code := barcode_code bc;
                               writer := w;
                               default_writer_options :=
                                 default_writer_options bc |})
              | (_, Raise e) => Raise e
              end) in
          match attempt with
          | Raise (TypeError msg) =>
              if str_contains "unexpected keyword argument" msg then
                (["ERROR: The selected barcode does not support the "
                  +:+ "selected writer_options: "
                  +:+ str_of_dict writer_options +:+ "."],
                 Raise (SystemExit 1))
              else ([], Raise (TypeError msg))
          | r => ([], r)
          end
      | None => ([], Return (GotClass barcode))
      end
  end.

(** ** base.py: writing a barcode to a file *)

(** What [Barcode.render] returns (bytes or an image), and a file-like
    object. *)
Context {rendered file : Type}.
(** [Barcode.render(text)]; it calls [build] and [get_fullcode], which the
    classes of the missing modules define. *)
Variable Barcode_render : Barcode -> pyval T -> result rendered.
(** [hasattr(output, "tostring")], [output.save(fp, format=...)] and
    [fp.write(output)], of the imaging library and the file object. *)
Variable has_tostring : rendered -> bool.
Variable image_save : rendered -> file -> file * result unit.
Variable file_write : file -> rendered -> file * result unit.

(** The names of the module [barcode.base] and the built-in names. *)
Definition base_globals : list string :=
  ["__name__"; "__doc__"; "__package__"; "__loader__"; "__spec__";
   "__file__"; "__cached__"; "__builtins__"; "SVGWriter"; "Barcode"].

Definition builtin_names : list string :=
  ["ArithmeticError"; "AssertionError"; "AttributeError"; "BaseException";
   "BaseExceptionGroup"; "BlockingIOError"; "BrokenPipeError"; "BufferError";
   "BytesWarning"; "ChildProcessError"; "ConnectionAbortedError";
   "ConnectionError"; "ConnectionRefusedError"; "ConnectionResetError";
   "DeprecationWarning"; "EOFError"; "Ellipsis"; "EncodingWarning";
   "EnvironmentError"; "Exception"; "ExceptionGroup"; "False";
   "FileExistsError"; "FileNotFoundError"; "FloatingPointError";
   "FutureWarning"; "GeneratorExit"; "IOError"; "ImportError";
   "ImportWarning"; "IndentationError"; "IndexError"; "InterruptedError";
   "IsADirectoryError"; "KeyError"; "KeyboardInterrupt"; "LookupError";
   "MemoryError"; "ModuleNotFoundError"; "NameError"; "None";
   "NotADirectoryError"; "NotImplemented"; "NotImplementedError"; "OSError";
   "OverflowError"; "PendingDeprecationWarning"; "PermissionError";
   "ProcessLookupError"; "RecursionError"; "ReferenceError";
   "ResourceWarning"; "RuntimeError"; "RuntimeWarning";
   "StopAsyncIteration"; "StopIteration"; "SyntaxError"; "SyntaxWarning";
   "SystemError"; "SystemExit"; "TabError"; "TimeoutError"; "True";
   "TypeError"; "UnboundLocalError"; "UnicodeDecodeError";
   "UnicodeEncodeError"; "UnicodeError"; "UnicodeTranslateError";
   "UnicodeWarning"; "UserWarning"; "ValueError"; "Warning";
   "ZeroDivisionError"; "__build_class__"; "__debug__"; "__doc__";
   "__import__"; "__loader__"; "__name__"; "__package__"; "__spec__";
   "abs"; "aiter"; "all"; "anext"; "any"; "ascii"; "bin"; "bool";
   "breakpoint"; "bytearray"; "bytes"; "callable"; "chr"; "classmethod";
   "compile"; "complex"; "copyright"; "credits"; "delattr"; "dict"; "dir";
   "divmod"; "enumerate"; "eval"; "exec"; "exit"; "filter"; "float";
   "format"; "frozenset"; "getattr"; "globals"; "hasattr"; "hash"; "help";
   "hex"; "id"; "input"; "int"; "isinstance"; "issubclass"; "iter"; "len";
   "license"; "list"; "locals"; "map"; "max"; "memoryview"; "min"; "next";
   "object"; "oct"; "open"; "ord"; "pow"; "print"; "property"; "quit";
   "range"; "repr"; "reversed"; "round"; "set"; "setattr"; "slice";
   "sorted"; "staticmethod"; "str"; "sum"; "super"; "tuple"; "type";
   "vars"; "zip"].

(** Reading a name that the function does not bind: the globals of the
    module, then the built-ins. *)
Definition load_global (name : string) : result (pyval T) :=
  if existsb (String.eqb name) base_globals
     || existsb (String.eqb name) builtin_names
  then Return (VObj name)
  else Raise (NameError name).

(** A call of [self.render] with the positional arguments [args]:
    [render(self, text=None)] takes one argument besides [self] at most. *)
Definition call_render (self : Barcode) (args : list (pyval T))
  : result rendered :=
  match args with
  | [] => Barcode_render self VNone
  | [text] => Barcode_render self text
  | _ =>
      Raise (TypeError
               "render() takes from 1 to 2 positional arguments but 3 were given")
  end.

(** [Barcode.write(fp, text=None)] *)
Definition write (self : Barcode) (fp : file) (text : pyval T)
  : file * result unit :=
  match load_global "options" with
  | Raise e => (fp, Raise e)
  | Return options =>
      match call_render self [options; text] with
      | Raise e => (fp, Raise e)
      | Return output =>
          if has_tostring output then image_save output fp
          else file_write fp output
      end
  end.

End Registry.

(** Exposing the exact arithmetic behind the operations of [Number]. *)
Ltac num_unfold :=
  cbn [of_int decimal add sub mul truediv num_truth int_of Qc_Number] in *.

(** ** The geometry of the paint calls *)

Section Geometry.
Context {T : Type} `{Number T}.
Local Open Scope num_scope.

(** How one [paint_module] call follows another: on the same line it
    starts where the other ended; or the other was the right quiet zone of
    a line, and it starts the next line at the left quiet zone, one module
    height lower. *)
Definition follows (w : BaseWriter T) (c1 c2 : call T) : Prop :=
  match c1, c2 with
  | PaintModule x y wd _, PaintModule x' y' _ _ =>
      (x' = x + wd /\ y' = y) \/
      (wd = quiet_zone w /\ x' = quiet_zone w /\ y' = y + module_height w)
  | _, _ => True
  end.

Fixpoint chained (w : BaseWriter T) (calls : list (call T)) : Prop :=
  match calls with
  | c1 :: ((c2 :: _) as rest) => follows w c1 c2 /\ chained w rest
  | _ => True
  end.

(** The first call, if there is one, is at the left quiet zone on the
    line at [ypos]. *)
Definition starts_at (w : BaseWriter T) (ypos : T) (calls : list (call T))
  : Prop :=
  match calls with
  | PaintModule x y _ _ :: _ => x = quiet_zone w /\ y = ypos
  | _ => True
  end.

End Geometry.




(** How [render] ends on a writer whose callbacks do not raise, in exact
    arithmetic, as the code shows it: [bxs] is read for the text, and is
    bound by the first line only. *)
Definition render_result (w : BaseWriter Qc) (code : list string)
  : result unit :=
  if str_truth (text w) then
    match code with
    | [] => Raise (UnboundLocalError "bxs")
    | _ :: _ => Return tt
    end
  else Return tt.

(** ** The calls of a pass, made on any writer *)

Section Replay.
Context {T : Type} `{Number T} {S Out : Type}.
Variable _callbacks : Callbacks T S Out.
Local Open Scope num_scope.
Local Open Scope M_scope.

(** Where [render] paints the text, [bx] being [(bxs, bxe)] as the loop
    over the lines left them. *)
Definition text_position (w : BaseWriter T) (bx : option (T * T)) : result T :=
  match bx with
  | None => Raise (UnboundLocalError "bxs")
  | Some (bxs, bxe) =>
      if center_text w then
        rbind (truediv (bxe - bxs) (decimal 20 1))
              (fun half => Return (bxs + half))
      else Return bxs
  end.

(** One recorded call, made on the writer; [out] is what [finish] returned
    so far. *)
Definition perform (c : call T) (out : option Out) : M S (option Out) :=
  match c with
  | Initialize code =>
      match initialize _callbacks with
      | Some f => let* _ := f code in mret out
      | None => mret out
      end
  | PaintModule xpos ypos width color =>
      let* _ := call_paint_module _callbacks xpos ypos width color in mret out
  | PaintText xpos ypos =>
      match paint_text _callbacks with
      | Some f => let* _ := f xpos ypos in mret out
      | None => mret out
      end
  | Finish =>
      match finish _callbacks with
      | Some f => let* out := f in mret (Some out)
      | None => mraise not_callable
      end
  end.

Fixpoint perform_all (calls : list (call T)) (out : option Out)
  : M S (option Out) :=
  match calls with
  | [] => mret out
  | c :: rest => let* out := perform c out in perform_all rest out
  end.

(** The calls a recording writer with the options [w] received, made one
    after the other on the writer; the pass ends as it ended on the
    recording writer, with what [finish] returned. *)
Definition replay (w : BaseWriter T) (code : list string) : M S Out :=
  let* out := perform_all (trace w code) None in
  match snd (render_recorded w code), out with
  | Raise e, _ => mraise e
  | Return _, Some out => mret out
  | Return _, None => mraise not_callable
  end.

End Replay.

(** ** __init__.py: the names of the registry, and [generate] *)

(** [list.sort()] on strings: ascending, code point by code point. *)
Fixpoint insert_sorted (x : string) (l : list string) : list string :=
  match l with
  | [] => [x]
  | y :: rest =>
      if String.leb x y then x :: l else y :: insert_sorted x rest
  end.

Definition sort (l : list string) : list string :=
  fold_right insert_sorted [] l.

(** [PROVIDED_BARCODES]: the keys of the registry, sorted; the order
    [list(__BARCODE_MAP)] gives them in is lost in the sorting. *)
Definition PROVIDED_BARCODES : list string :=
  sort (map fst (map_to_list __BARCODE_MAP)).

Section Generate.
Context {T : Type} `{Number T} {rendered file files : Type}.
Variable construct :
  barcode_class -> pyval T -> option (pyobject T) -> result (Barcode (T:=T)).
Variable str_of_dict : dict T -> string.
Variable Barcode_render : Barcode (T:=T) -> pyval T -> result rendered.
Variable has_tostring : rendered -> bool.
Variable image_save : rendered -> file -> file * result unit.
Variable file_write : file -> rendered -> file * result unit.
(** [self.writer.save(filename, output)], the method of the class of the
    writer, on the files there are. *)
Variable writer_save :
  pyobject T -> string -> rendered -> files -> files * result string.

(** [get_class(name)] *)
Definition get_class (name : string) : list string * result got :=
  get construct str_of_dict name None None None.

(** [Barcode.save(filename, text=None)] *)
Definition save (self : Barcode) (filename : string) (text : pyval T)
  : M files string := fun fs =>
  match Barcode_render self text with
  | Raise e => (fs, Raise e)
  | Return output => writer_save (writer self) filename output fs
  end.

(** What [generate] returns: the output of [render], the name of the
    file saved, or [None]. *)
Inductive generated : Type :=
| Rendered (raw : rendered)
| Saved (fullname : string)
| Written.

(** What [generate] leaves behind: the lines printed, the files, and the
    file object handed in as [output], if it was one. *)
Record outcome : Type := {
  printed : list string;
  stored : files;
  output_file : option file;
  value : result generated
}.

(** [generate(name, code, writer=None, output=None, writer_options=None,
    text=None, pil=False)] for a [code] that is a string; [output] is a
    string or another object. *)
Definition generate (name code : string) (writer_arg : option (pyobject T))
    (output : string + file) (writer_options : option (dict T))
    (text : pyval T) (pil : bool) (fs : files) : outcome :=
  let writer_options :=
    match writer_options with
    | Some d => d
    | None => []
    end in
  let fp := match output with inr fp => Some fp | inl _ => None end in
  match get construct str_of_dict name (Some (VStr code)) writer_arg
          (Some writer_options) with
  | (lines, Raise e) =>
      {| printed := lines; stored := fs; output_file := fp;
         value := Raise e |}
  | (lines, Return (GotClass _)) =>
      (* not reached: [code] is not [None] *)
      {| printed := lines; stored := fs; output_file := fp;
         value := Raise (TypeError "missing 1 required positional argument") |}
  | (lines, Return (GotBarcode barcode)) =>
      if pil then
        {| printed := lines; stored := fs; output_file := fp;
           value :=
             match Barcode_render barcode text with
             | Return raw => Return (Rendered raw)
             | Raise e => Raise e
             end |}
      else
        match output with
        | inl filename =>
            let '(fs, r) := save barcode filename text fs in
            {| printed := lines; stored := fs; output_file := None;
               value :=
                 match r with
                 | Return fullname => Return (Saved fullname)
                 | Raise e => Raise e
                 end |}
        | inr fp =>
            let '(fp, r) :=
              write Barcode_render has_tostring image_save file_write
                barcode fp text in
            {| printed := lines; stored := fs; output_file := Some fp;
               value :=
                 match r with
                 | Return _ => Return Written
                 | Raise e => Raise e
                 end |}
        end
  end.

End Generate.

(** ** writer.py: a new image writer; pybarcode.py: the file types *)

Section ImageObject.
Context {T : Type} `{Number T}.

(** The names [ImageWriter] defines. *)
Definition ImageWriter_attrs : list string :=
  ["_init"; "_paint_module"; "_paint_text"; "_finish"; "save"].

(** The object [BaseWriter.__init__] leaves, for a class that defines the
    names [attrs] besides those of [BaseWriter]. *)
Definition BaseWriter_object (attrs : list string) : pyobject T :=
  {| instance_dict :=
       list_to_map
         [("_callbacks", VObj "dict");
          ("module_width", VInt 10);
          ("module_height", VInt 10);
          ("font_size", VInt 10);
          ("quiet_zone", VFloat (decimal 65 1));
          ("background", VStr "white");
          ("foreground", VStr "black");
          ("write_text", VBool true);
          ("text", VStr EmptyString);
          ("human", VStr EmptyString);
          ("text_distance", VInt 5);
          ("text_line_distance", VInt 1);
          ("center_text", VBool true);
          ("supported_file_types", VList []);
          ("_file_type", VNone)];
     class_attrs := attrs ++ BaseWriter_attrs ++ object_attrs |}.

(** [ImageWriter.__init__(file_type)], with the imaging library at hand:
    the writer, or the exception of the setter of [file_type]. *)
Definition ImageWriter_init (file_type : pyval T) : result (pyobject T) :=
  let self := BaseWriter_object ImageWriter_attrs in
  let self := set_instance_attr "dpi" (VInt 600) self in
  let self := set_instance_attr "_image" VNone self in
  let self := set_instance_attr "_draw" VNone self in
  let self :=
    set_instance_attr "supported_file_types"
      (VList (map VStr ["PNG"; "BMP"; "GIF"; "JPEG"; "MSP"; "PCX"; "PNG";
                        "TIFF"; "XBM"])) self in
  match setattr "file_type" file_type self with
  | (self, Return _) => Return self
  | (_, Raise e) => Raise e
  end.

End ImageObject.

(** [FILETYPES] of pybarcode.py. *)
Definition FILETYPES : list string :=
  ["SVG"; "BMP"; "GIF"; "JPEG"; "MSP"; "PCX"; "PNG"; "TIFF"; "XBM"].

(** ** The document of the SVG writer, as a tree *)

(** The tree below a node of a document. *)
#[warnings="-register-all"]
Inductive xml : Type :=
| XElement (tagName : string) (attributes : list (string * string))
    (childNodes : list xml)
| XComment (data : string)
| XText (data : string).

(** [f] on every element of a list, if it gives a value on each. *)
Fixpoint map_option {A B : Type} (f : A -> option B) (l : list A)
  : option (list B) :=
  match l with
  | [] => Some []
  | x :: rest =>
      match f x, map_option f rest with
      | Some y, Some ys => Some (y :: ys)
      | _, _ => None
      end
  end.

(** The tree below node [i] of the store [nodes], down to [depth]
    levels. *)
Fixpoint subtree (depth : nat) (nodes : list dom_node) (i : nat)
  : option xml :=
  match depth with
  | O => None
  | S depth =>
      match nodes !! i with
      | Some (ElementNode tagName attributes childNodes) =>
          option_map (XElement tagName attributes)
            (map_option (subtree depth nodes) childNodes)
      | Some (CommentNode data) => Some (XComment data)
      | Some (TextNode data) => Some (XText data)
      | None => None
      end
  end.

(** The tree of the document; no tree is deeper than the store is long. *)
Definition document_tree (d : Document) : option xml :=
  subtree (length (nodes d)) (nodes d) (documentElement d).

(** What the group of the document holds after the background: the
    rectangle of a module, or a line of the text with its text node. *)
Inductive group_item : Type :=
| RectItem (attributes : list (string * string))
| TextItem (attributes : list (string * string)) (subtext : string).

Definition item_xml (it : group_item) : xml :=
  match it with
  | RectItem attributes => XElement "rect" attributes []
  | TextItem attributes subtext => XElement "text" attributes [XText subtext]
  end.

(** The nodes of the items in the store, from index [start] on, in the
    order the writer creates them, and the indices of the elements among
    them. *)
Fixpoint item_nodes (start : nat) (items : list group_item) : list dom_node :=
  match items with
  | [] => []
  | RectItem attributes :: rest =>
      ElementNode "rect" attributes [] :: item_nodes (S start) rest
  | TextItem attributes subtext :: rest =>
      ElementNode "text" attributes [S start] :: TextNode subtext
      :: item_nodes (S (S start)) rest
  end.

Fixpoint item_indices (start : nat) (items : list group_item) : list nat :=
  match items with
  | [] => []
  | RectItem _ :: rest => start :: item_indices (S start) rest
  | TextItem _ _ :: rest => start :: item_indices (S (S start)) rest
  end.

Fixpoint items_size (items : list group_item) : nat :=
  match items with
  | [] => O
  | RectItem _ :: rest => S (items_size rest)
  | TextItem _ _ :: rest => S (S (items_size rest))
  end.

(** The store of the document of a pass: the root, the comment, the
    group, the background, and the items. *)
Definition svg_nodes (svg_attributes : list (string * string))
    (comment : string) (background_attributes : list (string * string))
    (items : list group_item) : list dom_node :=
  [ElementNode "svg" svg_attributes [1%nat; 2%nat];
   CommentNode comment;
   ElementNode "g" [("id", "barcode_group")] (3%nat :: item_indices 4 items);
   ElementNode "rect" background_attributes []]
  ++ item_nodes 4 items.

Section SVGTree.
Context {T : Type} `{Number T}.
Variable version : string.
Variables format_size format_number : T -> string.
Local Open Scope num_scope.

(** The element [_create_module] makes. *)
Definition svg_rect (w : BaseWriter T) (xpos ypos width : T) (color : string)
  : xml :=
  XElement "rect"
    [("x", format_size xpos);
     ("y", format_size ypos);
     ("width", format_size width);
     ("height", format_size (module_height w));
     ("style", "fill:" +:+ color +:+ ";")] [].

(** The elements [_create_text] makes, one for each line of the text. *)
Fixpoint svg_texts (w : BaseWriter T) (xpos ypos : T) (subtexts : list string)
  : list xml :=
  match subtexts with
  | [] => []
  | subtext :: rest =>
      XElement "text"
        [("x", format_size xpos);
         ("y", format_size ypos);
         ("style",
          "fill:" +:+ foreground w +:+ ";font-size:"
          +:+ format_number (font_size w) +:+ "pt;text-anchor:middle;")]
        [XText subtext]
      :: svg_texts w xpos
           (ypos + (pt2mm (font_size w) + text_line_distance w)) rest
  end.

(** What a call of a callback adds to the group of the document. *)
Definition svg_of_call (w : BaseWriter T) (c : call T) : list xml :=
  match c with
  | PaintModule xpos ypos width color => [svg_rect w xpos ypos width color]
  | PaintText xpos ypos =>
      svg_texts w xpos ypos
        (split_char "010" EmptyString
           (if str_truth (human w) then human w else text w))
  | _ => []
  end.

(** The document of a pass: the root with the size of the image, the
    comment, and the group with the background and what the calls
    added. *)
Definition svg_tree (w : BaseWriter T) (size : Z * Z) (calls : list (call T))
  : xml :=
  XElement "svg"
    [("version", "1.1");
     ("xmlns", "http://www.w3.org/2000/svg");
     ("width", format_size (of_int (fst size)));
     ("height", format_size (of_int (snd size)))]
    [XComment (COMMENT version);
     XElement "g" [("id", "barcode_group")]
       (XElement "rect"
          [("width", "100%"); ("height", "100%");
           ("style", "fill:" +:+ background w)] []
        :: flat_map (svg_of_call w) calls)].

(** The same, as items of the store. *)
Fixpoint text_items (w : BaseWriter T) (xpos ypos : T) (subtexts : list string)
  : list group_item :=
  match subtexts with
  | [] => []
  | subtext :: rest =>
      TextItem
        [("x", format_size xpos);
         ("y", format_size ypos);
         ("style",
          "fill:" +:+ foreground w +:+ ";font-size:"
          +:+ format_number (font_size w) +:+ "pt;text-anchor:middle;")]
        subtext
      :: text_items w xpos
           (ypos + (pt2mm (font_size w) + text_line_distance w)) rest
  end.

Definition items_of_call (w : BaseWriter T) (c : call T) : list group_item :=
  match c with
  | PaintModule xpos ypos width color =>
      [RectItem
         [("x", format_size xpos);
          ("y", format_size ypos);
          ("width", format_size width);
          ("height", format_size (module_height w));
          ("style", "fill:" +:+ color +:+ ";")]]
  | PaintText xpos ypos =>
      text_items w xpos ypos
        (split_char "010" EmptyString
           (if str_truth (human w) then human w else text w))
  | _ => []
  end.

(** The document of a pass under construction, and a writer that holds
    it: [w] and [compressed] are its options, and the group is node 2. *)
Definition document_of (dt : string * string * string)
    (svg_attributes : list (string * string)) (comment : string)
    (background_attributes : list (string * string))
    (items : list group_item) : Document :=
  {| doctype := dt;
     nodes := svg_nodes svg_attributes comment background_attributes items;
     documentElement := 0%nat |}.

Definition holds_document (w : BaseWriter T) (compressed : bool)
    (d : Document) (s : SVGWriter T) : Prop :=
  base s = w /\ compress s = compressed /\
  _document s = Some d /\ _group s = Some 2%nat.

End SVGTree.

(** An SVG writer with the options of [example_writer], before its first
    pass, in exact arithmetic. *)
Definition example_svg_writer : SVGWriter Qc :=
  {| base := example_writer; compress := false; dpi := Qc_decimal 254 1;
     _document := None; _root := None; _group := None |}.

(** ** base.py: the barcode as text *)

(** [s.replace(old, new)] for [old] and [new] of one character each. *)
Fixpoint replace_char (old new : ascii) (s : string) : string :=
  match s with
  | EmptyString => EmptyString
  | String c rest =>
      String (if ascii_eqb c old then new else c) (replace_char old new rest)
  end.

(** [sep.join(parts)] *)
Fixpoint join (sep : string) (parts : list string) : string :=
  match parts with
  | [] => EmptyString
  | [part] => part
  | part :: rest => part +:+ sep +:+ join sep rest
  end.

(** [Barcode.to_ascii()]; [build] is what [self.build()] returns, a
    method of the classes of the modules that are not at hand.  The value
    is what the method returns; it leaves the rows in the list that
    [build] returned. *)
Definition to_ascii (build : result (list string)) : result string :=
  rbind build (fun code =>
    Return (join (String "010" EmptyString)
              (map (fun line =>
                      replace_char "0" " " (replace_char "1" "X" line))
                   code))).

(** A string with no character [sep]. *)
Fixpoint lacks (sep : ascii) (s : string) : Prop :=
  match s with
  | EmptyString => True
  | String c rest => c <> sep /\ lacks sep rest
  end.

(** Reading a row of the text back: [X] is a bar, a blank a space. *)
Definition row_modules (row : string) : string :=
  replace_char " " "0" (replace_char "X" "1" row).

(** The callbacks of a writer made by [BaseWriter()] with no argument:
    none is registered. *)
Definition no_callbacks {T S Out : Type} : Callbacks T S Out :=
  {| initialize := None; paint_module := None; paint_text := None;
     finish := None |}.

(** ** writer.py: lines of any characters *)

(** The packing of any line, by recursion: as [rle_from], but the run
    the line ends in is dropped when it is a run of blanks, since the
    blank that [render] appends to the line then ends no run. *)
Fixpoint rle_loop (a : ascii) (c : Z) (s : string) : list Z :=
  match s with
  | EmptyString => if ascii_eqb a " " then [] else [token a c]
  | String b rest =>
      if ascii_eqb a b then rle_loop a (c + 1) rest
      else token a c :: rle_loop b 1 rest
  end.

(** The line without the blanks it ends in. *)
Fixpoint rstrip_blanks (s : string) : string :=
  match s with
  | EmptyString => EmptyString
  | String a rest =>
      match rstrip_blanks rest with
      | EmptyString =>
          if ascii_eqb a " " then EmptyString else String a EmptyString
      | String b r => String a (String b r)
      end
  end.

(** The modules [render] paints for the characters of a line: a bar for
    [1], a space for any other character. *)
Definition painted_char (a : ascii) : ascii :=
  if ascii_eqb a "1" then "1"%char else "0"%char.

Fixpoint painted (s : string) : string :=
  match s with
  | EmptyString => EmptyString
  | String a rest => String (painted_char a) (painted rest)
  end.

(** ** The lines of the text *)

(** The only line boundaries of the text are line feeds. *)
Fixpoint only_line_feeds (s : string) : bool :=
  match s with
  | EmptyString => true
  | String c rest =>
      (negb (is_linebreak c) || ascii_eqb c "010") && only_line_feeds rest
  end.

(** The text is empty or ends in a line feed. *)
Fixpoint ends_line (s : string) : bool :=
  match s with
  | EmptyString => true
  | String c EmptyString => ascii_eqb c "010"
  | String _ rest => ends_line rest
  end.

(** A constructor for the examples: it keeps the writer it is given, or
    makes an [SVGWriter], the [default_writer] of [Barcode], and holds the
    [default_writer_options] of [Barcode]. *)
Definition example_construct (c : barcode_class) (code : pyval Qc)
    (writer_arg : option (pyobject Qc)) : result (Barcode (T:=Qc)) :=
  Return {| barcode_type := c;
            barcode_code := code;
            writer :=
              match writer_arg with
              | Some w => w
              | None => object_of_SVGWriter SVGWriter_init
              end;
            default_writer_options := Barcode_default_writer_options |}.


(* ================================================================== *)
(** * Part II. Properties                                              *)
(* ================================================================== *)

(** ** The helpers on examples *)

Example mlist_docstring : mlist "11010111" = [2; -1; 1; -1; 3].
Proof. reflexivity. Qed.

Example mlist_empty_line : mlist EmptyString = [].
Proof. reflexivity. Qed.

Example lower_mixed_case : lower "Code128" = "code128".
Proof. reflexivity. Qed.

Example lstrip_underscore_private : lstrip_underscore "__dpi_" = "dpi_".
Proof. reflexivity. Qed.

(** [splitlines] on ["a
b
"], on ["

"] and on the empty string. *)
Example splitlines_crlf :
  splitlines (String "a" (String "013" (String "010" (String "b"
               (String "010" EmptyString)))))
  = ["a"; "b"].
Proof. reflexivity. Qed.

Example splitlines_blank_lines :
  splitlines (String "010" (String "010" EmptyString))
  = [EmptyString; EmptyString].
Proof. reflexivity. Qed.

Example splitlines_empty : splitlines EmptyString = [].
Proof. reflexivity. Qed.

Example round_half_even_ties :
  (round_half_even (5 # 2), round_half_even (7 # 2),
   round_half_even (-5 # 2)) = (2, 4, -2).
Proof. reflexivity. Qed.

(** ** Packing and unpacking a line *)

Lemma binary_line_cons a s :
  binary_line (String a s) = true <-> is_module a /\ binary_line s = true.
Proof.
  simpl. rewrite andb_true_iff, orb_true_iff. unfold ascii_eqb, is_module.
  rewrite !Ascii.eqb_eq. tauto.
Qed.

Lemma ascii_eqb_refl a : ascii_eqb a a = true.
Proof. apply Ascii.eqb_refl. Qed.

Lemma ascii_eqb_neq a b : a <> b -> ascii_eqb a b = false.
Proof. intros H. apply Ascii.eqb_neq. exact H. Qed.

Lemma mlist_step_shift a s st i :
  mlist_step (String a s) st (S i) = mlist_step s st i.
Proof. reflexivity. Qed.

Lemma mlist_fold_shift a s n : forall k st,
  fold_left (mlist_step (String a s)) (seq (S k) n) st =
  fold_left (mlist_step s) (seq k n) st.
Proof.
  induction n as [|n IH]; intros k st; simpl; [reflexivity|].
  rewrite mlist_step_shift. apply IH.
Qed.

(** The index loop of [render] computes [rle_from]. *)
Lemma mlist_fold_rle s : forall a c acc,
  is_module a -> binary_line s = true ->
  snd (fold_left (mlist_step (String a (s +:+ " ")))
         (seq 0 (String.length (s +:+ " "))) (c, acc))
  = acc ++ rle_from a c s.
Proof.
  induction s as [|b s IH]; intros a c acc Ha Hs.
  - simpl. unfold opt_ascii_eqb.
    destruct Ha as [-> | ->]; reflexivity.
  - apply binary_line_cons in Hs as [Hb Hs].
    change (String b s +:+ " ") with (String b (s +:+ " ")).
    cbn [String.length seq fold_left].
    rewrite mlist_fold_shift.
    unfold mlist_step at 2. cbn [char_at String.get Nat.add opt_ascii_eqb].
    cbn [rle_from].
    destruct (ascii_eqb a b) eqn:Hab.
    + apply Ascii.eqb_eq in Hab. subst b. apply IH; assumption.
    + unfold token.
      destruct (ascii_eqb a "1"); rewrite IH by assumption;
        rewrite <- app_assoc; reflexivity.
Qed.

Lemma mlist_rle a s :
  is_module a -> binary_line s = true -> mlist (String a s) = rle_from a 1 s.
Proof.
  intros Ha Hs. unfold mlist.
  change (String a s +:+ " ") with (String a (s +:+ " ")).
  replace (String.length (String a (s +:+ " ")) - 1)%nat
    with (String.length (s +:+ " ")) by (simpl; lia).
  rewrite mlist_fold_rle by assumption. reflexivity.
Qed.

Lemma module_of_token_token a c :
  is_module a -> 1 <= c -> module_of_token (token a c) = a.
Proof.
  intros [-> | ->] Hc; unfold module_of_token, token; simpl.
  - destruct (Z.ltb_spec 0 (- c)); [lia | reflexivity].
  - destruct (Z.ltb_spec 0 c); [reflexivity | lia].
Qed.

Lemma abs_token a c : 1 <= c -> Z.abs (token a c) = c.
Proof. intros Hc. unfold token. destruct (ascii_eqb a "1"); lia. Qed.

Lemma repeat_char_snoc a n s :
  repeat_char a (S n) +:+ s = repeat_char a n +:+ String a s.
Proof.
  induction n as [|n IH]; [reflexivity|].
  change (String a (repeat_char a (S n) +:+ s) =
          String a (repeat_char a n +:+ String a s)).
  now rewrite IH.
Qed.

Lemma expand_rle_from s : forall a c,
  is_module a -> binary_line s = true -> 1 <= c ->
  expand (rle_from a c s) = repeat_char a (Z.to_nat c) +:+ s.
Proof.
  induction s as [|b s IH]; intros a c Ha Hs Hc.
  - simpl. rewrite module_of_token_token, abs_token by assumption.
    reflexivity.
  - apply binary_line_cons in Hs as [Hb Hs]. cbn [rle_from].
    destruct (ascii_eqb a b) eqn:Hab.
    + apply Ascii.eqb_eq in Hab. subst b.
      rewrite IH by (assumption || lia).
      replace (Z.to_nat (c + 1)) with (S (Z.to_nat c)) by lia.
      apply repeat_char_snoc.
    + cbn [expand]. rewrite module_of_token_token, abs_token by assumption.
      rewrite IH by (assumption || lia). reflexivity.
Qed.

Lemma sum_abs_rle_from s : forall a c,
  1 <= c -> sum_abs (rle_from a c s) = c + Z.of_nat (String.length s).
Proof.
  induction s as [|b s IH]; intros a c Hc; cbn [rle_from].
  - simpl. rewrite abs_token by assumption. lia.
  - destruct (ascii_eqb a b).
    + rewrite IH by lia. cbn [String.length]. lia.
    + cbn [sum_abs fold_right]. fold (sum_abs (rle_from b 1 s)).
      rewrite IH, abs_token by lia. cbn [String.length]. lia.
Qed.

Lemma token_opposite a b c d :
  is_module a -> is_module b -> a <> b -> 1 <= c -> 1 <= d ->
  token a c * token b d < 0.
Proof.
  intros [-> | ->] [-> | ->] Hab Hc Hd; try congruence;
    unfold token; simpl; nia.
Qed.

(** The tokens start with one for the current run and alternate in sign. *)
Lemma alternating_rle_from s : forall a c,
  is_module a -> binary_line s = true -> 1 <= c ->
  exists d rest, rle_from a c s = token a d :: rest /\ 1 <= d /\
                 alternating (token a d :: rest).
Proof.
  induction s as [|b s IH]; intros a c Ha Hs Hc; cbn [rle_from].
  - exists c, []. simpl. auto.
  - apply binary_line_cons in Hs as [Hb Hs].
    destruct (ascii_eqb a b) eqn:Hab.
    + apply IH; (assumption || lia).
    + apply Ascii.eqb_neq in Hab.
      destruct (IH b 1 Hb Hs ltac:(lia)) as (d & rest & -> & Hd & Halt).
      exists c, (token b d :: rest). repeat split; try assumption.
      apply token_opposite; assumption.
Qed.

(** C1. For a line of [0] and [1] only, the tokens [mlist] packs the line
    into give the line back when each is expanded to as many modules as
    its absolute value, [1] for a positive and [0] for a negative token;
    the tokens alternate in sign, and their absolute values add up to the
    length of the line. *)
Theorem mlist_round_trip (line : string) :
  binary_line line = true ->
  expand (mlist line) = line /\
  alternating (mlist line) /\
  sum_abs (mlist line) = Z.of_nat (String.length line).
Proof.
  destruct line as [|a s]; intros Hbin.
  - repeat split.
  - apply binary_line_cons in Hbin as [Ha Hs].
    rewrite mlist_rle by assumption. repeat split.
    + rewrite expand_rle_from by (assumption || lia). reflexivity.
    + destruct (alternating_rle_from s a 1 Ha Hs ltac:(lia))
        as (d & rest & -> & _ & Halt). exact Halt.
    + rewrite sum_abs_rle_from by lia. cbn [String.length]. lia.
Qed.

Lemma mlist_round_trip_witness :
  expand (mlist "11010111") = "11010111" /\
  alternating (mlist "11010111") /\
  sum_abs (mlist "11010111") = Z.of_nat (String.length "11010111").
Proof. apply (mlist_round_trip "11010111"). reflexivity. Defined.

(** ** Exact arithmetic *)

Lemma Qc_is_zero_true_iff (x : Qc) : Qc_is_zero x = true <-> x = 0%Qc.
Proof.
  unfold Qc_is_zero. rewrite Z.eqb_eq. split.
  - intros Hx. apply Qc_is_canon. unfold Qeq. rewrite Hx. reflexivity.
  - intros ->. reflexivity.
Qed.

Lemma Qc_is_zero_false_iff (x : Qc) : Qc_is_zero x = false <-> x <> 0%Qc.
Proof.
  rewrite <- Qc_is_zero_true_iff. destruct (Qc_is_zero x); split; congruence.
Qed.

Lemma Qc_truediv_nonzero (x y : Qc) :
  Qc_is_zero y = false -> Qc_truediv x y = Return (x / y)%Qc.
Proof. intros Hy. unfold Qc_truediv. now rewrite Hy. Qed.

Lemma Qc_mm2px (mm dpi : Qc) :
  mm2px mm dpi = Return (mm * dpi / decimal 254 1)%Qc.
Proof. unfold mm2px. num_unfold. now apply Qc_truediv_nonzero. Qed.

Lemma Qc_mm_to_pixels (mm dpi : Qc) :
  mm_to_pixels mm dpi = Return (Qc_trunc (mm * dpi / decimal 254 1)%Qc).
Proof. unfold mm_to_pixels. now rewrite Qc_mm2px. Qed.

Lemma Qc_size_in_pixels (width height dpi : Qc) :
  size_in_pixels width height dpi =
  Return (Qc_trunc (width * dpi / decimal 254 1)%Qc,
          Qc_trunc (height * dpi / decimal 254 1)%Qc).
Proof. unfold size_in_pixels. now rewrite !Qc_mm_to_pixels. Qed.

(** [2 * dpi / 200] is zero only for a zero [dpi]. *)
Lemma Qc_scale_is_zero (dpi : Qc) :
  Qc_is_zero (Qc_of_int 2 * dpi / Qc_of_int 200)%Qc = Qc_is_zero dpi.
Proof.
  destruct (Qc_is_zero dpi) eqn:Hd.
  - apply Qc_is_zero_true_iff in Hd. subst dpi. reflexivity.
  - apply Qc_is_zero_false_iff in Hd. apply Qc_is_zero_false_iff.
    intros Hz. apply Hd.
    assert (H200 : Qc_of_int 200 <> 0%Qc)
      by now apply Qc_is_zero_false_iff.
    assert (H2 : Qc_of_int 2 <> 0%Qc)
      by now apply Qc_is_zero_false_iff.
    apply (f_equal (fun q => q * Qc_of_int 200)%Qc) in Hz.
    unfold Qcdiv in Hz. rewrite <- Qcmult_assoc, Qcmult_inv_l in Hz
      by assumption.
    rewrite Qcmult_1_r, Qcmult_0_l in Hz.
    now apply (Qcmult_integral_l _ _ H2).
Qed.

(** ** The size of the image *)

(** What [calculate_size] returns, with the height in millimetres made
    explicit: a 2 mm margin, the lines, and the text block. *)
Lemma calculate_size_text_block (self : BaseWriter Qc)
    (modules_per_line number_of_lines : Z) (dpi : Qc) :
  calculate_size self modules_per_line number_of_lines dpi =
  rbind (text_block_height self dpi) (fun text_block =>
    size_in_pixels
      (of_int 2 * quiet_zone self
       + of_int modules_per_line * module_width self)%num
      (decimal 20 1 + of_int number_of_lines * module_height self
       + text_block)%num
      dpi).
Proof.
  unfold calculate_size, text_block_height.
  destruct (num_truth (font_size self) && str_truth (text self)).
  - destruct (truediv (of_int 2 * dpi)%num (of_int 200)) as [scale|e];
      cbn [rbind]; [|reflexivity].
    destruct (truediv (pt2mm (font_size self)) scale) as [line_height|e];
      cbn [rbind]; [|reflexivity].
    rewrite Qc_size_in_pixels, !Qc_mm2px. cbn [rbind int_of Qc_Number].
    do 5 f_equal. num_unfold. ring.
  - cbn [rbind]. rewrite Qc_size_in_pixels, !Qc_mm2px.
    cbn [rbind int_of Qc_Number]. do 5 f_equal. num_unfold.
    change (Qc_of_int 0) with 0%Qc. ring.
Qed.

Lemma calculate_size_default_300 :
  calculate_size (T:=Qc) default_writer 95 1 (of_int 300) = Return (377, 200).
Proof. vm_compute. reflexivity. Qed.


(** The same two sizes in binary64 arithmetic. *)
Lemma calculate_size_default_300_binary64 :
  calculate_size (T:=float) default_writer 95 1 (of_int 300)
  = Return (377, 200) /\
  spec_calculate_size (T:=float) default_writer 95 1 (of_int 300)
  = Return (377, 177).
Proof. split; vm_compute; reflexivity. Qed.



(** C3, as stated, fails: the width in pixels is 377, and the millimetre
    width converted and rounded to the nearest integer is 378. *)
Lemma calculate_size_width_not_rounded :
  exists width_px height_px px,
    calculate_size (T:=Qc) default_writer 95 1 (of_int 300)
    = Return (width_px, height_px) /\
    mm2px (T:=Qc)
      (of_int 2 * decimal 65 1 + of_int 95 * decimal 2 1)%num (of_int 300)
    = Return px /\
    round_half_even (this px) = 378 /\
    width_px <> round_half_even (this px).
Proof.
  exists 377, 200. eexists. split; [exact calculate_size_default_300|].
  split; [apply Qc_mm2px|]. split; [vm_compute; reflexivity|].
  vm_compute. discriminate.
Qed.

(** In binary64 the converted width is 377.95275590551182: truncated it
    is 377, rounded 378. *)
Lemma calculate_size_width_binary64 :
  exists px,
    mm2px (T:=float)
      (of_int 2 * decimal 65 1 + of_int 95 * decimal 2 1)%num (of_int 300)
    = Return px /\
    int_of px = Return 377 /\
    option_map round_half_even (float_exact px) = Some 378.
Proof. eexists. repeat split; vm_compute; reflexivity. Qed.

(** C3, amended.  With module_width 0.2 mm, quiet_zone 6.5 mm, 95 modules
    per line and 300 dpi, the width [calculate_size] returns is
    [int(mm2px(2*6.5 + 95*0.2, 300))], the converted width truncated, which
    is 377; the other options and the number of lines do not matter. *)
Theorem calculate_size_width_truncated (self : BaseWriter Qc)
    (number_of_lines : Z) :
  module_width self = decimal 2 1 ->
  quiet_zone self = decimal 65 1 ->
  mm_to_pixels (T:=Qc)
    (of_int 2 * decimal 65 1 + of_int 95 * decimal 2 1)%num (of_int 300)
  = Return 377 /\
  exists height_px,
    calculate_size self 95 number_of_lines (of_int 300)
    = Return (377, height_px).
Proof.
  intros Hmw Hqz. split; [vm_compute; reflexivity|].
  rewrite calculate_size_text_block, Hmw, Hqz.
  assert (Htb : exists tb, text_block_height self (of_int 300) = Return tb).
  { unfold text_block_height.
    destruct (num_truth (font_size self) && str_truth (text self));
      [|eauto].
    num_unfold. rewrite (Qc_truediv_nonzero _ (Qc_of_int 200)) by reflexivity.
    cbn [rbind]. rewrite Qc_truediv_nonzero by reflexivity.
    cbn [rbind]. eauto. }
  destruct Htb as [tb ->]. cbn [rbind]. rewrite Qc_size_in_pixels.
  eexists. apply f_equal.
  apply (f_equal2 pair); [vm_compute; reflexivity | reflexivity].
Qed.

Lemma calculate_size_width_truncated_witness :
  mm_to_pixels (T:=Qc)
    (of_int 2 * decimal 65 1 + of_int 95 * decimal 2 1)%num (of_int 300)
  = Return 377 /\
  exists height_px,
    calculate_size (T:=Qc) default_writer 95 1 (of_int 300)
    = Return (377, height_px).
Proof.
  apply (calculate_size_width_truncated default_writer 1); reflexivity.
Defined.

(** ** The text block *)

Lemma text_block_height_omitted (self : BaseWriter Qc) (dpi : Qc) :
  font_size self = 0%Qc \/ text self = EmptyString ->
  text_block_height self dpi = Return 0%Qc.
Proof.
  intros Hgate. unfold text_block_height.
  replace (num_truth (font_size self) && str_truth (text self)) with false;
    [reflexivity|].
  destruct Hgate as [-> | ->]; [reflexivity|].
  symmetry. apply andb_false_r.
Qed.

Lemma text_block_height_present (self : BaseWriter Qc) (dpi : Qc) :
  font_size self <> 0%Qc -> text self <> EmptyString -> dpi <> 0%Qc ->
  text_block_height self dpi =
  Return (pt2mm (font_size self) / (Qc_of_int 2 * dpi / Qc_of_int 200)
          * Qc_of_int (Z.of_nat (length (splitlines (text self))))
          + text_distance self
          + text_line_distance self
            * Qc_of_int (Z.of_nat (length (splitlines (text self))) - 1))%Qc.
Proof.
  intros Hfs Htext Hdpi. unfold text_block_height.
  apply Qc_is_zero_false_iff in Hfs, Hdpi.
  replace (num_truth (font_size self) && str_truth (text self)) with true.
  - num_unfold. rewrite (Qc_truediv_nonzero _ (Qc_of_int 200)) by reflexivity.
    cbn [rbind]. rewrite Qc_truediv_nonzero
      by (rewrite Qc_scale_is_zero; exact Hdpi).
    reflexivity.
  - cbn [num_truth Qc_Number]. rewrite Hfs.
    destruct (text self); [congruence | reflexivity].
Qed.

Lemma calculate_size_with_text_300 :
  calculate_size (T:=Qc)
    (set_write_text false (set_text "4006381333931" default_writer))
    95 1 (of_int 300)
  = Return (377, 273).
Proof. vm_compute. reflexivity. Qed.

Lemma size_in_pixels_without_text_300 :
  size_in_pixels (T:=Qc)
    (of_int 2 * decimal 65 1 + of_int 95 * decimal 2 1)%num
    (decimal 20 1 + of_int 1 * decimal 150 1)%num (of_int 300)
  = Return (377, 200).
Proof. vm_compute. reflexivity. Qed.

(** C4, as stated, fails: with [write_text] false, a font size of 10 and
    a text of one line the height is 273 pixels at 300 dpi; without the
    text block it is 200 pixels. *)
Lemma text_block_despite_write_text :
  spec_text_block_present (T:=Qc)
    (set_write_text false (set_text "4006381333931" default_writer)) = false /\
  calculate_size (T:=Qc)
    (set_write_text false (set_text "4006381333931" default_writer))
    95 1 (of_int 300)
  <> size_in_pixels (T:=Qc)
       (of_int 2 * decimal 65 1 + of_int 95 * decimal 2 1)%num
       (decimal 20 1 + of_int 1 * decimal 150 1)%num (of_int 300).
Proof.
  split; [reflexivity|].
  rewrite calculate_size_with_text_300, size_in_pixels_without_text_300.
  intros Heq. inversion Heq.
Qed.

(** C4, amended.  [calculate_size] never reads [write_text].  The text
    block is left out of the height when [font_size] is zero or the text
    is empty; when [font_size] is not zero and the text is not empty, the
    height (for a [dpi] that is not zero) adds
    [pt2mm(font_size) / (2*dpi/200)] per line of the text, the text
    distance, and [text_line_distance] between two lines of the text. *)
Theorem text_block_gate (self : BaseWriter Qc)
    (modules_per_line number_of_lines : Z) (dpi : Qc) :
  (forall b : bool,
     calculate_size (set_write_text b self) modules_per_line number_of_lines dpi
     = calculate_size self modules_per_line number_of_lines dpi) /\
  (font_size self = 0%Qc \/ text self = EmptyString ->
   calculate_size self modules_per_line number_of_lines dpi =
   size_in_pixels
     (Qc_of_int 2 * quiet_zone self
      + Qc_of_int modules_per_line * module_width self)%Qc
     (Qc_decimal 20 1 + Qc_of_int number_of_lines * module_height self)%Qc
     dpi) /\
  (font_size self <> 0%Qc -> text self <> EmptyString -> dpi <> 0%Qc ->
   calculate_size self modules_per_line number_of_lines dpi =
   size_in_pixels
     (Qc_of_int 2 * quiet_zone self
      + Qc_of_int modules_per_line * module_width self)%Qc
     (Qc_decimal 20 1 + Qc_of_int number_of_lines * module_height self
      + (pt2mm (font_size self) / (Qc_of_int 2 * dpi / Qc_of_int 200)
         * Qc_of_int (Z.of_nat (length (splitlines (text self))))
         + text_distance self
         + text_line_distance self
           * Qc_of_int (Z.of_nat (length (splitlines (text self))) - 1)))%Qc
     dpi).
Proof.
  split; [|split].
  - intros b. reflexivity.
  - intros Hgate. rewrite calculate_size_text_block.
    rewrite text_block_height_omitted by assumption. cbn [rbind].
    f_equal. num_unfold. ring.
  - intros Hfs Htext Hdpi. rewrite calculate_size_text_block.
    rewrite text_block_height_present by assumption. reflexivity.
Qed.

Lemma text_block_gate_witness :
  calculate_size example_writer 95 1 (Qc_of_int 300) =
  size_in_pixels
    (Qc_of_int 2 * quiet_zone example_writer
     + Qc_of_int 95 * module_width example_writer)%Qc
    (Qc_decimal 20 1 + Qc_of_int 1 * module_height example_writer
     + (pt2mm (font_size example_writer)
        / (Qc_of_int 2 * Qc_of_int 300 / Qc_of_int 200)
        * Qc_of_int (Z.of_nat (length (splitlines (text example_writer))))
        + text_distance example_writer
        + text_line_distance example_writer
          * Qc_of_int
              (Z.of_nat (length (splitlines (text example_writer))) - 1)))%Qc
    (Qc_of_int 300).
Proof.
  refine (proj2 (proj2 (text_block_gate example_writer 95 1 (Qc_of_int 300)))
            _ _ _).
  - apply Qc_is_zero_false_iff. reflexivity.
  - discriminate.
  - apply Qc_is_zero_false_iff. reflexivity.
Defined.

(** ** The calls of the rendering pass *)

Section RecorderFacts.
Context {T : Type} `{Number T}.

Lemma paint_mlist_recorded (w : BaseWriter T) (ypos : T) (ml : list Z) :
  forall (xpos : T) (calls : list (call T)),
  paint_mlist rec_writer recorder_callbacks ml xpos ypos
    {| rec_writer := w; rec_calls := calls |}
  = ({| rec_writer := w;
        rec_calls := calls ++ module_calls w ypos xpos ml |},
     Return (xpos_after w xpos ml)).
Proof.
  induction ml as [|m rest IH]; intros xpos calls.
  - cbn. now rewrite app_nil_r.
  - cbn [paint_mlist module_calls xpos_after].
    unfold mbind at 1. cbn [mget].
    unfold mbind at 1. cbn [call_paint_module recorder_callbacks paint_module
                            record rec_writer rec_calls].
    unfold mbind at 1. cbn [mget rec_writer].
    rewrite IH. now rewrite <- app_assoc.
Qed.

Lemma render_lines_recorded (w : BaseWriter T) (len_code : Z)
    (lines : list string) :
  forall (cc : Z) (ypos : T) (bx : option (T * T)) (calls : list (call T)),
  render_lines rec_writer recorder_callbacks len_code cc lines ypos bx
    {| rec_writer := w; rec_calls := calls |}
  = ({| rec_writer := w;
        rec_calls := calls ++ lines_calls w len_code cc ypos lines |},
     Return (lines_end w ypos bx lines)).
Proof.
  induction lines as [|line rest IH]; intros cc ypos bx calls.
  - cbn. now rewrite app_nil_r.
  - cbn [render_lines lines_calls lines_end].
    unfold mbind at 1. cbn [mget rec_writer].
    unfold mbind at 1. rewrite paint_mlist_recorded.
    unfold mbind at 1.
    destruct (negb (cc + 1 =? len_code)).
    + unfold mbind at 1. cbn [mget rec_writer].
      cbn [call_paint_module recorder_callbacks paint_module record
           rec_writer rec_calls].
      unfold mbind at 1. cbn [mget rec_writer].
      rewrite IH. now rewrite <- !app_assoc.
    + cbn [mret]. unfold mbind at 1. cbn [mget rec_writer].
      rewrite IH. now rewrite <- !app_assoc.
Qed.

End RecorderFacts.

Lemma Qc_of_int_add (a b : Z) :
  Qc_of_int (a + b) = (Qc_of_int a + Qc_of_int b)%Qc.
Proof.
  unfold Qc_of_int. apply Qc_is_canon. unfold Qcplus. cbn [this Q2Qc].
  rewrite !Qred_correct, inject_Z_plus. reflexivity.
Qed.


Lemma xpos_after_closed (w : BaseWriter Qc) (ml : list Z) : forall xpos : Qc,
  xpos_after w xpos ml
  = (xpos + module_width w * Qc_of_int (sum_abs ml))%Qc.
Proof.
  induction ml as [|m rest IH]; intros xpos.
  - cbn. change (Qc_of_int 0) with 0%Qc. ring.
  - cbn [xpos_after sum_abs fold_right]. fold (sum_abs rest).
    rewrite IH, Qc_of_int_add. num_unfold. ring.
Qed.

(** The modules of a line of [0] and [1] end one module width per
    character after the left quiet zone. *)
Lemma body_end_binary (w : BaseWriter Qc) (line : string) :
  binary_line line = true ->
  body_end w line
  = (quiet_zone w
     + module_width w * Qc_of_int (Z.of_nat (String.length line)))%Qc.
Proof.
  intros Hbin. unfold body_end. do 3 f_equal.
  destruct line as [|a s]; [reflexivity|].
  apply binary_line_cons in Hbin as [Ha Hs].
  rewrite mlist_rle, sum_abs_rle_from by (assumption || lia).
  cbn [String.length]. lia.
Qed.



Lemma lines_end_last (w : BaseWriter Qc) (lines : list string) :
  forall (ypos : Qc) (bx : option (Qc * Qc)),
  snd (lines_end w ypos bx lines)
  = match last lines with
    | Some line => Some (quiet_zone w, body_end w line)
    | None => bx
    end.
Proof.
  induction lines as [|line rest IH]; intros ypos bx; [reflexivity|].
  cbn [lines_end]. rewrite IH, xpos_after_closed. fold (body_end w line).
  rewrite last_cons. destruct (last rest); reflexivity.
Qed.

(** All the calls of [render] on a recording writer. *)
Lemma trace_recorded (w : BaseWriter Qc) (code : list string) :
  trace w code
  = Initialize code
    :: lines_calls w (Z.of_nat (length code)) 0 (Qc_decimal 10 1) code
    ++ closing_calls w (lines_end w (Qc_decimal 10 1) None code).
Proof.
  unfold trace, render_recorded, render.
  cbn [initialize recorder_callbacks].
  unfold mbind at 1. unfold record at 1. cbn [rec_writer rec_calls app].
  unfold mbind at 1. rewrite render_lines_recorded.
  unfold mbind at 1. cbn [mget rec_writer].
  unfold closing_calls.
  destruct (lines_end w (decimal 10 1) None code) as [ypos bx] eqn:Hend.
  change (decimal 10 1) with (Qc_decimal 10 1) in Hend. rewrite Hend.
  cbn [fst snd paint_text finish recorder_callbacks].
  destruct (str_truth (text w)).
  - destruct bx as [[bxs bxe]|]; cbn [local_bx].
    + destruct (center_text w).
      * unfold mbind, mret, mlift, record; num_unfold.
        rewrite Qc_truediv_nonzero by reflexivity.
        cbn [fst rec_calls rec_writer]. now rewrite <- app_assoc.
      * unfold mbind, mret, record. cbn [fst rec_calls rec_writer].
        now rewrite <- app_assoc.
    + destruct (center_text w); unfold mbind, mraise;
        cbn [fst rec_calls]; now rewrite app_nil_r.
  - unfold mbind, mret, record. cbn [fst rec_calls rec_writer]. reflexivity.
Qed.








Lemma Qc_decimal_2 : Qc_decimal 20 1 = Qc_of_int 2.
Proof. apply Qc_is_canon. reflexivity. Qed.

(** Half way from [bxs] to [bxe] is the midpoint of the two. *)
Lemma centre_is_midpoint (bxs bxe : Qc) :
  (bxs + (bxe - bxs) / Qc_decimal 20 1)%Qc = ((bxs + bxe) / Qc_of_int 2)%Qc.
Proof.
  rewrite Qc_decimal_2.
  assert (H2 : Qc_of_int 2 <> 0%Qc) by now apply Qc_is_zero_false_iff.
  assert (Htwo : Qc_of_int 2 = (1 + 1)%Qc) by now apply Qc_is_canon.
  rewrite Htwo in *. field. exact H2.
Qed.

Lemma closing_calls_last (w : BaseWriter Qc) (code : list string) :
  closing_calls w (lines_end w (Qc_decimal 10 1) None code)
  = if str_truth (text w) then
      match last code with
      | Some line =>
          [PaintText (text_xpos w line)
             (fst (lines_end w (Qc_decimal 10 1) None code)
              + text_distance w)%Qc;
           Finish]
      | None => []
      end
    else [Finish].
Proof.
  unfold closing_calls, text_xpos. rewrite lines_end_last.
  destruct (str_truth (text w)); [|reflexivity].
  destruct (last code) as [line|]; [|reflexivity].
  destruct (center_text w); [|reflexivity].
  now rewrite centre_is_midpoint.
Qed.



(** ** What a rendering pass leaves unchanged *)

Lemma mbind_unfold {S A B} (m : M S A) (k : A -> M S B) (s : S) :
  mbind m k s =
  match m s with
  | (s', Return a) => k a s'
  | (s', Raise e) => (s', Raise e)
  end.
Proof. reflexivity. Qed.

Section RenderInvariant.
Context {T : Type} `{Number T} {S Out : Type}.
Variable base : S -> BaseWriter T.
Variable cb : Callbacks T S Out.
(** A property of the writer that every callback keeps. *)
Variable P : S -> Prop.
Hypothesis initialize_keeps : forall f code s,
  initialize cb = Some f -> P s -> P (fst (f code s)).
Hypothesis paint_module_keeps : forall f xpos ypos width color s,
  paint_module cb = Some f -> P s -> P (fst (f xpos ypos width color s)).
Hypothesis paint_text_keeps : forall f xpos ypos s,
  paint_text cb = Some f -> P s -> P (fst (f xpos ypos s)).
Hypothesis finish_keeps : forall f s,
  finish cb = Some f -> P s -> P (fst (f s)).

Lemma mbind_keeps {A B} (m : M S A) (k : A -> M S B) (s : S) :
  P (fst (m s)) -> (forall a s', P s' -> P (fst (k a s'))) ->
  P (fst (mbind m k s)).
Proof.
  intros Hm Hk. unfold mbind. destruct (m s) as [s' [a|e]]; cbn [fst] in *.
  - now apply Hk.
  - exact Hm.
Qed.

Lemma call_paint_module_keeps xpos ypos width color s :
  P s -> P (fst (call_paint_module cb xpos ypos width color s)).
Proof.
  intros Hs. unfold call_paint_module.
  destruct (paint_module cb) as [f|] eqn:Hf.
  - now apply paint_module_keeps.
  - exact Hs.
Qed.

Lemma paint_mlist_keeps (ml : list Z) : forall xpos ypos s,
  P s -> P (fst (paint_mlist base cb ml xpos ypos s)).
Proof.
  induction ml as [|m rest IH]; intros xpos ypos s Hs; [exact Hs|].
  cbn [paint_mlist]. apply mbind_keeps; [exact Hs|]. intros self s1 Hs1.
  apply mbind_keeps; [now apply call_paint_module_keeps|]. intros _ s2 Hs2.
  apply mbind_keeps; [exact Hs2|]. intros self' s3 Hs3. now apply IH.
Qed.

Lemma render_lines_keeps (len_code : Z) (lines : list string) :
  forall cc ypos bx s,
  P s -> P (fst (render_lines base cb len_code cc lines ypos bx s)).
Proof.
  induction lines as [|line rest IH]; intros cc ypos bx s Hs; [exact Hs|].
  cbn [render_lines]. apply mbind_keeps; [exact Hs|]. intros self s1 Hs1.
  apply mbind_keeps; [now apply paint_mlist_keeps|]. intros xpos s2 Hs2.
  apply mbind_keeps.
  - destruct (negb (cc + 1 =? len_code)); [|exact Hs2].
    apply mbind_keeps; [exact Hs2|]. intros self' s3 Hs3.
    now apply call_paint_module_keeps.
  - intros _ s3 Hs3. apply mbind_keeps; [exact Hs3|]. intros self' s4 Hs4.
    now apply IH.
Qed.

Lemma local_bx_keeps (bx : option (T * T)) name pick s :
  P s -> P (fst (local_bx (S:=S) bx name pick s)).
Proof. intros Hs. destruct bx; exact Hs. Qed.

Lemma render_keeps (code : list string) (s : S) :
  P s -> P (fst (render base cb code s)).
Proof.
  intros Hs. unfold render. apply mbind_keeps.
  - destruct (initialize cb) as [f|] eqn:Hf;
      [now apply initialize_keeps | exact Hs].
  - intros _ s1 Hs1. apply mbind_keeps; [now apply render_lines_keeps|].
    intros after s2 Hs2. apply mbind_keeps; [exact Hs2|]. intros self s3 Hs3.
    apply mbind_keeps.
    + destruct (str_truth (text (base self))); [|exact Hs3].
      destruct (paint_text cb) as [f|] eqn:Hf; [|exact Hs3].
      apply mbind_keeps.
      * destruct (center_text (base self)); [|now apply local_bx_keeps].
        apply mbind_keeps; [now apply local_bx_keeps|]. intros bxs s4 Hs4.
        apply mbind_keeps; [now apply local_bx_keeps|]. intros bxe s5 Hs5.
        apply mbind_keeps; [exact Hs5|]. intros half s6 Hs6. exact Hs6.
      * intros xpos s4 Hs4. now apply paint_text_keeps.
    + intros _ s4 Hs4. destruct (finish cb) as [f|] eqn:Hf;
        [now apply finish_keeps | exact Hs4].
Qed.

End RenderInvariant.

(** ** The SVG writer *)

Section SVGFacts.
Context {T : Type} `{Number T}.
Variable version : string.
Variables format_size format_number : T -> string.
Variables toxml toprettyxml : Document -> string.

Abbreviation svg_cb :=
  (svg_callbacks version format_size format_number toxml toprettyxml).
Abbreviation svg_pass :=
  (svg_render version format_size format_number toxml toprettyxml).

Lemma init_keeps_options (code : list string) (self : SVGWriter T) :
  svg_options (fst (_init version format_size code self)) = svg_options self.
Proof.
  unfold _init. destruct code as [|line0 rest]; [reflexivity|].
  destruct (calculate_size _ _ _ _) as [[width height]|e]; reflexivity.
Qed.

Lemma create_module_keeps_options xpos ypos width color (self : SVGWriter T) :
  svg_options (fst (_create_module format_size xpos ypos width color self))
  = svg_options self.
Proof.
  unfold _create_module. destruct (_document self); [|reflexivity].
  destruct (_group self); reflexivity.
Qed.

Lemma create_text_line_keeps_options xpos ypos subtext (self : SVGWriter T) :
  svg_options
    (fst (create_text_line format_size format_number xpos ypos subtext self))
  = svg_options self.
Proof.
  unfold create_text_line. destruct (_document self); [|reflexivity].
  destruct (_group self); reflexivity.
Qed.

Lemma create_text_lines_keeps_options (subtexts : list string) :
  forall xpos ypos (self : SVGWriter T),
  svg_options
    (fst (create_text_lines format_size format_number xpos ypos subtexts self))
  = svg_options self.
Proof.
  induction subtexts as [|subtext rest IH]; intros xpos ypos self;
    [reflexivity|].
  cbn [create_text_lines]. unfold mbind at 1.
  pose proof (create_text_line_keeps_options xpos ypos subtext self) as Hline.
  destruct (create_text_line _ _ _ _ _ self) as [s1 [[]|e]]; cbn [fst] in *;
    [|exact Hline].
  unfold mbind, mget. now rewrite IH.
Qed.

Lemma create_text_keeps_options xpos ypos (self : SVGWriter T) :
  svg_options (fst (_create_text format_size format_number xpos ypos self))
  = svg_options self.
Proof.
  unfold _create_text, mbind, mget. apply create_text_lines_keeps_options.
Qed.

Lemma finish_keeps_options (self : SVGWriter T) :
  fst (_finish toxml toprettyxml self) = self.
Proof. unfold _finish. destruct (_document self); reflexivity. Qed.

(** A pass changes none of the options of the writer. *)
Lemma svg_render_keeps_options (code : list string) (self : SVGWriter T) :
  svg_options (fst (svg_pass code self)) = svg_options self.
Proof.
  apply (render_keeps base svg_cb
           (fun s => svg_options s = svg_options self)); [| | | |reflexivity].
  - intros f c s [= <-] Hs. now rewrite init_keeps_options.
  - intros f xpos ypos width color s [= <-] Hs.
    now rewrite create_module_keeps_options.
  - intros f xpos ypos s [= <-] Hs. now rewrite create_text_keeps_options.
  - intros f s [= <-] Hs. now rewrite finish_keeps_options.
Qed.

(** [_init] reads the options only, and what it leaves of the writer is
    built from them alone. *)
Lemma init_resets (code : list string) (w w' : SVGWriter T) :
  svg_options w' = svg_options w ->
  snd (_init version format_size code w')
  = snd (_init version format_size code w) /\
  (forall u, snd (_init version format_size code w) = Return u ->
     fst (_init version format_size code w')
     = fst (_init version format_size code w)).
Proof.
  unfold svg_options. intros [= Hbase Hcompress Hdpi]. unfold _init.
  destruct code as [|line0 rest]; [split; [reflexivity | discriminate]|].
  rewrite Hbase, Hdpi, Hcompress.
  destruct (calculate_size _ _ _ _) as [[width height]|e];
    split; (reflexivity || discriminate).
Qed.

(** What a pass returns depends on the options of the writer only, not on
    what an earlier pass left in it. *)
Lemma svg_render_options_only (code : list string) (w w' : SVGWriter T) :
  svg_options w' = svg_options w ->
  snd (svg_pass code w') = snd (svg_pass code w).
Proof.
  intros Hopt. destruct (init_resets code w w' Hopt) as [Hres Hstate].
  unfold svg_render, render. cbn [initialize svg_callbacks].
  rewrite !(mbind_unfold (_init version format_size code)).
  destruct (_init version format_size code w) as [s1 [u|e]] eqn:Hw;
    destruct (_init version format_size code w') as [s1' [u'|e']] eqn:Hw';
    cbn [fst snd] in *; try discriminate Hres.
  - rewrite (Hstate u eq_refl). reflexivity.
  - injection Hres as ->. reflexivity.
Qed.

(** C9.  Rendering the same code twice through one SVG writer returns
    the same bytes both times, and so does rendering it through any writer
    with the same options: the output is a function of the code and the
    options, and nothing an earlier pass left in the writer (its document,
    root and group) reaches a later one. *)
Theorem svg_render_deterministic (code : list string) (w : SVGWriter T) :
  snd (svg_pass code (fst (svg_pass code w))) = snd (svg_pass code w) /\
  forall w' : SVGWriter T,
    svg_options w' = svg_options w ->
    snd (svg_pass code w') = snd (svg_pass code w).
Proof.
  split.
  - apply svg_render_options_only, svg_render_keeps_options.
  - intros w'. apply svg_render_options_only.
Qed.

End SVGFacts.

(** ** Options *)

Section OptionFacts.
Context {T : Type} `{Number T}.

Lemma lstrip_underscore_head (s : string) :
  match lstrip_underscore s with
  | String c _ => c <> "_"%char
  | EmptyString => True
  end.
Proof.
  induction s as [|c rest IH]; [exact I|]. cbn [lstrip_underscore].
  destruct (ascii_eqb c "_") eqn:Hc; [exact IH|].
  now apply Ascii.eqb_neq in Hc.
Qed.

Lemma lstrip_underscore_not_private (s rest : string) :
  lstrip_underscore s <> String "_" rest.
Proof.
  intros Heq. pose proof (lstrip_underscore_head s) as Hhead.
  rewrite Heq in Hhead. now apply Hhead.
Qed.

Lemma hasattr_set_instance_attr (self : pyobject T) key val key' :
  hasattr (set_instance_attr key val self) key'
  = if String.eqb key key' then true else hasattr self key'.
Proof.
  unfold hasattr, set_instance_attr. cbn [instance_dict class_attrs].
  rewrite lookup_insert. destruct (String.eqb_spec key key') as [->|Hne].
  - now rewrite decide_True.
  - now rewrite decide_False.
Qed.

(** Setting an attribute the object has leaves the attribute names as
    they were, the private [_file_type] apart. *)
Lemma hasattr_setattr (self : pyobject T) key val key' :
  hasattr self key = true -> key' <> "_file_type" ->
  hasattr (fst (setattr key val self)) key' = hasattr self key'.
Proof.
  intros Hkey Hne. unfold setattr.
  destruct (String.eqb key "file_type"
            && existsb (String.eqb "file_type") (class_attrs self)).
  - unfold file_type_setter.
    destruct (instance_dict self !! "supported_file_types") as [sup|];
      [|reflexivity].
    destruct (py_in val sup) as [[|]|e]; try reflexivity.
    cbn [fst]. rewrite hasattr_set_instance_attr.
    destruct (String.eqb_spec "_file_type" key'); congruence.
  - cbn [fst]. rewrite hasattr_set_instance_attr.
    destruct (String.eqb_spec key key'); congruence.
Qed.

(** The options whose names are no attribute of the writer have no
    effect at all. *)
Lemma set_options_known (options : dict T) : forall self : pyobject T,
  set_options options self
  = set_options (List.filter (known_option self) options) self.
Proof.
  induction options as [|[key val] rest IH]; intros self; [reflexivity|].
  cbn [List.filter]. unfold known_option at 1. cbn [fst].
  destruct (hasattr self (lstrip_underscore key)) eqn:Hkey.
  - cbn [set_options]. unfold mbind at 1 3. cbn [mget].
    rewrite Hkey. unfold mbind at 1 2.
    destruct (setattr (lstrip_underscore key) val self) as [s' [[]|e]] eqn:Hs;
      [|reflexivity].
    rewrite IH. f_equal. apply List.filter_ext. intros [key' val'].
    unfold known_option. cbn [fst].
    replace s' with (fst (setattr (lstrip_underscore key) val self))
      by now rewrite Hs.
    apply hasattr_setattr; [exact Hkey|].
    apply lstrip_underscore_not_private.
  - cbn [set_options]. unfold mbind at 1. cbn [mget].
    rewrite Hkey. unfold mbind at 1. cbn [mret]. apply IH.
Qed.

Lemma filter_known_nil (self : pyobject T) (options : dict T) :
  (forall kv, In kv options -> known_option self kv = false) ->
  List.filter (known_option self) options = [].
Proof.
  induction options as [|kv rest IH]; intros Hunknown; [reflexivity|].
  cbn [List.filter]. rewrite (Hunknown kv (or_introl eq_refl)).
  apply IH. intros kv' Hin. apply Hunknown. now right.
Qed.

(** An option of an unknown name, wherever [dict_set] puts it, is not
    among the options [set_options] acts on. *)
Lemma filter_known_dict_set (self : pyobject T) key val (d : dict T) :
  known_option self (key, val) = false ->
  List.filter (known_option self) (dict_set key val d)
  = List.filter (known_option self) d.
Proof.
  unfold known_option. cbn [fst]. intros Hkey.
  induction d as [|[k v] rest IH]; cbn [dict_set List.filter fst].
  - now rewrite Hkey.
  - destruct (String.eqb_spec k key) as [->|Hne]; cbn [List.filter fst].
    + now rewrite Hkey.
    + now rewrite IH.
Qed.

Lemma dict_update_snoc (d options : dict T) (kv : string * pyval T) :
  dict_update d (options ++ [kv])
  = dict_set (fst kv) (snd kv) (dict_update d options).
Proof. unfold dict_update. now rewrite fold_left_app. Qed.

(** A [TypeError] out of [set_options] comes from the membership test of
    the [file_type] setter; its message is one of the two of [py_in]. *)
Lemma py_in_type_error (x container : pyval T) msg :
  py_in x container = Raise (TypeError msg) ->
  str_contains "unexpected keyword argument" msg = false.
Proof.
  unfold py_in. destruct container; try (intros [= <-]; reflexivity).
  destruct x; intros Heq; inversion Heq; reflexivity.
Qed.

Lemma setattr_type_error key val (self : pyobject T) msg :
  snd (setattr key val self) = Raise (TypeError msg) ->
  str_contains "unexpected keyword argument" msg = false.
Proof.
  unfold setattr.
  destruct (String.eqb key "file_type"
            && existsb (String.eqb "file_type") (class_attrs self));
    [|discriminate].
  unfold file_type_setter.
  destruct (instance_dict self !! "supported_file_types") as [sup|];
    [|discriminate].
  destruct (py_in val sup) as [[|]|e] eqn:Hin; try discriminate.
  cbn [snd]. intros [= ->]. eapply py_in_type_error, Hin.
Qed.

Lemma set_options_type_error (options : dict T) : forall (self : pyobject T) msg,
  snd (set_options options self) = Raise (TypeError msg) ->
  str_contains "unexpected keyword argument" msg = false.
Proof.
  induction options as [|[key val] rest IH]; intros self msg; [discriminate|].
  cbn [set_options]. unfold mbind at 1. cbn [mget]. unfold mbind at 1.
  destruct (hasattr self (lstrip_underscore key)).
  - pose proof (setattr_type_error (lstrip_underscore key) val self) as Hset.
    destruct (setattr (lstrip_underscore key) val self) as [s' [[]|e]].
    + apply IH.
    + cbn [snd] in *. intros [= ->]. now apply Hset.
  - cbn [mret]. apply IH.
Qed.

End OptionFacts.

(** The writer a new [SVGWriter()] is, in exact arithmetic. *)
Lemma new_writer_has_no_nonexistent_option :
  hasattr (object_of_SVGWriter (SVGWriter_init (T:=Qc)))
    (lstrip_underscore "nonexistent_option") = false.
Proof. vm_compute. reflexivity. Qed.

(** C5, as stated, fails: [set_options] given an option no writer knows
    returns normally, and the writer is as it was. *)
Lemma set_options_unknown_no_error :
  known_option (object_of_SVGWriter (SVGWriter_init (T:=Qc)))
    ("nonexistent_option", VInt 1) = false /\
  set_options [("nonexistent_option", VInt 1)]
    (object_of_SVGWriter (SVGWriter_init (T:=Qc)))
  = (object_of_SVGWriter SVGWriter_init, Return tt).
Proof.
  split; [exact new_writer_has_no_nonexistent_option|].
  cbn [set_options]. unfold mbind at 1. cbn [mget].
  rewrite new_writer_has_no_nonexistent_option. reflexivity.
Qed.

(** ** The registry *)

Section RegistryFacts.
Context {T : Type} `{Number T}.
Variable construct :
  barcode_class -> pyval T -> option (pyobject T) -> result (Barcode (T:=T)).
Variable str_of_dict : dict T -> string.



Lemma get_not_found name code writer_arg writer_options :
  __BARCODE_MAP !! lower name = None ->
  get construct str_of_dict name code writer_arg writer_options
  = ([], Raise (BarcodeNotFoundError name)).
Proof. intros Hnone. unfold get. now rewrite Hnone. Qed.



(** Through [get]: an option of a name the writer does not know, added
    to [writer_options], changes nothing in what [get] prints and
    returns. *)
Lemma get_unknown_option name barcode code writer_arg options key val bc :
  __BARCODE_MAP !! lower name = Some barcode ->
  construct barcode code writer_arg = Return bc ->
  known_option (writer bc) (key, val) = false ->
  get construct str_of_dict name (Some code) writer_arg
    (Some (options ++ [(key, val)]))
  = get construct str_of_dict name (Some code) writer_arg (Some options).
Proof.
  intros Hname Hbc Hkey. unfold get. rewrite Hname, Hbc. cbn [rbind].
  rewrite dict_update_snoc. cbn [fst snd].
  rewrite (set_options_known (dict_set key val _)).
  rewrite filter_known_dict_set by exact Hkey.
  rewrite <- set_options_known.
  pose proof (set_options_type_error
                (dict_update (default_writer_options bc) options)
                (writer bc)) as Hmsg.
  destruct (set_options (dict_update (default_writer_options bc) options)
              (writer bc)) as [w [[]|e]]; [reflexivity|].
  destruct e; try reflexivity.
  cbn [snd] in Hmsg. now rewrite (Hmsg msg eq_refl).
Qed.

(** C5, amended.  [set_options] acts on the options whose names, the
    leading underscores apart, are attributes of the writer, and on no
    other: an option with another name is skipped, with no error and no
    change to the writer; options that are all of this kind leave the
    writer as it was; and [get], which hands [writer_options] to
    [set_options], prints and returns the same with such an option as
    without it. *)
Theorem set_options_skips_unknown (self : pyobject T) (options : dict T) :
  (set_options options self
   = set_options (List.filter (known_option self) options) self) /\
  ((forall kv, In kv options -> known_option self kv = false) ->
   set_options options self = (self, Return tt)) /\
  (forall name barcode code writer_arg key val bc,
     __BARCODE_MAP !! lower name = Some barcode ->
     construct barcode code writer_arg = Return bc ->
     known_option (writer bc) (key, val) = false ->
     get construct str_of_dict name (Some code) writer_arg
       (Some (options ++ [(key, val)]))
     = get construct str_of_dict name (Some code) writer_arg (Some options)).
Proof.
  split; [apply set_options_known|]. split.
  - intros Hunknown. rewrite set_options_known.
    now rewrite filter_known_nil.
  - intros name barcode code writer_arg key val bc.
    apply get_unknown_option.
Qed.

End RegistryFacts.

Lemma set_options_skips_unknown_witness :
  set_options [("nonexistent_option", VInt 1); ("colour", VStr "red")]
    (object_of_SVGWriter (SVGWriter_init (T:=Qc)))
  = (object_of_SVGWriter SVGWriter_init, Return tt).
Proof.
  apply (proj1 (proj2 (set_options_skips_unknown (T:=Qc)
                  (fun _ _ _ => Raise NotImplementedError)
                  (fun _ => EmptyString)
                  (object_of_SVGWriter (SVGWriter_init (T:=Qc)))
                  [("nonexistent_option", VInt 1); ("colour", VStr "red")]))).
  intros kv [<- | [<- | []]]; vm_compute; reflexivity.
Defined.


Example get_EAN13_any_case :
  get (T:=Qc) (fun _ _ _ => Raise NotImplementedError) (fun _ => EmptyString)
    "Ean13" None None None
  = ([], Return (GotClass EAN13)).
Proof. vm_compute. reflexivity. Qed.

(** ** Writing a barcode to a file *)

Section WriteFacts.
Context {T : Type} `{Number T}.
Context {rendered file : Type}.
Variable Barcode_render : Barcode (T:=T) -> pyval T -> result rendered.
Variable has_tostring : rendered -> bool.
Variable image_save : rendered -> file -> file * result unit.
Variable file_write : file -> rendered -> file * result unit.

(** [options] is no name of the module [barcode.base] and no built-in. *)
Lemma options_is_not_defined :
  load_global (T:=T) "options" = Raise (NameError "options").
Proof. vm_compute. reflexivity. Qed.

(** C10.  [Barcode.write(fp, text)] raises NameError for the name
    [options], whatever the barcode, the file and the text are, and the
    file is as it was: nothing is rendered and nothing is written. *)
Theorem write_raises_NameError (self : Barcode) (fp : file) (text : pyval T) :
  write Barcode_render has_tostring image_save file_write self fp text
  = (fp, Raise (NameError "options")).
Proof.
  unfold write. rewrite options_is_not_defined. reflexivity.
Qed.

End WriteFacts.

(** ** When a rendering pass returns *)

Section RenderReturns.
Context {T : Type} `{Number T} {S Out : Type}.
Variable base : S -> BaseWriter T.
Variable cb : Callbacks T S Out.
(** A state of the writer in which the paint callbacks and [finish] return
    normally, and which they keep. *)
Variable P : S -> Prop.
Hypothesis paint_module_returns : forall xpos ypos width color s,
  P s -> exists s',
    call_paint_module cb xpos ypos width color s = (s', Return tt) /\ P s'.
Hypothesis paint_text_returns : forall f xpos ypos s,
  paint_text cb = Some f -> P s ->
  exists s', f xpos ypos s = (s', Return tt) /\ P s'.
Hypothesis finish_returns : forall s,
  P s -> exists f s' out, finish cb = Some f /\ f s = (s', Return out).
(** Halving never raises. *)
Hypothesis halving_returns : forall x : T,
  exists half, truediv x (decimal 20 1) = Return half.

Lemma paint_mlist_returns (ml : list Z) : forall xpos ypos s,
  P s -> exists s' xpos',
    paint_mlist base cb ml xpos ypos s = (s', Return xpos') /\ P s'.
Proof.
  induction ml as [|m rest IH]; intros xpos ypos s Hs.
  - exists s, xpos. split; [reflexivity | exact Hs].
  - cbn [paint_mlist]. rewrite mbind_unfold. cbn [mget].
    rewrite mbind_unfold.
    destruct (paint_module_returns xpos ypos
                (module_width (base s) * of_int (Z.abs m))%num
                (if m <? 1 then background (base s) else foreground (base s))
                s Hs) as (s1 & -> & Hs1).
    rewrite mbind_unfold. cbn [mget]. now apply IH.
Qed.

Lemma render_lines_returns (len_code : Z) (lines : list string) :
  forall cc ypos bx s,
  P s -> exists s' after,
    render_lines base cb len_code cc lines ypos bx s = (s', Return after) /\
    P s' /\ (lines <> [] \/ bx <> None -> snd after <> None).
Proof.
  induction lines as [|line rest IH]; intros cc ypos bx s Hs.
  - exists s, (ypos, bx). repeat split; [exact Hs|].
    intros [Hne | Hne]; [congruence | exact Hne].
  - cbn [render_lines]. rewrite mbind_unfold. cbn [mget].
    rewrite mbind_unfold.
    destruct (paint_mlist_returns (mlist line) (quiet_zone (base s)) ypos s Hs)
      as (s1 & xpos & -> & Hs1).
    rewrite mbind_unfold.
    assert (Hqz : exists s2,
      (if negb (cc + 1 =? len_code)
       then mbind mget (fun self =>
              call_paint_module cb xpos ypos (quiet_zone (base self))
                (background (base self)))
       else mret tt) s1 = (s2, Return tt) /\ P s2).
    { destruct (negb (cc + 1 =? len_code)).
      - rewrite mbind_unfold. cbn [mget]. now apply paint_module_returns.
      - exists s1. split; [reflexivity | exact Hs1]. }
    destruct Hqz as (s2 & -> & Hs2).
    rewrite mbind_unfold. cbn [mget].
    destruct (IH (cc + 1) (ypos + module_height (base s2))%num
                (Some (quiet_zone (base s), xpos)) s2 Hs2)
      as (s3 & after & -> & Hs3 & Hbx).
    exists s3, after. repeat split; [exact Hs3|].
    intros _. apply Hbx. now right.
Qed.

(** A pass over a code of at least one line returns what [finish] returns,
    once [initialize] has returned and left the writer ready to paint. *)
Lemma render_returns (code : list string) (s : S) :
  code <> [] ->
  (exists f s1, initialize cb = Some f /\ f code s = (s1, Return tt) /\ P s1) ->
  exists s' out, render base cb code s = (s', Return out).
Proof.
  intros Hcode (f & s1 & Hf & Hinit & Hs1). unfold render.
  rewrite Hf, mbind_unfold, Hinit, mbind_unfold.
  destruct (render_lines_returns (Z.of_nat (length code)) code 0
              (decimal 10 1) None s1 Hs1) as (s2 & after & -> & Hs2 & Hbx).
  rewrite mbind_unfold. cbn [mget]. rewrite mbind_unfold.
  assert (Htext : exists s3,
    (if str_truth (text (base s2)) then
       match paint_text cb with
       | Some f =>
           mbind
             (if center_text (base s2) then
                mbind (local_bx (snd after) "bxs" fst) (fun bxs =>
                mbind (local_bx (snd after) "bxe" snd) (fun bxe =>
                mbind (mlift (truediv (bxe - bxs)%num (decimal 20 1)))
                  (fun half => mret (bxs + half)%num)))
              else local_bx (snd after) "bxs" fst)
             (fun xpos => f xpos (fst after + text_distance (base s2))%num)
       | None => mret tt
       end
     else mret tt) s2 = (s3, Return tt) /\ P s3).
  { destruct (str_truth (text (base s2)));
      [|exists s2; split; [reflexivity | exact Hs2]].
    destruct (paint_text cb) as [g|] eqn:Hg;
      [|exists s2; split; [reflexivity | exact Hs2]].
    destruct (snd after) as [[bxs bxe]|] eqn:Hafter;
      [|exfalso; apply Hbx; [now left | reflexivity]].
    rewrite mbind_unfold.
    destruct (center_text (base s2)).
    - rewrite mbind_unfold. cbn [local_bx mret fst snd].
      rewrite mbind_unfold. cbn [mret]. rewrite mbind_unfold. unfold mlift.
      destruct (halving_returns (bxe - bxs)%num) as [half ->].
      cbn [mret]. now apply paint_text_returns.
    - cbn [local_bx mret fst]. now apply paint_text_returns. }
  destruct Htext as (s3 & -> & Hs3).
  destruct (finish_returns s3 Hs3) as (g & s4 & out & -> & Hfinish).
  exists s4, out. exact Hfinish.
Qed.

End RenderReturns.

(** In exact arithmetic [calculate_size] returns for every [dpi] but
    zero. *)
Lemma calculate_size_returns (self : BaseWriter Qc)
    (modules_per_line number_of_lines : Z) (dpi : Qc) :
  dpi <> 0%Qc ->
  exists size,
    calculate_size self modules_per_line number_of_lines dpi = Return size.
Proof.
  intros Hdpi. rewrite calculate_size_text_block.
  assert (Htb : exists tb, text_block_height self dpi = Return tb).
  { unfold text_block_height.
    destruct (num_truth (font_size self) && str_truth (text self));
      [|eauto].
    num_unfold. rewrite (Qc_truediv_nonzero _ (Qc_of_int 200)) by reflexivity.
    cbn [rbind]. rewrite Qc_truediv_nonzero; [cbn [rbind]; eauto|].
    rewrite Qc_scale_is_zero. now apply Qc_is_zero_false_iff. }
  destruct Htb as [tb ->]. cbn [rbind]. rewrite Qc_size_in_pixels. eauto.
Qed.

Section SVGReturns.
Variable version : string.
Variables format_size format_number : Qc -> string.
Variables toxml toprettyxml : Document -> string.

Lemma create_module_returns xpos ypos width color (s : SVGWriter Qc) :
  svg_ready s ->
  exists s', _create_module format_size xpos ypos width color s
             = (s', Return tt) /\ svg_ready s'.
Proof.
  intros [[d Hd] [g Hg]]. unfold _create_module. rewrite Hd, Hg.
  eexists. split; [reflexivity|].
  split; cbn [set_document _document _group]; eauto.
Qed.

Lemma create_text_line_returns xpos ypos subtext (s : SVGWriter Qc) :
  svg_ready s ->
  exists s', create_text_line format_size format_number xpos ypos subtext s
             = (s', Return tt) /\ svg_ready s'.
Proof.
  intros [[d Hd] [g Hg]]. unfold create_text_line. rewrite Hd, Hg.
  eexists. split; [reflexivity|].
  split; cbn [set_document _document _group]; eauto.
Qed.

Lemma create_text_lines_returns (subtexts : list string) :
  forall xpos ypos (s : SVGWriter Qc),
  svg_ready s ->
  exists s', create_text_lines format_size format_number xpos ypos subtexts s
             = (s', Return tt) /\ svg_ready s'.
Proof.
  induction subtexts as [|subtext rest IH]; intros xpos ypos s Hs.
  - exists s. split; [reflexivity | exact Hs].
  - cbn [create_text_lines]. rewrite mbind_unfold.
    destruct (create_text_line_returns xpos ypos subtext s Hs)
      as (s1 & -> & Hs1).
    rewrite mbind_unfold. cbn [mget]. now apply IH.
Qed.

(** In exact arithmetic, a pass of the SVG writer over a code of at least
    one line, at a [dpi] that is not zero, returns its bytes. *)
Lemma svg_render_returns (code : list string) (w : SVGWriter Qc) :
  code <> [] -> dpi w <> 0%Qc ->
  exists w' bytes,
    svg_render version format_size format_number toxml toprettyxml code w
    = (w', Return bytes).
Proof.
  intros Hcode Hdpi. unfold svg_render.
  apply (render_returns base _ svg_ready); [| | | |exact Hcode|].
  - intros xpos ypos width color s Hs. now apply create_module_returns.
  - intros f xpos ypos s [= <-] Hs. unfold _create_text.
    rewrite mbind_unfold. cbn [mget]. now apply create_text_lines_returns.
  - intros s [[d Hd] _]. do 3 eexists. split; [reflexivity|].
    unfold _finish. rewrite Hd. reflexivity.
  - intros x. eexists. cbn [truediv Qc_Number decimal].
    now apply Qc_truediv_nonzero.
  - destruct code as [|line0 rest]; [congruence|].
    destruct (calculate_size_returns (base w)
                (Z.of_nat (String.length line0))
                (Z.of_nat (length (line0 :: rest))) (dpi w) Hdpi)
      as [[width height] Hsize].
    do 2 eexists. split; [reflexivity|]. unfold _init. rewrite Hsize.
    split; [reflexivity|]. split; cbn [_document _group]; eauto.
Qed.

End SVGReturns.

(* ================================================================== *)
(** * Part III. Further properties of the code                         *)
(* ================================================================== *)

(** ** The paint calls, for any arithmetic *)

Section GeometryFacts.
Context {T : Type} `{Number T}.

(** What follows the loop over the lines holds no [paint_module] call. *)
Lemma trace_lines_calls (w : BaseWriter T) (code : list string) :
  exists closing : list (call T),
    trace w code
    = Initialize code
      :: lines_calls w (Z.of_nat (length code)) 0 (decimal 10 1) code
      ++ closing /\
    List.filter is_paint_module closing = [].
Proof.
  unfold trace, render_recorded, render.
  cbn [initialize recorder_callbacks].
  unfold mbind at 1. unfold record at 1. cbn [rec_writer rec_calls app].
  unfold mbind at 1. rewrite render_lines_recorded.
  unfold mbind at 1. cbn [mget rec_writer].
  destruct (lines_end w (decimal 10 1) None code) as [ypos bx].
  cbn [fst snd paint_text finish recorder_callbacks].
  destruct (str_truth (text w)).
  - destruct bx as [[bxs bxe]|]; cbn [local_bx].
    + destruct (center_text w).
      * unfold mbind, mret, mlift, record. cbn [fst snd].
        destruct (truediv (bxe - bxs)%num (decimal 20 1)) as [half|e];
          cbn [fst rec_calls rec_writer].
        -- eexists. rewrite <- !app_assoc. split; reflexivity.
        -- exists []. rewrite app_nil_r. split; reflexivity.
      * unfold mbind, mret, record. cbn [fst rec_calls rec_writer].
        eexists. rewrite <- !app_assoc. split; reflexivity.
    + destruct (center_text w); unfold mbind, mraise; cbn [fst rec_calls];
        exists []; rewrite app_nil_r; split; reflexivity.
  - unfold mbind, mret, record. cbn [fst rec_calls rec_writer].
    eexists. split; reflexivity.
Qed.

Lemma filter_module_calls_any (w : BaseWriter T) (ypos : T) (ml : list Z) :
  forall xpos : T,
  List.filter is_paint_module (module_calls w ypos xpos ml)
  = module_calls w ypos xpos ml.
Proof.
  induction ml as [|m rest IH]; intros xpos; [reflexivity|].
  cbn [module_calls List.filter is_paint_module]. now rewrite IH.
Qed.

Lemma filter_lines_calls_any (w : BaseWriter T) (len_code : Z)
    (lines : list string) : forall (cc : Z) (ypos : T),
  List.filter is_paint_module (lines_calls w len_code cc ypos lines)
  = lines_calls w len_code cc ypos lines.
Proof.
  induction lines as [|line rest IH]; intros cc ypos; [reflexivity|].
  cbn [lines_calls]. rewrite !List.filter_app, filter_module_calls_any, IH.
  destruct (negb (cc + 1 =? len_code)); reflexivity.
Qed.

(** The [paint_module] calls of a pass are those of the loop over the
    lines. *)
Lemma paint_module_calls_of_trace (w : BaseWriter T) (code : list string) :
  List.filter is_paint_module (trace w code)
  = lines_calls w (Z.of_nat (length code)) 0 (decimal 10 1) code.
Proof.
  destruct (trace_lines_calls w code) as (closing & -> & Hclosing).
  cbn [List.filter is_paint_module].
  now rewrite List.filter_app, filter_lines_calls_any, Hclosing, app_nil_r.
Qed.

Lemma chained_app (w : BaseWriter T) (l1 l2 : list (call T)) :
  chained w l1 -> chained w l2 ->
  (forall c1 c2, last l1 = Some c1 -> head l2 = Some c2 -> follows w c1 c2) ->
  chained w (l1 ++ l2).
Proof.
  induction l1 as [|c1 [|c1' l1] IH]; intros H1 H2 Hjoin.
  - exact H2.
  - destruct l2 as [|c2 l2]; [exact I|].
    cbn [app chained]. split; [now apply Hjoin | exact H2].
  - destruct H1 as [Hfollows H1]. split; [exact Hfollows|].
    apply IH; [exact H1 | exact H2 |].
    intros c c2 Hlast. apply Hjoin. now rewrite last_cons_cons.
Qed.

(** The modules of one line, and what is painted next where they end. *)
Lemma chained_module_calls (w : BaseWriter T) (ypos : T) (ml : list Z)
    (next : list (call T)) : forall xpos : T,
  chained w next ->
  match next with
  | PaintModule x y _ _ :: _ => x = xpos_after w xpos ml /\ y = ypos
  | _ => True
  end ->
  chained w (module_calls w ypos xpos ml ++ next).
Proof.
  induction ml as [|m rest IH]; intros xpos Hnext Hstart; [exact Hnext|].
  cbn [module_calls xpos_after app] in *.
  specialize (IH _ Hnext Hstart).
  destruct rest as [|m' rest']; cbn [module_calls app] in *.
  - destruct next as [|[| x y wd c | |] next']; try exact I;
      cbn [chained follows]; try (split; [exact I | exact Hnext]).
    split; [left; exact Hstart | exact Hnext].
  - split; [left; split; reflexivity | exact IH].
Qed.

Lemma head_lines_calls (w : BaseWriter T) (len_code : Z)
    (lines : list string) (cc : Z) (ypos : T) :
  len_code = cc + Z.of_nat (length lines) ->
  starts_at w ypos (lines_calls w len_code cc ypos lines).
Proof.
  intros Hlen. destruct lines as [|line rest]; [exact I|].
  cbn [lines_calls]. destruct (mlist line) as [|m ml].
  - cbn [module_calls app].
    destruct (Z.eqb_spec (cc + 1) len_code) as [Heq|Hne]; cbn [negb app].
    + destruct rest; [exact I | cbn [length] in Hlen; lia].
    + split; reflexivity.
  - split; reflexivity.
Qed.

Lemma chained_lines_calls (w : BaseWriter T) (len_code : Z)
    (lines : list string) : forall (cc : Z) (ypos : T),
  len_code = cc + Z.of_nat (length lines) ->
  chained w (lines_calls w len_code cc ypos lines).
Proof.
  induction lines as [|line rest IH]; intros cc ypos Hlen; [exact I|].
  cbn [lines_calls].
  destruct (Z.eqb_spec (cc + 1) len_code) as [Heq|Hne]; cbn [negb].
  - destruct rest; [|cbn [length] in Hlen; lia].
    cbn [lines_calls app]. rewrite app_nil_r.
    rewrite <- (app_nil_r (module_calls _ _ _ _)).
    now apply chained_module_calls.
  - assert (Hrest : len_code = cc + 1 + Z.of_nat (length rest))
      by (cbn [length] in Hlen; lia).
    apply chained_module_calls; [|split; reflexivity].
    pose proof (head_lines_calls w len_code rest (cc + 1)
                  (ypos + module_height w)%num Hrest) as Hhead.
    specialize (IH (cc + 1) (ypos + module_height w)%num Hrest).
    cbn [app].
    destruct (lines_calls w len_code (cc + 1) (ypos + module_height w)%num rest)
      as [|[| x y wd c | |] calls]; try exact I;
      cbn [chained follows]; try (split; [exact I | exact IH]).
    split; [|exact IH]. right. destruct Hhead as [-> ->]. now repeat split.
Qed.

(** X1.  The [paint_module] calls of a pass leave no gap, in any
    arithmetic: the first is at the left quiet zone on the line at 1.0; each of the
    others starts at the sum of the position and the width of the call
    before it, on the same line, unless the call before it was the right
    quiet zone of a line, after which it starts the next line at the left
    quiet zone, one module height lower. *)
Theorem paint_module_calls_chained (w : BaseWriter T) (code : list string) :
  chained w (List.filter is_paint_module (trace w code)) /\
  starts_at w (decimal 10 1) (List.filter is_paint_module (trace w code)).
Proof.
  rewrite paint_module_calls_of_trace. split.
  - apply chained_lines_calls. lia.
  - apply head_lines_calls. lia.
Qed.

End GeometryFacts.

(** ** The paint calls and the image, in exact arithmetic *)















(** A pass on the recording writer, whole: the calls and how it ends. *)
Lemma render_recorded_closed (w : BaseWriter Qc) (code : list string) :
  render_recorded w code
  = ({| rec_writer := w; rec_calls := trace w code |}, render_result w code).
Proof.
  rewrite trace_recorded. unfold render_result, render_recorded, render.
  cbn [initialize recorder_callbacks].
  unfold mbind at 1. unfold record at 1. cbn [rec_writer rec_calls app].
  unfold mbind at 1. rewrite render_lines_recorded.
  unfold mbind at 1. cbn [mget rec_writer].
  unfold closing_calls.
  pose proof (lines_end_last w code (Qc_decimal 10 1) None) as Hlast.
  destruct (lines_end w (decimal 10 1) None code) as [ypos bx] eqn:Hend.
  change (decimal 10 1) with (Qc_decimal 10 1) in Hend. rewrite Hend in *.
  cbn [fst snd paint_text finish recorder_callbacks] in *.
  destruct (str_truth (text w)).
  - destruct code as [|line rest].
    + cbn in Hlast. subst bx. cbn [local_bx].
      destruct (center_text w); unfold mbind, mraise;
        cbn [fst rec_calls]; now rewrite app_nil_r.
    + rewrite last_cons in Hlast.
      destruct bx as [[bxs bxe]|];
        [|destruct (last rest); discriminate Hlast].
      cbn [local_bx]. destruct (center_text w).
      * unfold mbind, mret, mlift, record; num_unfold.
        rewrite Qc_truediv_nonzero by reflexivity.
        cbn [fst rec_calls rec_writer]. now rewrite <- app_assoc.
      * unfold mbind, mret, record. cbn [fst rec_calls rec_writer].
        now rewrite <- app_assoc.
  - unfold mbind, mret, record. cbn [fst rec_calls rec_writer]. reflexivity.
Qed.

(** X4.  In exact arithmetic a pass whose callbacks do not raise ends in
    one way only that is not a return: on a code of no line with a text
    that is not empty it raises UnboundLocalError for [bxs], centred or
    not, after [initialize] and before [finish]; and [finish] is the last
    call exactly when the pass returns. *)
Theorem render_raises_only_without_lines (w : BaseWriter Qc)
    (code : list string) :
  snd (render_recorded w code) = render_result w code /\
  (render_result w code = Return tt <-> last (trace w code) = Some Finish) /\
  (render_result w code <> Return tt -> trace w code = [Initialize code]).
Proof.
  rewrite render_recorded_closed. split; [reflexivity|].
  rewrite trace_recorded, closing_calls_last. unfold render_result.
  destruct (str_truth (text w)).
  - destruct code as [|line rest].
    + cbn. repeat split; discriminate.
    + assert (Hlast : exists l, last (line :: rest) = Some l)
        by (rewrite last_cons; destruct (last rest); eauto).
      destruct Hlast as [l ->].
      split; [|congruence]. split; [intros _|reflexivity].
      now rewrite app_comm_cons, last_app.
  - split; [|congruence]. split; [intros _|reflexivity].
    now rewrite app_comm_cons, last_snoc.
Qed.

(** ** Every writer receives the calls the recording writer received *)

Section ReplayFacts.
Context {T : Type} `{Number T} {S Out : Type}.
Variable base : S -> BaseWriter T.
Variable cb : Callbacks T S Out.

(** All the calls of a pass on a recording writer, and how it ends, in
    any arithmetic. *)
Lemma render_recorded_any (w : BaseWriter T) (code : list string) :
  render_recorded w code
  = let after := lines_end w (decimal 10 1) None code in
    let calls :=
      Initialize code
      :: lines_calls w (Z.of_nat (length code)) 0 (decimal 10 1) code in
    if str_truth (text w) then
      match text_position w (snd after) with
      | Return xpos =>
          ({| rec_writer := w;
              rec_calls :=
                calls ++ [PaintText xpos (fst after + text_distance w)%num;
                          Finish] |},
           Return tt)
      | Raise e => ({| rec_writer := w; rec_calls := calls |}, Raise e)
      end
    else ({| rec_writer := w; rec_calls := calls ++ [Finish] |}, Return tt).
Proof.
  unfold render_recorded, render.
  cbn [initialize recorder_callbacks].
  unfold mbind at 1. unfold record at 1. cbn [rec_writer rec_calls app].
  unfold mbind at 1. rewrite render_lines_recorded.
  unfold mbind at 1. cbn [mget rec_writer]. cbn zeta.
  destruct (lines_end w (decimal 10 1) None code) as [ypos bx].
  cbn [fst snd paint_text finish recorder_callbacks].
  destruct (str_truth (text w)).
  - unfold text_position. destruct bx as [[bxs bxe]|]; cbn [local_bx].
    + destruct (center_text w).
      * unfold mbind, mret, mlift, record. cbn [fst snd].
        destruct (truediv (bxe - bxs)%num (decimal 20 1)) as [half|e];
          cbn [rbind fst rec_calls rec_writer].
        -- now rewrite <- !app_assoc.
        -- reflexivity.
      * unfold mbind, mret, record. cbn [fst rec_calls rec_writer].
        now rewrite <- !app_assoc.
    + destruct (center_text w); reflexivity.
  - unfold mbind, mret, record. cbn [fst rec_calls rec_writer]. reflexivity.
Qed.

Lemma perform_all_app (l1 l2 : list (call T)) : forall (out : option Out) s,
  perform_all cb (l1 ++ l2) out s
  = match perform_all cb l1 out s with
    | (s', Return out') => perform_all cb l2 out' s'
    | (s', Raise e) => (s', Raise e)
    end.
Proof.
  induction l1 as [|c l1 IH]; intros out s; [reflexivity|].
  cbn [app perform_all]. rewrite !mbind_unfold.
  destruct (perform cb c out s) as [s1 [out1|e]]; [apply IH | reflexivity].
Qed.

Hypothesis paint_module_keeps_base : forall f xpos ypos width color s,
  paint_module cb = Some f ->
  base (fst (f xpos ypos width color s)) = base s.

Lemma call_paint_module_keeps_base xpos ypos width color s :
  base (fst (call_paint_module cb xpos ypos width color s)) = base s.
Proof.
  unfold call_paint_module. destruct (paint_module cb) as [f|] eqn:Hf;
    [now apply paint_module_keeps_base | reflexivity].
Qed.

(** The loop over the tokens of a line makes the calls of [module_calls]. *)
Lemma paint_mlist_replays (ypos : T) (ml : list Z) :
  forall (out : option Out) (xpos : T) (s : S),
  paint_mlist base cb ml xpos ypos s
  = match perform_all cb (module_calls (base s) ypos xpos ml) out s with
    | (s', Return _) => (s', Return (xpos_after (base s) xpos ml))
    | (s', Raise e) => (s', Raise e)
    end /\
  base (fst (paint_mlist base cb ml xpos ypos s)) = base s.
Proof.
  induction ml as [|m rest IH]; intros out xpos s; [split; reflexivity|].
  cbn [paint_mlist module_calls xpos_after perform_all perform].
  rewrite !mbind_unfold. cbn [mget]. rewrite !mbind_unfold.
  pose proof (call_paint_module_keeps_base xpos ypos
                (module_width (base s) * of_int (Z.abs m))%num
                (if m <? 1 then background (base s) else foreground (base s))
                s) as Hkeep.
  destruct (call_paint_module cb _ _ _ _ s) as [s1 [[]|e]]; cbn [fst] in Hkeep.
  - cbn [mret]. rewrite mbind_unfold. cbn [mget]. rewrite Hkeep.
    destruct (IH out (xpos + module_width (base s) * of_int (Z.abs m))%num s1)
      as [IHrun IHbase].
    rewrite Hkeep in IHrun, IHbase. split; assumption.
  - split; [reflexivity | exact Hkeep].
Qed.

(** The loop over the lines makes the calls of [lines_calls]. *)
Lemma render_lines_replays (len_code : Z) (lines : list string) :
  forall (out : option Out) (cc : Z) (ypos : T) (bx : option (T * T)) (s : S),
  render_lines base cb len_code cc lines ypos bx s
  = match perform_all cb (lines_calls (base s) len_code cc ypos lines) out s
    with
    | (s', Return _) => (s', Return (lines_end (base s) ypos bx lines))
    | (s', Raise e) => (s', Raise e)
    end /\
  base (fst (render_lines base cb len_code cc lines ypos bx s)) = base s.
Proof.
  induction lines as [|line rest IH]; intros out cc ypos bx s;
    [split; reflexivity|].
  cbn [render_lines lines_calls lines_end].
  rewrite !mbind_unfold. cbn [mget]. rewrite !mbind_unfold.
  rewrite perform_all_app.
  destruct (paint_mlist_replays ypos (mlist line) out (quiet_zone (base s)) s)
    as [Hrun Hbase].
  rewrite Hrun in *. clear Hrun.
  destruct (perform_all cb (module_calls (base s) ypos (quiet_zone (base s))
                              (mlist line)) out s) as [s1 [out1|e]];
    cbn [fst] in Hbase; [|split; [reflexivity | exact Hbase]].
  rewrite mbind_unfold, perform_all_app.
  destruct (negb (cc + 1 =? len_code)).
  - rewrite mbind_unfold. cbn [mget perform_all perform].
    rewrite !mbind_unfold, Hbase.
    pose proof (call_paint_module_keeps_base
                  (xpos_after (base s) (quiet_zone (base s)) (mlist line)) ypos
                  (quiet_zone (base s)) (background (base s)) s1) as Hkeep.
    destruct (call_paint_module cb _ _ _ _ s1) as [s2 [[]|e]];
      cbn [fst] in Hkeep; rewrite Hbase in Hkeep;
      [|split; [reflexivity | exact Hkeep]].
    cbn [mret]. rewrite !mbind_unfold. cbn [mget]. rewrite Hkeep.
    destruct (IH out1 (cc + 1) (ypos + module_height (base s))%num
                (Some (quiet_zone (base s),
                       xpos_after (base s) (quiet_zone (base s)) (mlist line)))
                s2) as [IHrun IHbase].
    rewrite Hkeep in IHrun, IHbase. split; assumption.
  - cbn [mret perform_all]. rewrite !mbind_unfold. cbn [mget]. rewrite Hbase.
    destruct (IH out1 (cc + 1) (ypos + module_height (base s))%num
                (Some (quiet_zone (base s),
                       xpos_after (base s) (quiet_zone (base s)) (mlist line)))
                s1) as [IHrun IHbase].
    rewrite Hbase in IHrun, IHbase. split; assumption.
Qed.

(** The [paint_module] calls leave what [finish] returned as it was. *)
Lemma perform_all_paint_modules (calls : list (call T)) :
  List.filter is_paint_module calls = calls ->
  forall (out out' : option Out) (s s' : S),
  perform_all cb calls out s = (s', Return out') -> out' = out.
Proof.
  intros Hfilter.
  assert (Hall : forall c, In c calls -> is_paint_module c = true).
  { intros c Hin. rewrite <- Hfilter in Hin. now apply filter_In in Hin. }
  clear Hfilter. induction calls as [|c rest IH]; intros out out' s s' Hrun.
  - now injection Hrun as _ <-.
  - cbn [perform_all] in Hrun. rewrite mbind_unfold in Hrun.
    pose proof (Hall c (or_introl eq_refl)) as Hc.
    destruct c as [| xpos ypos width color | |]; try discriminate Hc.
    cbn [perform] in Hrun. rewrite mbind_unfold in Hrun.
    destruct (call_paint_module cb xpos ypos width color s) as [s1 [[]|e]];
      [|discriminate Hrun].
    cbn [mret] in Hrun. eapply IH; [|exact Hrun].
    intros c Hin. apply Hall. now right.
Qed.

Hypothesis initialize_keeps_base : forall f code s,
  initialize cb = Some f -> base (fst (f code s)) = base s.
Hypothesis paint_text_registered : paint_text cb <> None.

(** A pass is the replay of the calls of the recording writer. *)
Lemma render_is_replay (code : list string) (s : S) :
  render base cb code s = replay cb (base s) code s.
Proof.
  unfold replay, trace. rewrite render_recorded_any. cbn zeta.
  set (w := base s).
  set (lines := lines_calls w (Z.of_nat (length code)) 0 (decimal 10 1) code).
  set (after := lines_end w (decimal 10 1) None code).
  assert (Hprefix : forall closing,
    perform_all cb ((Initialize code :: lines) ++ closing) None s
    = match
        match initialize cb with
        | Some f => f code
        | None => mret tt
        end s
      with
      | (s1, Return _) =>
          match render_lines base cb (Z.of_nat (length code)) 0 code
                  (decimal 10 1) None s1 with
          | (s2, Return _) => perform_all cb closing None s2
          | (s2, Raise e) => (s2, Raise e)
          end
      | (s1, Raise e) => (s1, Raise e)
      end).
  { intros closing. cbn [app perform_all perform]. rewrite mbind_unfold.
    pose proof (fun f => initialize_keeps_base f code s) as Hinit.
    destruct (initialize cb) as [f|].
    - rewrite mbind_unfold. specialize (Hinit f eq_refl).
      destruct (f code s) as [s1 [[]|e]]; cbn [fst] in Hinit; [|reflexivity].
      cbn [mret]. rewrite perform_all_app.
      destruct (render_lines_replays (Z.of_nat (length code)) code None 0
                  (decimal 10 1) None s1) as [-> _].
      rewrite Hinit. fold w lines.
      destruct (perform_all cb lines None s1) as [s2 [out|e]] eqn:Hrun;
        [|reflexivity].
      now rewrite (perform_all_paint_modules lines
                     (filter_lines_calls_any _ _ _ _ _) _ _ _ _ Hrun).
    - cbn [mret]. rewrite perform_all_app.
      destruct (render_lines_replays (Z.of_nat (length code)) code None 0
                  (decimal 10 1) None s) as [-> _].
      fold w lines.
      destruct (perform_all cb lines None s) as [s2 [out|e]] eqn:Hrun;
        [|reflexivity].
      now rewrite (perform_all_paint_modules lines
                     (filter_lines_calls_any _ _ _ _ _) _ _ _ _ Hrun). }
  assert (Hbase : forall s1 s2 r,
    match initialize cb with
    | Some f => f code
    | None => mret tt
    end s = (s1, Return tt) ->
    render_lines base cb (Z.of_nat (length code)) 0 code (decimal 10 1) None s1
    = (s2, Return r) ->
    base s2 = w /\ r = after).
  { intros s1 s2 r Hinit Hlines.
    assert (Hs1 : base s1 = w).
    { pose proof (fun f => initialize_keeps_base f code s) as Hkeep.
      destruct (initialize cb) as [f|].
      - specialize (Hkeep f eq_refl). now rewrite Hinit in Hkeep.
      - now injection Hinit as <-. }
    destruct (render_lines_replays (Z.of_nat (length code)) code None 0
                (decimal 10 1) None s1) as [Hrun Hkeep].
    rewrite Hlines in Hkeep. cbn [fst] in Hkeep. rewrite Hs1 in *.
    split; [exact Hkeep|].
    rewrite Hlines in Hrun. fold lines in Hrun.
    destruct (perform_all cb lines None s1) as [s2' [out|e]];
      [|discriminate Hrun].
    now injection Hrun as _ ->. }
  unfold render. rewrite mbind_unfold.
  destruct (paint_text cb) as [paint|] eqn:Hpaint;
    [|now destruct paint_text_registered].
  destruct (str_truth (text w)) eqn:Htext.
  - destruct (text_position w (snd after)) as [xpos|e] eqn:Hpos.
    + cbn [rec_calls fst snd]. rewrite mbind_unfold, Hprefix.
      destruct (match initialize cb with
                | Some f => f code
                | None => mret tt
                end s) as [s1 [[]|e]] eqn:Hinit; [|reflexivity].
      rewrite mbind_unfold.
      destruct (render_lines base cb _ _ _ _ _ s1) as [s2 [r|e]] eqn:Hlines;
        [|reflexivity].
      destruct (Hbase s1 s2 r eq_refl Hlines) as [Hs2 ->].
      rewrite mbind_unfold. cbn [mget]. rewrite mbind_unfold, Hs2, Htext.
      cbn [perform_all perform]. rewrite Hpaint, !mbind_unfold.
      unfold text_position in Hpos.
      destruct (snd after) as [[bxs bxe]|]; [|discriminate Hpos].
      assert (Hxpos :
        (if center_text w
         then mbind (local_bx (Some (bxs, bxe)) "bxs" fst) (fun bxs0 =>
              mbind (local_bx (Some (bxs, bxe)) "bxe" snd) (fun bxe0 =>
              mbind (mlift (truediv (bxe0 - bxs0)%num (decimal 20 1)))
                (fun half => mret (bxs0 + half)%num)))
         else local_bx (Some (bxs, bxe)) "bxs" fst) s2
        = (s2, Return xpos)).
      { destruct (center_text w); cbn [local_bx fst snd].
        - unfold mbind, mret, mlift.
          destruct (truediv (bxe - bxs)%num (decimal 20 1)) as [half|e];
            [|discriminate Hpos].
          cbn [rbind] in Hpos. now injection Hpos as <-.
        - unfold mret. now injection Hpos as <-. }
      rewrite Hxpos.
      destruct (paint xpos (fst after + text_distance w)%num s2)
        as [s3 [[]|e]]; [|reflexivity].
      cbn [mret]. rewrite !mbind_unfold.
      destruct (finish cb) as [fin|]; [|reflexivity].
      rewrite mbind_unfold.
      destruct (fin s3) as [s4 [out|e]]; reflexivity.
    + cbn [rec_calls fst snd]. rewrite mbind_unfold.
      rewrite <- (app_nil_r (Initialize code :: lines)), Hprefix.
      destruct (match initialize cb with
                | Some f => f code
                | None => mret tt
                end s) as [s1 [[]|e']] eqn:Hinit; [|reflexivity].
      rewrite mbind_unfold.
      destruct (render_lines base cb _ _ _ _ _ s1) as [s2 [r|e']] eqn:Hlines;
        [|reflexivity].
      destruct (Hbase s1 s2 r eq_refl Hlines) as [Hs2 ->].
      rewrite mbind_unfold. cbn [mget perform_all mret].
      rewrite mbind_unfold, Hs2, Htext, mbind_unfold.
      unfold text_position in Hpos.
      destruct (snd after) as [[bxs bxe]|].
      * destruct (center_text w); [|discriminate Hpos].
        cbn [local_bx fst snd]. unfold mbind, mret, mlift.
        destruct (truediv (bxe - bxs)%num (decimal 20 1)) as [half|e'];
          [discriminate Hpos|].
        cbn [rbind] in Hpos. now injection Hpos as <-.
      * injection Hpos as <-. destruct (center_text w); reflexivity.
  - cbn [rec_calls fst snd]. rewrite mbind_unfold, Hprefix.
    destruct (match initialize cb with
              | Some f => f code
              | None => mret tt
              end s) as [s1 [[]|e]] eqn:Hinit; [|reflexivity].
    rewrite mbind_unfold.
    destruct (render_lines base cb _ _ _ _ _ s1) as [s2 [r|e]] eqn:Hlines;
      [|reflexivity].
    destruct (Hbase s1 s2 r eq_refl Hlines) as [Hs2 ->].
    rewrite mbind_unfold. cbn [mget]. rewrite mbind_unfold, Hs2, Htext.
    cbn [mret perform_all perform]. rewrite !mbind_unfold.
    destruct (finish cb) as [fin|]; [|reflexivity].
    rewrite mbind_unfold.
    destruct (fin s2) as [s3 [out|e]]; reflexivity.
Qed.

End ReplayFacts.

(** X5.  For a writer whose [initialize] and [paint_module] callbacks
    leave the options of [BaseWriter] as they are and whose [paint_text]
    is registered, in any arithmetic: a pass makes on the writer exactly
    the calls a recording writer with the same options receives, in the
    same order, stops at the first that raises, and ends as the pass on
    the recording writer ends, with what [finish] returned. *)
Theorem render_replays_trace {T : Type} `{Number T} {S Out : Type}
    (base : S -> BaseWriter T) (cb : Callbacks T S Out)
    (code : list string) (s : S) :
  (forall f xpos ypos width color s,
     paint_module cb = Some f ->
     base (fst (f xpos ypos width color s)) = base s) ->
  (forall f code s,
     initialize cb = Some f -> base (fst (f code s)) = base s) ->
  paint_text cb <> None ->
  render base cb code s = replay cb (base s) code s.
Proof.
  intros Hpaint Hinit Htext. now apply render_is_replay.
Qed.

Lemma render_replays_trace_witness :
  render rec_writer recorder_callbacks ["1101"; "0010"]
    {| rec_writer := example_writer; rec_calls := [] |}
  = replay recorder_callbacks example_writer ["1101"; "0010"]
      {| rec_writer := example_writer; rec_calls := [] |}.
Proof.
  apply (render_replays_trace rec_writer recorder_callbacks
           ["1101"; "0010"] {| rec_writer := example_writer; rec_calls := [] |}).
  - intros f xpos ypos width color s [= <-]. reflexivity.
  - intros f code s [= <-]. reflexivity.
  - discriminate.
Defined.

(** ** What [set_options] can and cannot do to a writer *)

Section OptionEffects.
Context {T : Type} `{Number T}.

Lemma setattr_class_attrs key val (self : pyobject T) :
  class_attrs (fst (setattr key val self)) = class_attrs self.
Proof.
  unfold setattr.
  destruct (String.eqb key "file_type"
            && existsb (String.eqb "file_type") (class_attrs self));
    [|reflexivity].
  unfold file_type_setter.
  destruct (instance_dict self !! "supported_file_types") as [sup|];
    [|reflexivity].
  destruct (py_in val sup) as [[|]|e]; reflexivity.
Qed.

(** [setattr] writes the attribute it names or, through the setter of
    [file_type], the private [_file_type]; it writes no other. *)
Lemma setattr_frame key val (self : pyobject T) key' :
  key' <> key -> key' <> "_file_type" ->
  instance_dict (fst (setattr key val self)) !! key'
  = instance_dict self !! key'.
Proof.
  intros Hkey Hpriv. unfold setattr.
  destruct (String.eqb key "file_type"
            && existsb (String.eqb "file_type") (class_attrs self)).
  - unfold file_type_setter.
    destruct (instance_dict self !! "supported_file_types") as [sup|];
      [|reflexivity].
    destruct (py_in val sup) as [[|]|e]; try reflexivity.
    cbn [fst set_instance_attr instance_dict].
    now rewrite lookup_insert_ne by congruence.
  - cbn [fst set_instance_attr instance_dict].
    now rewrite lookup_insert_ne by congruence.
Qed.

Lemma set_options_cons key val (rest : dict T) (self : pyobject T) :
  set_options ((key, val) :: rest) self
  = if hasattr self (lstrip_underscore key) then
      match setattr (lstrip_underscore key) val self with
      | (s', Return _) => set_options rest s'
      | (s', Raise e) => (s', Raise e)
      end
    else set_options rest self.
Proof.
  cbn [set_options]. rewrite mbind_unfold. cbn [mget]. rewrite mbind_unfold.
  destruct (hasattr self (lstrip_underscore key)); [|reflexivity].
  destruct (setattr (lstrip_underscore key) val self) as [s' [[]|e]];
    reflexivity.
Qed.

Lemma set_options_class_attrs (options : dict T) : forall self : pyobject T,
  class_attrs (fst (set_options options self)) = class_attrs self.
Proof.
  induction options as [|[key val] rest IH]; intros self; [reflexivity|].
  rewrite set_options_cons.
  destruct (hasattr self (lstrip_underscore key)); [|apply IH].
  pose proof (setattr_class_attrs (lstrip_underscore key) val self) as Hset.
  destruct (setattr (lstrip_underscore key) val self) as [s' [[]|e]];
    cbn [fst] in *; [|exact Hset].
  now rewrite IH.
Qed.

Lemma set_options_hasattr (options : dict T) : forall (self : pyobject T) key,
  key <> "_file_type" ->
  hasattr (fst (set_options options self)) key = hasattr self key.
Proof.
  induction options as [|[k val] rest IH]; intros self key Hkey;
    [reflexivity|].
  rewrite set_options_cons.
  destruct (hasattr self (lstrip_underscore k)) eqn:Hk; [|now apply IH].
  pose proof (hasattr_setattr self (lstrip_underscore k) val key Hk Hkey)
    as Hset.
  destruct (setattr (lstrip_underscore k) val self) as [s' [[]|e]];
    cbn [fst] in *; [|exact Hset].
  now rewrite IH.
Qed.

Lemma set_options_frame (options : dict T) : forall (self : pyobject T) key,
  key <> "_file_type" ->
  (forall kv, In kv options -> lstrip_underscore (fst kv) <> key) ->
  instance_dict (fst (set_options options self)) !! key
  = instance_dict self !! key.
Proof.
  induction options as [|[k val] rest IH]; intros self key Hkey Hnot;
    [reflexivity|].
  rewrite set_options_cons.
  assert (Hrest : forall kv, In kv rest -> lstrip_underscore (fst kv) <> key)
    by (intros kv Hin; apply Hnot; now right).
  destruct (hasattr self (lstrip_underscore k)); [|now apply IH].
  assert (Hset : instance_dict (fst (setattr (lstrip_underscore k) val self))
                 !! key = instance_dict self !! key).
  { apply setattr_frame; [|exact Hkey].
    intros ->. now apply (Hnot (k, val)); [left|]. }
  destruct (setattr (lstrip_underscore k) val self) as [s' [[]|e]];
    cbn [fst] in *; [|exact Hset].
  now rewrite IH.
Qed.

(** X6.  Whatever the options and however [set_options] ends, on any
    object: the names the class defines are as they were; no attribute
    name is created or removed, the private [_file_type] apart; an
    attribute that no option names, the leading underscores of the option
    apart, keeps its value; and so does every private attribute other
    than [_file_type], whatever the options name. *)
Theorem set_options_keeps_attributes (options : dict T) (self : pyobject T) :
  class_attrs (fst (set_options options self)) = class_attrs self /\
  (forall key, key <> "_file_type" ->
     hasattr (fst (set_options options self)) key = hasattr self key) /\
  (forall key, key <> "_file_type" ->
     (forall kv, In kv options -> lstrip_underscore (fst kv) <> key) ->
     instance_dict (fst (set_options options self)) !! key
     = instance_dict self !! key) /\
  (forall rest, String "_" rest <> "_file_type" ->
     instance_dict (fst (set_options options self)) !! String "_" rest
     = instance_dict self !! String "_" rest).
Proof.
  split; [apply set_options_class_attrs|].
  split; [intros key; apply set_options_hasattr|].
  split; [intros key; apply set_options_frame|].
  intros rest Hpriv. apply set_options_frame; [exact Hpriv|].
  intros kv _. apply lstrip_underscore_not_private.
Qed.

Lemma set_options_app (a b : dict T) : forall self : pyobject T,
  set_options (a ++ b) self
  = match set_options a self with
    | (s', Return _) => set_options b s'
    | (s', Raise e) => (s', Raise e)
    end.
Proof.
  induction a as [|[key val] rest IH]; intros self; [reflexivity|].
  cbn [app]. rewrite !set_options_cons.
  destruct (hasattr self (lstrip_underscore key)); [|apply IH].
  destruct (setattr (lstrip_underscore key) val self) as [s' [[]|e]];
    [apply IH | reflexivity].
Qed.

(** [setattr] of a name other than [file_type] sets the attribute and
    returns. *)
Lemma setattr_plain key val (self : pyobject T) :
  key <> "file_type" ->
  setattr key val self = (set_instance_attr key val self, Return tt).
Proof.
  intros Hkey. unfold setattr.
  now destruct (String.eqb_spec key "file_type").
Qed.

(** The last option of a name sets the attribute. *)
Lemma set_options_sets_last (before after : dict T) (key : string)
    (val : pyval T) (self self' : pyobject T) :
  hasattr self (lstrip_underscore key) = true ->
  lstrip_underscore key <> "file_type" ->
  (forall kv, In kv after ->
     lstrip_underscore (fst kv) <> lstrip_underscore key) ->
  set_options (before ++ (key, val) :: after) self = (self', Return tt) ->
  instance_dict self' !! lstrip_underscore key = Some val.
Proof.
  intros Hattr Hplain Hlast Hrun.
  rewrite set_options_app in Hrun.
  pose proof (set_options_hasattr before self (lstrip_underscore key)
                (lstrip_underscore_not_private key _)) as Hkeep.
  destruct (set_options before self) as [s1 [[]|e]]; [|discriminate Hrun].
  cbn [fst] in Hkeep. rewrite set_options_cons, Hkeep, Hattr in Hrun.
  rewrite setattr_plain in Hrun by exact Hplain.
  pose proof (set_options_frame after
                (set_instance_attr (lstrip_underscore key) val s1)
                (lstrip_underscore key)
                (lstrip_underscore_not_private key _) Hlast) as Hframe.
  rewrite Hrun in Hframe. cbn [fst] in Hframe. rewrite Hframe.
  cbn [set_instance_attr instance_dict]. apply lookup_insert_eq.
Qed.

(** X7.  An option whose name, the leading underscores apart, is an
    attribute of the writer other than [file_type] is set: once
    [set_options] has returned, the attribute holds the value of the last
    option of that name. *)
Theorem set_options_sets_known (before after : dict T) (key : string)
    (val : pyval T) (self self' : pyobject T) :
  hasattr self (lstrip_underscore key) = true ->
  lstrip_underscore key <> "file_type" ->
  (forall kv, In kv after ->
     lstrip_underscore (fst kv) <> lstrip_underscore key) ->
  set_options (before ++ (key, val) :: after) self = (self', Return tt) ->
  instance_dict self' !! lstrip_underscore key = Some val.
Proof. apply set_options_sets_last. Qed.

(** Where [set_options] raises, an option was named [file_type]. *)
Lemma setattr_raises key val (self : pyobject T) e :
  snd (setattr key val self) = Raise e ->
  key = "file_type" /\
  existsb (String.eqb "file_type") (class_attrs self) = true /\
  fst (setattr key val self) = self /\
  match e with
  | ValueError _ | TypeError _ | AttributeError _ => True
  | _ => False
  end.
Proof.
  unfold setattr. destruct (String.eqb_spec key "file_type") as [->|Hne];
    [|discriminate].
  destruct (existsb (String.eqb "file_type") (class_attrs self));
    [|discriminate].
  cbn [andb]. unfold file_type_setter.
  destruct (instance_dict self !! "supported_file_types") as [sup|].
  - destruct (py_in val sup) as [[|]|e'] eqn:Hin; cbn [fst snd];
      try discriminate.
    + intros [= <-]. now repeat split.
    + intros [= <-]. repeat split.
      unfold py_in in Hin.
      destruct sup; try (now injection Hin as <-); try discriminate Hin.
      destruct val; now inversion Hin.
  - cbn [fst snd]. intros [= <-]. now repeat split.
Qed.

(** X8.  [set_options] raises through the setter of [file_type] only:
    if it raises, then one of the options is named [file_type], leading
    underscores apart, the class of the writer defines [file_type], and
    the exception is a [ValueError] (the type is not supported), or the
    [TypeError] or [AttributeError] of a writer whose
    [supported_file_types] is no container or is missing. *)
Theorem set_options_raises_for_file_type (options : dict T)
    (self : pyobject T) (e : exn) :
  snd (set_options options self) = Raise e ->
  (exists kv, In kv options /\ lstrip_underscore (fst kv) = "file_type") /\
  existsb (String.eqb "file_type") (class_attrs self) = true /\
  match e with
  | ValueError _ | TypeError _ | AttributeError _ => True
  | _ => False
  end.
Proof.
  revert self. induction options as [|[key val] rest IH]; intros self;
    [discriminate|].
  rewrite set_options_cons.
  assert (Hrest : forall s, class_attrs s = class_attrs self ->
    snd (set_options rest s) = Raise e ->
    (exists kv, In kv ((key, val) :: rest) /\
                lstrip_underscore (fst kv) = "file_type") /\
    existsb (String.eqb "file_type") (class_attrs self) = true /\
    match e with
    | ValueError _ | TypeError _ | AttributeError _ => True
    | _ => False
    end).
  { intros s Hclass Hrun.
    destruct (IH s Hrun) as ((kv & Hin & Hkv) & Hprop & He).
    rewrite Hclass in Hprop. split; [|now split].
    exists kv. split; [now right | exact Hkv]. }
  destruct (hasattr self (lstrip_underscore key)); [|now apply Hrest].
  pose proof (setattr_raises (lstrip_underscore key) val self) as Hset.
  pose proof (setattr_class_attrs (lstrip_underscore key) val self) as Hclass.
  destruct (setattr (lstrip_underscore key) val self) as [s' [[]|e']];
    cbn [fst snd] in *; [now apply Hrest|].
  intros [= ->]. destruct (Hset e eq_refl) as (Hkey & Hprop & _ & He).
  split; [|now split]. exists (key, val). split; [now left | exact Hkey].
Qed.

End OptionEffects.

Lemma set_options_sets_known_witness :
  instance_dict
    (fst (set_options
            [("_module_height", VFloat (Qc_decimal 150 1));
             ("module_height", VInt 8); ("text", VStr "12345")]
            (object_of_SVGWriter (SVGWriter_init (T:=Qc)))))
  !! lstrip_underscore "module_height"
  = Some (VInt 8).
Proof.
  apply (set_options_sets_known
           [("_module_height", VFloat (Qc_decimal 150 1))]
           [("text", VStr "12345")] "module_height" (VInt 8)
           (object_of_SVGWriter (SVGWriter_init (T:=Qc)))).
  - vm_compute. reflexivity.
  - discriminate.
  - intros kv [<- | []]. discriminate.
  - vm_compute. reflexivity.
Defined.

Lemma set_options_raises_for_file_type_witness :
  (exists kv : string * pyval Qc,
     In kv [("font_size", VInt 12); ("_file_type", VStr "PNG")] /\
     lstrip_underscore (fst kv) = "file_type") /\
  existsb (String.eqb "file_type")
    (class_attrs (object_of_SVGWriter (SVGWriter_init (T:=Qc)))) = true /\
  True.
Proof.
  apply (set_options_raises_for_file_type
           [("font_size", VInt 12); ("_file_type", VStr "PNG")]
           (object_of_SVGWriter (SVGWriter_init (T:=Qc)))
           (ValueError "file_type not supported")).
  vm_compute. reflexivity.
Defined.

Section FileTypeOption.
Context {T : Type} `{Number T}.

(** What [setattr] leaves in [_file_type]: what was there, or a value
    found in [supported_file_types]. *)
Lemma setattr_file_type key val (self : pyobject T) (sup : list (pyval T)) :
  instance_dict self !! "supported_file_types" = Some (VList sup) ->
  key <> "_file_type" ->
  instance_dict (fst (setattr key val self)) !! "_file_type"
  = instance_dict self !! "_file_type" \/
  (instance_dict (fst (setattr key val self)) !! "_file_type" = Some val /\
   existsb (py_eq val) sup = true).
Proof.
  intros Hsup Hkey. unfold setattr.
  destruct (String.eqb key "file_type"
            && existsb (String.eqb "file_type") (class_attrs self)).
  - unfold file_type_setter. rewrite Hsup. cbn [py_in].
    destruct (existsb (py_eq val) sup) eqn:Hin; [|now left].
    right. split; [|reflexivity].
    cbn [fst set_instance_attr instance_dict]. apply lookup_insert_eq.
  - left. cbn [fst set_instance_attr instance_dict].
    now rewrite lookup_insert_ne by congruence.
Qed.

Lemma set_options_file_type (options : dict T) (sup : list (pyval T))
    (old : option (pyval T)) : forall self : pyobject T,
  instance_dict self !! "supported_file_types" = Some (VList sup) ->
  (forall kv, In kv options ->
     lstrip_underscore (fst kv) <> "supported_file_types") ->
  (instance_dict self !! "_file_type" = old \/
   exists val, instance_dict self !! "_file_type" = Some val /\
               existsb (py_eq val) sup = true) ->
  instance_dict (fst (set_options options self)) !! "_file_type" = old \/
  exists val,
    instance_dict (fst (set_options options self)) !! "_file_type" = Some val /\
    existsb (py_eq val) sup = true.
Proof.
  induction options as [|[key val] rest IH]; intros self Hsup Hnot Hold;
    [exact Hold|].
  rewrite set_options_cons.
  assert (Hrest : forall kv, In kv rest ->
            lstrip_underscore (fst kv) <> "supported_file_types")
    by (intros kv Hin; apply Hnot; now right).
  destruct (hasattr self (lstrip_underscore key)); [|now apply IH].
  assert (Hsup' :
    instance_dict (fst (setattr (lstrip_underscore key) val self))
    !! "supported_file_types" = Some (VList sup)).
  { rewrite setattr_frame; [exact Hsup | | discriminate].
    intros Heq. now apply (Hnot (key, val)); [left|]. }
  assert (Hold' :
    instance_dict (fst (setattr (lstrip_underscore key) val self))
    !! "_file_type" = old \/
    exists v,
      instance_dict (fst (setattr (lstrip_underscore key) val self))
      !! "_file_type" = Some v /\ existsb (py_eq v) sup = true).
  { destruct (setattr_file_type (lstrip_underscore key) val self sup Hsup
                (lstrip_underscore_not_private key _)) as [Hsame | Hnew].
    - rewrite Hsame. exact Hold.
    - right. now exists val. }
  destruct (setattr (lstrip_underscore key) val self) as [s' [[]|e]];
    cbn [fst] in *; [now apply IH | exact Hold'].
Qed.

(** X9.  Options cannot set a file type the writer does not support:
    unless an option names [supported_file_types], leading underscores
    apart, the private [_file_type] holds after [set_options], however it
    ends, what it held before or a value found in
    [supported_file_types]; an option named [_file_type] goes through the
    same check as one named [file_type]. *)
Theorem set_options_file_type_supported (options : dict T)
    (self : pyobject T) (sup : list (pyval T)) :
  instance_dict self !! "supported_file_types" = Some (VList sup) ->
  (forall kv, In kv options ->
     lstrip_underscore (fst kv) <> "supported_file_types") ->
  instance_dict (fst (set_options options self)) !! "_file_type"
  = instance_dict self !! "_file_type" \/
  exists val,
    instance_dict (fst (set_options options self)) !! "_file_type" = Some val /\
    existsb (py_eq val) sup = true.
Proof.
  intros Hsup Hnot. apply set_options_file_type; [exact Hsup | exact Hnot|].
  now left.
Qed.

End FileTypeOption.

Lemma set_options_file_type_supported_witness :
  instance_dict
    (fst (set_options [("_file_type", VStr "PNG"); ("file_type", VStr "SVG")]
            (object_of_SVGWriter (SVGWriter_init (T:=Qc)))))
  !! "_file_type"
  = instance_dict (object_of_SVGWriter (SVGWriter_init (T:=Qc)))
    !! "_file_type" \/
  exists val : pyval Qc,
    instance_dict
      (fst (set_options [("_file_type", VStr "PNG"); ("file_type", VStr "SVG")]
              (object_of_SVGWriter (SVGWriter_init (T:=Qc)))))
    !! "_file_type" = Some val /\
    existsb (py_eq val) [VStr "SVG"] = true.
Proof.
  apply (set_options_file_type_supported
           [("_file_type", VStr "PNG"); ("file_type", VStr "SVG")]
           (object_of_SVGWriter (SVGWriter_init (T:=Qc))) [VStr "SVG"]).
  - vm_compute. reflexivity.
  - intros kv [<- | [<- | []]]; discriminate.
Defined.

(** ** The names of the registry *)

Lemma in_insert_sorted (x y : string) (l : list string) :
  In y (insert_sorted x l) <-> y = x \/ In y l.
Proof.
  induction l as [|z rest IH]; cbn [insert_sorted].
  - cbn. intuition congruence.
  - destruct (String.leb x z); cbn [In]; [intuition congruence|].
    rewrite IH. intuition congruence.
Qed.

Lemma in_sort (y : string) (l : list string) : In y (sort l) <-> In y l.
Proof.
  induction l as [|x rest IH]; [reflexivity|].
  cbn [sort fold_right]. fold (sort rest).
  rewrite in_insert_sorted, IH. cbn [In]. intuition congruence.
Qed.

Lemma in_sorted_keys {V : Type} (m : gmap string V) (name : string) :
  In name (sort (map fst (map_to_list m))) <-> m !! name <> None.
Proof.
  rewrite in_sort, in_map_iff. split.
  - intros ([key c] & <- & Hin).
    apply list_elem_of_In, elem_of_map_to_list in Hin. cbn [fst].
    rewrite Hin. discriminate.
  - intros Hsome. destruct (m !! name) as [c|] eqn:Hc; [|congruence].
    exists (name, c). split; [reflexivity|].
    apply list_elem_of_In, elem_of_map_to_list. exact Hc.
Qed.

Lemma in_PROVIDED_BARCODES (name : string) :
  In name PROVIDED_BARCODES <-> __BARCODE_MAP !! name <> None.
Proof. exact (in_sorted_keys __BARCODE_MAP name). Qed.

Section RegistryNames.
Context {T : Type} `{Number T}.
Variable construct :
  barcode_class -> pyval T -> option (pyobject T) -> result (Barcode (T:=T)).
Variable str_of_dict : dict T -> string.

(** X10.  The names [PROVIDED_BARCODES] lists are those [get] knows: a
    name is listed, once lowercased, exactly when [get_class] returns a
    class for it; for a name that is not, [get] raises
    [BarcodeNotFoundError] whatever the other arguments; and the list is
    the eighteen keys of the registry in ascending order. *)
Theorem PROVIDED_BARCODES_are_known (name : string) :
  (In (lower name) PROVIDED_BARCODES <->
   exists c, get_class construct str_of_dict name = ([], Return (GotClass c))) /\
  (forall code writer_arg writer_options,
     ~ In (lower name) PROVIDED_BARCODES ->
     get construct str_of_dict name code writer_arg writer_options
     = ([], Raise (BarcodeNotFoundError name))) /\
  PROVIDED_BARCODES
  = ["code128"; "code39"; "ean"; "ean13"; "ean14"; "ean8"; "gs1"; "gs1_128";
     "gtin"; "isbn"; "isbn10"; "isbn13"; "issn"; "itf"; "jan"; "pzn"; "upc";
     "upca"].
Proof.
  split; [|split].
  - rewrite in_PROVIDED_BARCODES. unfold get_class, get.
    destruct (__BARCODE_MAP !! lower name) as [c|]; split.
    + intros _. now exists c.
    + discriminate.
    + congruence.
    + intros [c Hc]. discriminate Hc.
  - intros code writer_arg writer_options Hnot.
    rewrite in_PROVIDED_BARCODES in Hnot. apply get_not_found.
    destruct (__BARCODE_MAP !! lower name); [|reflexivity].
    now contradict Hnot.
  - vm_compute. reflexivity.
Qed.

End RegistryNames.

(** ** [generate] with a file object *)

Section GenerateFacts.
Context {T : Type} `{Number T} {rendered file files : Type}.
Variable construct :
  barcode_class -> pyval T -> option (pyobject T) -> result (Barcode (T:=T)).
Variable str_of_dict : dict T -> string.
Variable Barcode_render : Barcode (T:=T) -> pyval T -> result rendered.
Variable has_tostring : rendered -> bool.
Variable image_save : rendered -> file -> file * result unit.
Variable file_write : file -> rendered -> file * result unit.
Variable writer_save :
  pyobject T -> string -> rendered -> files -> files * result string.

(** [get], given a code, returns a barcode if it returns. *)
Lemma get_code_returns_barcode name code writer_arg writer_options lines c :
  get construct str_of_dict name (Some code) writer_arg writer_options
  <> (lines, Return (GotClass c)).
Proof.
  unfold get. destruct (__BARCODE_MAP !! lower name) as [barcode|];
    [|discriminate].
  destruct (construct barcode code writer_arg) as [bc|e]; cbn [rbind].
  - destruct (set_options _ (writer bc)) as [w [[]|e]]; [discriminate|].
    destruct e; try discriminate.
    destruct (str_contains _ msg); discriminate.
  - destruct e; try discriminate.
    destruct (str_contains _ msg); discriminate.
Qed.

(** X11.  [generate] with an [output] that is no string, and [pil] not
    set, never returns: once [get] has returned the barcode, the call of
    [write] raises [NameError] for [options], nothing is written to the
    file object and no file is stored; where [get] raises, [generate]
    raises the same. *)
Theorem generate_to_file_object_never_returns (name code : string)
    (writer_arg : option (pyobject T)) (fp : file)
    (writer_options : option (dict T)) (text : pyval T) (fs : files) :
  value (generate construct str_of_dict Barcode_render has_tostring
           image_save file_write writer_save name code writer_arg (inr fp)
           writer_options text false fs)
  = match
      snd (get construct str_of_dict name (Some (VStr code)) writer_arg
             writer_options)
    with
    | Return _ => Raise (NameError "options")
    | Raise e => Raise e
    end /\
  output_file (generate construct str_of_dict Barcode_render has_tostring
                 image_save file_write writer_save name code writer_arg
                 (inr fp) writer_options text false fs) = Some fp /\
  stored (generate construct str_of_dict Barcode_render has_tostring
            image_save file_write writer_save name code writer_arg (inr fp)
            writer_options text false fs) = fs.
Proof.
  unfold generate.
  assert (Hopts :
    get construct str_of_dict name (Some (VStr code)) writer_arg
      (Some match writer_options with Some d => d | None => [] end)
    = get construct str_of_dict name (Some (VStr code)) writer_arg
        writer_options)
    by now destruct writer_options.
  rewrite Hopts.
  pose proof (fun lines c =>
    get_code_returns_barcode name (VStr code) writer_arg writer_options lines c)
    as Hclass.
  destruct (get construct str_of_dict name (Some (VStr code)) writer_arg
              writer_options) as [lines [[c|barcode]|e]]; cbn [snd].
  - now destruct (Hclass lines c).
  - unfold write. rewrite options_is_not_defined. now repeat split.
  - now repeat split.
Qed.

End GenerateFacts.

(** ** The file types of the image writer *)

Section ImageObjectFacts.
Context {T : Type} `{Number T}.

Lemma py_eq_VStr (v : pyval T) (s : string) :
  py_eq v (VStr s) = true <-> v = VStr s.
Proof.
  destruct v; cbn; try (split; discriminate).
  rewrite String.eqb_eq. split; congruence.
Qed.

Lemma py_in_strings (v : pyval T) (l : list string) :
  existsb (py_eq v) (map VStr l) = true <-> exists s, v = VStr s /\ In s l.
Proof.
  induction l as [|x rest IH]; cbn [map existsb In].
  - split; [discriminate | now intros (s & _ & [])].
  - rewrite orb_true_iff, IH, py_eq_VStr. split.
    + intros [-> | (s & -> & Hin)]; eauto.
    + intros (s & -> & [<- | Hin]); eauto.
Qed.

Lemma ImageWriter_init_unfold (file_type : pyval T) :
  ImageWriter_init file_type
  = if existsb (py_eq file_type)
         (map VStr ["PNG"; "BMP"; "GIF"; "JPEG"; "MSP"; "PCX"; "PNG"; "TIFF";
                    "XBM"])
    then
      Return
        (set_instance_attr "_file_type" file_type
           (set_instance_attr "supported_file_types"
              (VList (map VStr ["PNG"; "BMP"; "GIF"; "JPEG"; "MSP"; "PCX";
                                "PNG"; "TIFF"; "XBM"]))
              (set_instance_attr "_draw" VNone
                 (set_instance_attr "_image" VNone
                    (set_instance_attr "dpi" (VInt 600)
                       (BaseWriter_object ImageWriter_attrs))))))
    else Raise (ValueError "file_type not supported").
Proof.
  unfold ImageWriter_init, setattr. cbn [String.eqb Ascii.eqb Bool.eqb andb].
  unfold file_type_setter.
  cbn [set_instance_attr instance_dict class_attrs].
  rewrite lookup_insert_eq. cbn [py_in].
  destruct (existsb (py_eq file_type) _); reflexivity.
Qed.

(** X12.  A new [ImageWriter] takes the file types the command line
    offers for images and no other: [ImageWriter(file_type)] returns
    exactly when [file_type] is one of [FILETYPES] of pybarcode.py other
    than ["SVG"], and then holds it as its [_file_type]; for any other
    value, a string or not, it raises [ValueError]. *)
Theorem ImageWriter_takes_FILETYPES (file_type : pyval T) :
  ((exists w, ImageWriter_init file_type = Return w) <->
   exists s, file_type = VStr s /\ In s FILETYPES /\ s <> "SVG") /\
  (forall w, ImageWriter_init file_type = Return w ->
     instance_dict w !! "_file_type" = Some file_type /\
     instance_dict w !! "dpi" = Some (VInt 600)) /\
  ((forall w, ImageWriter_init file_type <> Return w) ->
   ImageWriter_init file_type = Raise (ValueError "file_type not supported")).
Proof.
  rewrite ImageWriter_init_unfold.
  destruct (existsb (py_eq file_type) _) eqn:Hin.
  - apply py_in_strings in Hin as (s & -> & Hs).
    split; [|split].
    + split; [intros _ | eauto].
      exists s. split; [reflexivity|]. unfold FILETYPES. cbn [In] in *.
      split; [tauto|]. intros ->.
      repeat (destruct Hs as [Hs | Hs]; [discriminate Hs|]). exact Hs.
    + intros w [= <-]. cbn [set_instance_attr instance_dict].
      split; [apply lookup_insert_eq|].
      now rewrite !lookup_insert_ne, lookup_insert_eq by discriminate.
    + intros Hnone. now contradict (Hnone _ eq_refl).
  - split; [|split].
    + split; [intros [w Hw]; discriminate Hw|].
      intros (s & -> & Hs & Hsvg).
      assert (Htrue : existsb (py_eq (VStr s))
                (map VStr ["PNG"; "BMP"; "GIF"; "JPEG"; "MSP"; "PCX"; "PNG";
                           "TIFF"; "XBM"]) = true).
      { apply py_in_strings. exists s. split; [reflexivity|].
        unfold FILETYPES in Hs. cbn [In] in *. intuition congruence. }
      congruence.
    + intros w Hw. discriminate Hw.
    + reflexivity.
Qed.

End ImageObjectFacts.

(** ** The document of the SVG writer *)

Lemma length_item_nodes (items : list group_item) : forall start : nat,
  length (item_nodes start items) = items_size items.
Proof.
  induction items as [|[a|a s] rest IH]; intros start; cbn;
    now rewrite ?IH.
Qed.

Lemma item_nodes_app (a b : list group_item) : forall start : nat,
  item_nodes start (a ++ b)
  = item_nodes start a ++ item_nodes (start + items_size a) b.
Proof.
  induction a as [|[x|x s] rest IH]; intros start; cbn [app item_nodes items_size].
  - now rewrite Nat.add_0_r.
  - rewrite IH. now rewrite Nat.add_succ_r.
  - rewrite IH. now rewrite !Nat.add_succ_r.
Qed.

Lemma item_indices_app (a b : list group_item) : forall start : nat,
  item_indices start (a ++ b)
  = item_indices start a ++ item_indices (start + items_size a) b.
Proof.
  induction a as [|[x|x s] rest IH]; intros start;
    cbn [app item_indices items_size].
  - now rewrite Nat.add_0_r.
  - rewrite IH. now rewrite Nat.add_succ_r.
  - rewrite IH. now rewrite !Nat.add_succ_r.
Qed.

Lemma length_svg_nodes svg_attrs comment bg_attrs (items : list group_item) :
  length (svg_nodes svg_attrs comment bg_attrs items)
  = (4 + items_size items)%nat.
Proof. unfold svg_nodes. cbn [app length]. now rewrite length_item_nodes. Qed.

(** The trees of the items, read back from the store. *)
Lemma subtree_items (depth : nat) (items : list group_item) :
  forall pre : list dom_node,
  map_option
    (subtree (S (S depth)) (pre ++ item_nodes (length pre) items))
    (item_indices (length pre) items)
  = Some (map item_xml items).
Proof.
  induction items as [|[a|a s] rest IH]; intros pre; [reflexivity| |].
  - cbn [item_nodes item_indices map_option map item_xml].
    specialize (IH (pre ++ [ElementNode "rect" a []])).
    rewrite length_app, Nat.add_1_r, <- app_assoc in IH. cbn [app] in IH.
    rewrite IH. cbn [subtree].
    rewrite list_lookup_middle by reflexivity. reflexivity.
  - cbn [item_nodes item_indices map_option map item_xml].
    specialize (IH (pre ++ [ElementNode "text" a [S (length pre)];
                            TextNode s])).
    rewrite length_app, <- app_assoc in IH. cbn [app length] in IH.
    rewrite Nat.add_succ_r, Nat.add_1_r in IH.
    rewrite IH. cbn [subtree].
    rewrite list_lookup_middle by reflexivity. cbn [map_option subtree].
    replace (pre ++ ElementNode "text" a [S (length pre)] :: TextNode s
                 :: item_nodes (S (S (length pre))) rest)
      with ((pre ++ [ElementNode "text" a [S (length pre)]])
            ++ TextNode s :: item_nodes (S (S (length pre))) rest)
      by now rewrite <- app_assoc.
    rewrite list_lookup_middle by (rewrite length_app; cbn; lia).
    reflexivity.
Qed.

Lemma subtree_S (depth : nat) (nodes : list dom_node) (i : nat) :
  subtree (S depth) nodes i
  = match nodes !! i with
    | Some (ElementNode tagName attributes childNodes) =>
        option_map (XElement tagName attributes)
          (map_option (subtree depth nodes) childNodes)
    | Some (CommentNode data) => Some (XComment data)
    | Some (TextNode data) => Some (XText data)
    | None => None
    end.
Proof. reflexivity. Qed.

(** The tree of the store of a pass. *)
Lemma subtree_svg_nodes svg_attrs comment bg_attrs (items : list group_item) :
  subtree (length (svg_nodes svg_attrs comment bg_attrs items))
    (svg_nodes svg_attrs comment bg_attrs items) 0
  = Some (XElement "svg" svg_attrs
            [XComment comment;
             XElement "g" [("id", "barcode_group")]
               (XElement "rect" bg_attrs [] :: map item_xml items)]).
Proof.
  rewrite length_svg_nodes.
  pose proof (subtree_items (items_size items) items
                [ElementNode "svg" svg_attrs [1%nat; 2%nat];
                 CommentNode comment;
                 ElementNode "g" [("id", "barcode_group")]
                   (3%nat :: item_indices 4 items);
                 ElementNode "rect" bg_attrs []]) as Hitems.
  cbn [length] in Hitems.
  fold (svg_nodes svg_attrs comment bg_attrs items) in Hitems.
  set (nodes := svg_nodes svg_attrs comment bg_attrs items) in *.
  assert (H0 : nodes !! 0%nat = Some (ElementNode "svg" svg_attrs [1%nat; 2%nat]))
    by reflexivity.
  assert (H1 : nodes !! 1%nat = Some (CommentNode comment)) by reflexivity.
  assert (H2 : nodes !! 2%nat
               = Some (ElementNode "g" [("id", "barcode_group")]
                         (3%nat :: item_indices 4 items))) by reflexivity.
  assert (H3 : nodes !! 3%nat = Some (ElementNode "rect" bg_attrs []))
    by reflexivity.
  change (4 + items_size items)%nat with (S (S (S (S (items_size items))))).
  rewrite subtree_S, H0. cbn [map_option].
  rewrite (subtree_S _ _ 1), H1, (subtree_S _ _ 2), H2. cbn [map_option].
  rewrite (subtree_S _ _ 3), H3. cbn [map_option option_map].
  rewrite Hitems. reflexivity.
Qed.

Section SVGDocument.
Context {T : Type} `{Number T}.
Variable version : string.
Variables format_size format_number : T -> string.
Variables toxml toprettyxml : Document -> string.

Abbreviation svg_cb' :=
  (svg_callbacks version format_size format_number toxml toprettyxml).

(** Setting attributes of the element created last. *)
Lemma set_attributes_last (attrs : list (string * string)) :
  forall (l : list dom_node) tag a ch dt root,
  _set_attributes (length l) attrs
    {| doctype := dt; nodes := l ++ [ElementNode tag a ch];
       documentElement := root |}
  = {| doctype := dt;
       nodes :=
         l ++ [ElementNode tag
                 (fold_left (fun acc kv => dict_set (fst kv) (snd kv) acc)
                    attrs a)
                 ch];
       documentElement := root |}.
Proof.
  unfold _set_attributes.
  induction attrs as [|[k v] rest IH]; intros l tag a ch dt root;
    [reflexivity|].
  cbn [fold_left fst snd].
  replace (setAttribute (length l) k v
             {| doctype := dt; nodes := l ++ [ElementNode tag a ch];
                documentElement := root |})
    with {| doctype := dt;
            nodes := l ++ [ElementNode tag (dict_set k v a) ch];
            documentElement := root |}; [apply IH|].
  unfold setAttribute, update_node. cbn [doctype nodes documentElement].
  f_equal. rewrite <- (Nat.add_0_r (length l)) at 1.
  now rewrite alter_app_r.
Qed.

Lemma create_module_document (w : BaseWriter T) (compressed : bool)
    dt svg_attrs comment bg_attrs (items : list group_item)
    (xpos ypos width : T) (color : string) (s : SVGWriter T) :
  holds_document w compressed
    (document_of dt svg_attrs comment bg_attrs items) s ->
  exists s',
    _create_module format_size xpos ypos width color s = (s', Return tt) /\
    holds_document w compressed
      (document_of dt svg_attrs comment bg_attrs
         (items
          ++ items_of_call format_size format_number w
               (PaintModule xpos ypos width color))) s'.
Proof.
  intros (Hbase & Hcompress & Hdoc & Hgroup).
  unfold _create_module. rewrite Hdoc, Hgroup.
  unfold createElement, createNode, document_of.
  cbn [doctype nodes documentElement].
  rewrite set_attributes_last. cbn [fold_left fst snd dict_set String.eqb
    Ascii.eqb Bool.eqb andb].
  eexists. split; [reflexivity|].
  repeat split; cbn [set_document base compress _document _group];
    try assumption.
  unfold appendChild, update_node, document_of.
  cbn [doctype nodes documentElement]. do 2 f_equal.
  rewrite length_svg_nodes. unfold svg_nodes. cbn [app alter list_alter].
  rewrite item_indices_app, item_nodes_app, Hbase.
  cbn [items_of_call item_indices item_nodes]. reflexivity.
Qed.

Lemma create_text_line_document (w : BaseWriter T) (compressed : bool)
    dt svg_attrs comment bg_attrs (items : list group_item)
    (xpos ypos : T) (subtext : string) (s : SVGWriter T) :
  holds_document w compressed
    (document_of dt svg_attrs comment bg_attrs items) s ->
  exists s',
    create_text_line format_size format_number xpos ypos subtext s
    = (s', Return tt) /\
    holds_document w compressed
      (document_of dt svg_attrs comment bg_attrs
         (items
          ++ text_items format_size format_number w xpos ypos [subtext])) s'.
Proof.
  intros (Hbase & Hcompress & Hdoc & Hgroup).
  unfold create_text_line. rewrite Hdoc, Hgroup.
  unfold createElement, createTextNode, createNode, document_of.
  cbn [doctype nodes documentElement].
  rewrite set_attributes_last. cbn [fold_left fst snd dict_set String.eqb
    Ascii.eqb Bool.eqb andb].
  eexists. split; [reflexivity|].
  repeat split; cbn [set_document base compress _document _group];
    try assumption.
  unfold appendChild, update_node, document_of.
  cbn [doctype nodes documentElement]. do 2 f_equal.
  rewrite <- app_assoc. cbn [app].
  rewrite alter_app_r_alt by lia. rewrite Nat.sub_diag.
  cbn [alter list_alter].
  rewrite length_app, length_svg_nodes. unfold svg_nodes.
  cbn [app alter list_alter length].
  rewrite item_indices_app, item_nodes_app, Hbase.
  cbn [text_items item_indices item_nodes].
  rewrite Nat.add_1_r. reflexivity.
Qed.

Lemma create_text_lines_document (w : BaseWriter T) (compressed : bool)
    dt svg_attrs comment bg_attrs (subtexts : list string) :
  forall (items : list group_item) (xpos ypos : T) (s : SVGWriter T),
  holds_document w compressed
    (document_of dt svg_attrs comment bg_attrs items) s ->
  exists s',
    create_text_lines format_size format_number xpos ypos subtexts s
    = (s', Return tt) /\
    holds_document w compressed
      (document_of dt svg_attrs comment bg_attrs
         (items
          ++ text_items format_size format_number w xpos ypos subtexts)) s'.
Proof.
  induction subtexts as [|subtext rest IH]; intros items xpos ypos s Hs.
  - exists s. split; [reflexivity|]. cbn [text_items]. now rewrite app_nil_r.
  - cbn [create_text_lines]. rewrite mbind_unfold.
    destruct (create_text_line_document w compressed dt svg_attrs comment
                bg_attrs items xpos ypos subtext s Hs) as (s1 & -> & Hs1).
    rewrite mbind_unfold. cbn [mget].
    destruct Hs1 as (Hbase1 & Hrest1). rewrite Hbase1.
    destruct (IH _ xpos
                (ypos + (pt2mm (font_size w) + text_line_distance w))%num
                s1 (conj Hbase1 Hrest1)) as (s2 & -> & Hs2).
    exists s2. split; [reflexivity|].
    cbn [text_items] in *. now rewrite <- app_assoc in Hs2.
Qed.

(** The calls between [initialize] and [finish] return, each leaving in
    the group what [items_of_call] says. *)
Lemma perform_all_document (w : BaseWriter T) (compressed : bool)
    dt svg_attrs comment bg_attrs (calls : list (call T)) :
  Forall (fun c => match c with
                   | PaintModule _ _ _ _ | PaintText _ _ => True
                   | _ => False
                   end) calls ->
  forall (out : option string) (items : list group_item) (s : SVGWriter T),
  holds_document w compressed
    (document_of dt svg_attrs comment bg_attrs items) s ->
  exists s',
    perform_all svg_cb' calls out s = (s', Return out) /\
    holds_document w compressed
      (document_of dt svg_attrs comment bg_attrs
         (items ++ flat_map (items_of_call format_size format_number w) calls))
      s'.
Proof.
  induction 1 as [|c calls Hc Hcalls IH]; intros out items s Hs.
  - exists s. split; [reflexivity|]. cbn [flat_map]. now rewrite app_nil_r.
  - cbn [perform_all flat_map]. rewrite mbind_unfold.
    destruct c as [| xpos ypos width color | xpos ypos |]; try destruct Hc.
    + cbn [perform call_paint_module svg_callbacks paint_module].
      rewrite mbind_unfold.
      destruct (create_module_document w compressed dt svg_attrs comment
                  bg_attrs items xpos ypos width color s Hs)
        as (s1 & -> & Hs1).
      cbn [mret]. destruct (IH out _ s1 Hs1) as (s2 & -> & Hs2).
      exists s2. split; [reflexivity|]. now rewrite app_assoc.
    + cbn [perform svg_callbacks paint_text]. rewrite mbind_unfold.
      unfold _create_text. rewrite mbind_unfold. cbn [mget].
      pose proof Hs as (Hbase & _). rewrite Hbase.
      destruct (create_text_lines_document w compressed dt svg_attrs comment
                  bg_attrs
                  (split_char "010" EmptyString
                     (if str_truth (human w) then human w else text w))
                  items xpos ypos s Hs) as (s1 & -> & Hs1).
      cbn [mret]. destruct (IH out _ s1 Hs1) as (s2 & -> & Hs2).
      exists s2. split; [reflexivity|]. now rewrite app_assoc.
Qed.

End SVGDocument.

(** The calls of a pass that returns: [initialize], calls of
    [paint_module] and [paint_text], and [finish]. *)
Lemma trace_of_returning_pass {T : Type} `{Number T} (w : BaseWriter T)
    (code : list string) :
  snd (render_recorded w code) = Return tt ->
  exists body,
    trace w code = Initialize code :: body ++ [Finish] /\
    Forall (fun c => match c with
                     | PaintModule _ _ _ _ | PaintText _ _ => True
                     | _ => False
                     end) body.
Proof.
  unfold trace. rewrite render_recorded_any. cbn zeta.
  set (lines := lines_calls w (Z.of_nat (length code)) 0 (decimal 10 1) code).
  assert (Hlines : Forall (fun c => match c with
                                    | PaintModule _ _ _ _ | PaintText _ _ => True
                                    | _ => False
                                    end) lines).
  { apply List.Forall_forall. intros c Hin.
    assert (Hc : is_paint_module c = true).
    { unfold lines in Hin. rewrite <- filter_lines_calls_any in Hin.
      now apply filter_In in Hin. }
    now destruct c. }
  destruct (str_truth (text w)).
  - destruct (text_position w _) as [xpos|e]; cbn [fst snd rec_calls];
      [intros _ | discriminate].
    eexists (lines ++ [PaintText xpos _]). split.
    + cbn [app]. now rewrite <- app_assoc.
    + apply List.Forall_app. split; [exact Hlines|]. now constructor.
  - cbn [fst snd rec_calls]. intros _. now exists lines.
Qed.

Section SVGDocumentFacts.
Context {T : Type} `{Number T}.
Variable version : string.
Variables format_size format_number : T -> string.
Variables toxml toprettyxml : Document -> string.

Lemma item_xml_text_items (w : BaseWriter T) (subtexts : list string) :
  forall xpos ypos : T,
  map item_xml (text_items format_size format_number w xpos ypos subtexts)
  = svg_texts format_size format_number w xpos ypos subtexts.
Proof.
  induction subtexts as [|subtext rest IH]; intros xpos ypos; [reflexivity|].
  cbn [text_items svg_texts map item_xml]. now rewrite IH.
Qed.

Lemma item_xml_items_of_calls (w : BaseWriter T) (calls : list (call T)) :
  map item_xml (flat_map (items_of_call format_size format_number w) calls)
  = flat_map (svg_of_call format_size format_number w) calls.
Proof.
  induction calls as [|c rest IH]; [reflexivity|].
  cbn [flat_map]. rewrite map_app, IH. f_equal.
  destruct c; try reflexivity. apply item_xml_text_items.
Qed.

Lemma init_document (line0 : string) (rest : list string) (w : SVGWriter T)
    (size : Z * Z) :
  calculate_size (base w) (Z.of_nat (String.length line0))
    (Z.of_nat (length (line0 :: rest))) (dpi w) = Return size ->
  exists s1,
    _init version format_size (line0 :: rest) w = (s1, Return tt) /\
    holds_document (base w) (compress w)
      (document_of
         ("svg", "-//W3C//DTD SVG 1.1//EN",
          "http://www.w3.org/Graphics/SVG/1.1/DTD/svg11.dtd")
         [("version", "1.1");
          ("xmlns", "http://www.w3.org/2000/svg");
          ("width", format_size (of_int (fst size)));
          ("height", format_size (of_int (snd size)))]
         (COMMENT version)
         [("width", "100%"); ("height", "100%");
          ("style", "fill:" +:+ background (base w))] []) s1.
Proof.
  intros Hsize. unfold _init. rewrite Hsize. destruct size as [width height].
  eexists. split; [reflexivity|]. repeat split.
Qed.

(** The document a pass of the SVG writer leaves and serialises. *)
Lemma svg_render_tree (code : list string) (w : SVGWriter T) (line0 : string)
    (size : Z * Z) :
  head code = Some line0 ->
  calculate_size (base w) (Z.of_nat (String.length line0))
    (Z.of_nat (length code)) (dpi w) = Return size ->
  snd (render_recorded (base w) code) = Return tt ->
  exists w' d,
    svg_render version format_size format_number toxml toprettyxml code w
    = (w', Return (if compress w then toxml d else toprettyxml d)) /\
    svg_options w' = svg_options w /\
    _document w' = Some d /\
    document_tree d
    = Some (svg_tree version format_size format_number (base w) size
              (trace (base w) code)).
Proof.
  intros Hhead Hsize Hrec.
  destruct code as [|line rest]; [discriminate Hhead|].
  injection Hhead as ->.
  assert (Hmain : exists w' d,
    svg_render version format_size format_number toxml toprettyxml
      (line0 :: rest) w
    = (w', Return (if compress w then toxml d else toprettyxml d)) /\
    _document w' = Some d /\
    document_tree d
    = Some (svg_tree version format_size format_number (base w) size
              (trace (base w) (line0 :: rest)))).
  { unfold svg_render. rewrite render_is_replay.
    - unfold replay. rewrite Hrec.
      destruct (trace_of_returning_pass (base w) (line0 :: rest) Hrec)
        as (body & -> & Hbody).
      cbn [perform_all perform svg_callbacks initialize].
      rewrite !mbind_unfold.
      destruct (init_document line0 rest w size Hsize) as (s1 & -> & Hs1).
      cbn [mret]. rewrite perform_all_app.
      destruct (perform_all_document version format_size format_number toxml
                  toprettyxml (base w) (compress w) _ _ _ _ body Hbody None []
                  s1 Hs1) as (s2 & -> & Hs2).
      cbn [perform_all perform svg_callbacks finish app] in *.
      rewrite !mbind_unfold.
      destruct Hs2 as (Hbase & Hcompress & Hdoc & Hgroup).
      unfold _finish. rewrite Hdoc, Hcompress. cbn [mret].
      exists s2. eexists. refine (conj _ (conj Hdoc _)); [reflexivity|].
      unfold document_tree, document_of. cbn [nodes documentElement].
      rewrite subtree_svg_nodes, item_xml_items_of_calls.
      unfold svg_tree. cbn [flat_map svg_of_call app].
      now rewrite flat_map_app, app_nil_r.
    - intros f xpos ypos width color s [= <-].
      pose proof (create_module_keeps_options format_size xpos ypos width
                    color s) as Hkeep.
      unfold svg_options in Hkeep. now injection Hkeep.
    - intros f c s [= <-].
      pose proof (init_keeps_options version format_size c s) as Hkeep.
      unfold svg_options in Hkeep. now injection Hkeep.
    - discriminate. }
  destruct Hmain as (w' & d & Hrun & Hdoc & Htree).
  exists w', d. split; [exact Hrun|]. split; [|now split].
  pose proof (svg_render_keeps_options version format_size format_number
                toxml toprettyxml (line0 :: rest) w) as Hopts.
  now rewrite Hrun in Hopts.
Qed.

End SVGDocumentFacts.

(** X13.  A pass of the SVG writer over a code of at least one line, for
    which [calculate_size] returns the size and on which the pass itself
    does not raise, in any arithmetic: it returns the serialisation,
    compressed or pretty by [compress], of the document it leaves in the
    writer, with the options as they were; and that document is the root
    [svg] with the version, the namespace and the width and height of
    [calculate_size], holding the comment and the group [barcode_group];
    the group holds the background rectangle, then one [rect] for each
    [paint_module] call of the pass, in the order of the calls, with its
    [x], [y], [width], the module height and the colour, and then one
    [text] element for each line of the text, or of [human] if that is
    set. *)
Theorem svg_render_document {T : Type} `{Number T} (version : string)
    (format_size format_number : T -> string)
    (toxml toprettyxml : Document -> string)
    (code : list string) (w : SVGWriter T) (line0 : string) (size : Z * Z) :
  head code = Some line0 ->
  calculate_size (base w) (Z.of_nat (String.length line0))
    (Z.of_nat (length code)) (dpi w) = Return size ->
  snd (render_recorded (base w) code) = Return tt ->
  exists w' d,
    svg_render version format_size format_number toxml toprettyxml code w
    = (w', Return (if compress w then toxml d else toprettyxml d)) /\
    svg_options w' = svg_options w /\
    _document w' = Some d /\
    document_tree d
    = Some (svg_tree version format_size format_number (base w) size
              (trace (base w) code)).
Proof. apply svg_render_tree. Qed.

Lemma svg_render_document_witness :
  exists (w' : SVGWriter Qc) (d : Document),
    svg_render "0.13" (fun _ => "mm") (fun _ => "pt")
      (fun _ => "xml") (fun _ => "pretty xml") ["1101"; "0010"]
      example_svg_writer
    = (w', Return (if compress example_svg_writer
                   then (fun _ => "xml") d else (fun _ => "pretty xml") d)) /\
    svg_options w' = svg_options example_svg_writer /\
    _document w' = Some d /\
    document_tree d
    = Some (svg_tree "0.13" (fun _ => "mm") (fun _ => "pt")
              (base example_svg_writer) (13, 50)
              (trace (base example_svg_writer) ["1101"; "0010"])).
Proof.
  apply (svg_render_document "0.13" (fun _ => "mm") (fun _ => "pt")
           (fun _ => "xml") (fun _ => "pretty xml") ["1101"; "0010"]
           example_svg_writer "1101" (13, 50)).
  - reflexivity.
  - vm_compute. reflexivity.
  - vm_compute. reflexivity.
Defined.

(** ** The barcode as text *)

Lemma append_snoc (cur p : string) (c : ascii) :
  (cur +:+ String c EmptyString) +:+ p = cur +:+ String c p.
Proof.
  induction cur as [|a cur IH]; [reflexivity|].
  change (String a ((cur +:+ String c EmptyString) +:+ p)
          = String a (cur +:+ String c p)).
  now f_equal.
Qed.

Lemma append_empty_r (s : string) : s +:+ EmptyString = s.
Proof.
  induction s as [|a s IH]; [reflexivity|].
  change (String a (s +:+ EmptyString) = String a s). now f_equal.
Qed.

Lemma split_char_part (sep : ascii) (p : string) : forall cur : string,
  lacks sep p -> split_char sep cur p = [cur +:+ p].
Proof.
  induction p as [|c p IH]; intros cur Hp; cbn [split_char].
  - now rewrite append_empty_r.
  - destruct Hp as [Hc Hp]. rewrite ascii_eqb_neq by exact Hc.
    rewrite IH by exact Hp. now rewrite append_snoc.
Qed.

Lemma split_char_app (sep : ascii) (p rest : string) : forall cur : string,
  lacks sep p ->
  split_char sep cur (p +:+ String sep rest)
  = (cur +:+ p) :: split_char sep EmptyString rest.
Proof.
  induction p as [|c p IH]; intros cur Hp; simpl.
  - now rewrite ascii_eqb_refl, append_empty_r.
  - destruct Hp as [Hc Hp]. rewrite ascii_eqb_neq by exact Hc.
    rewrite IH by exact Hp. now rewrite append_snoc.
Qed.

(** Splitting what [join] joined gives the parts back, when there is a
    part and the separator is in none. *)
Lemma split_char_join (sep : ascii) (parts : list string) :
  parts <> [] -> (forall p, In p parts -> lacks sep p) ->
  split_char sep EmptyString (join (String sep EmptyString) parts) = parts.
Proof.
  induction parts as [|p [|q rest] IH]; intros Hne Hparts; [congruence| |].
  - cbn [join]. rewrite split_char_part by (apply Hparts; now left).
    reflexivity.
  - change (join (String sep EmptyString) (p :: q :: rest))
      with (p +:+ String sep (join (String sep EmptyString) (q :: rest))).
    rewrite split_char_app by (apply Hparts; now left).
    f_equal. apply IH; [discriminate|].
    intros p' Hin. apply Hparts. now right.
Qed.

Lemma row_of_binary_line (line : string) :
  binary_line line = true ->
  lacks "010" (replace_char "0" " " (replace_char "1" "X" line)) /\
  row_modules (replace_char "0" " " (replace_char "1" "X" line)) = line /\
  String.length (replace_char "0" " " (replace_char "1" "X" line))
  = String.length line.
Proof.
  unfold row_modules. induction line as [|c line IH]; intros Hbin;
    [now repeat split|].
  apply binary_line_cons in Hbin as [[-> | ->] Hline];
    destruct (IH Hline) as (Hlacks & Hback & Hlen);
    cbn [replace_char ascii_eqb Ascii.eqb Bool.eqb andb lacks String.length];
    unfold ascii_eqb; cbn [Ascii.eqb Bool.eqb andb];
    (repeat split; [discriminate | exact Hlacks | now rewrite Hback
                   | now rewrite Hlen]).
Qed.

(** X14.  [to_ascii] loses nothing: for a code of at least one line, the
    lines made of [0] and [1], it returns a text that, split at the line
    feeds, has one row for each line of the code, as long as the line,
    and reading [X] as [1] and the blank as [0] gives the code back. *)
Theorem to_ascii_round_trip (code : list string) :
  code <> [] ->
  (forall line, In line code -> binary_line line = true) ->
  exists art,
    to_ascii (Return code) = Return art /\
    map row_modules (split_char "010" EmptyString art) = code /\
    map String.length (split_char "010" EmptyString art)
    = map String.length code.
Proof.
  intros Hne Hbin. eexists. split; [reflexivity|].
  rewrite split_char_join.
  - split.
    + rewrite map_map. rewrite <- (map_id code) at 2.
      apply map_ext_in. intros line Hin.
      now apply row_of_binary_line, Hbin.
    + rewrite map_map. apply map_ext_in. intros line Hin.
      now apply row_of_binary_line, Hbin.
  - destruct code; [congruence | discriminate].
  - intros p Hin. apply in_map_iff in Hin as (line & <- & Hin).
    now apply row_of_binary_line, Hbin.
Qed.

Lemma to_ascii_round_trip_witness :
  exists art,
    to_ascii (Return ["1101"; "0010"]) = Return art /\
    map row_modules (split_char "010" EmptyString art) = ["1101"; "0010"] /\
    map String.length (split_char "010" EmptyString art)
    = map String.length ["1101"; "0010"].
Proof.
  apply (to_ascii_round_trip ["1101"; "0010"]).
  - discriminate.
  - intros line [<- | [<- | []]]; reflexivity.
Defined.

(** ** Passes that cannot return *)

Section Unregistered.
Context {T : Type} `{Number T} {S Out : Type}.
Variable base : S -> BaseWriter T.

Lemma mbind_raises {A B : Type} (m : M S A) (k : A -> M S B) (s : S) :
  (forall a s', exists e, snd (k a s') = Raise e) ->
  exists e, snd (mbind m k s) = Raise e.
Proof.
  intros Hk. unfold mbind. destruct (m s) as [s' [a|e]]; [apply Hk|].
  now exists e.
Qed.

Lemma paint_mlist_no_callbacks (ml : list Z) (xpos ypos : T) (s : S) :
  paint_mlist base (no_callbacks (Out:=Out)) ml xpos ypos s
  = (s, match ml with
        | [] => Return xpos
        | _ :: _ => Raise not_callable
        end).
Proof. destruct ml; reflexivity. Qed.

Lemma render_lines_no_callbacks (len_code : Z) (lines : list string) :
  forall (cc : Z) (ypos : T) (bx : option (T * T)) (s : S),
  render_lines base (no_callbacks (Out:=Out)) len_code cc lines ypos bx s
  = (s, Raise not_callable) \/
  exists after,
    render_lines base (no_callbacks (Out:=Out)) len_code cc lines ypos bx s
    = (s, Return after).
Proof.
  induction lines as [|line rest IH]; intros cc ypos bx s.
  - right. now eexists.
  - cbn [render_lines]. rewrite mbind_unfold. cbn [mget].
    rewrite mbind_unfold, paint_mlist_no_callbacks.
    destruct (mlist line); [|now left].
    rewrite mbind_unfold.
    destruct (negb (cc + 1 =? len_code)); [now left|].
    cbn [mret]. rewrite mbind_unfold. cbn [mget]. apply IH.
Qed.

(** X15.  A writer with no [finish] callback cannot complete a pass:
    [render] raises whatever the code and the other callbacks; and on a
    writer with no callback at all, as [BaseWriter()] makes it, [render]
    raises the [TypeError] of calling [None] for every code, leaving the
    writer as it was. *)
Theorem render_needs_callbacks (code : list string) (s : S) :
  (forall cb : Callbacks T S Out,
     finish cb = None -> exists e, snd (render base cb code s) = Raise e) /\
  render base (no_callbacks (Out:=Out)) code s = (s, Raise not_callable).
Proof.
  split.
  - intros cb Hfinish. unfold render.
    apply mbind_raises. intros _ s1.
    apply mbind_raises. intros after s2.
    apply mbind_raises. intros self s3.
    apply mbind_raises. intros _ s4.
    rewrite Hfinish. now eexists.
  - unfold render. cbn [initialize paint_text finish no_callbacks].
    rewrite mbind_unfold. cbn [mret]. rewrite mbind_unfold.
    destruct (render_lines_no_callbacks (Z.of_nat (length code)) code 0
                (decimal 10 1) None s) as [-> | [after ->]]; [reflexivity|].
    rewrite mbind_unfold. cbn [mget]. rewrite mbind_unfold.
    now destruct (str_truth (text (base s))).
Qed.

End Unregistered.

(** ** How a pass of the SVG writer ends, in exact arithmetic *)

Section SVGOutcome.
Variable version : string.
Variables format_size format_number : Qc -> string.
Variables toxml toprettyxml : Document -> string.

(** X16.  In exact arithmetic a pass of the SVG writer ends in one of
    three ways.  On a code of no line, [_init] raises [IndexError]; where
    [calculate_size] raises (a division by a zero [dpi]), [_init] raises
    the same; either way the writer is as it was, and nothing was painted.
    Otherwise the pass returns the serialisation of the document it
    leaves in the writer, which is the tree of the calls of the pass. *)
Theorem svg_render_outcome (code : list string) (w : SVGWriter Qc) :
  match code with
  | [] =>
      svg_render version format_size format_number toxml toprettyxml code w
      = (w, Raise IndexError)
  | line0 :: _ =>
      match
        calculate_size (base w) (Z.of_nat (String.length line0))
          (Z.of_nat (length code)) (dpi w)
      with
      | Raise e =>
          svg_render version format_size format_number toxml toprettyxml
            code w
          = (w, Raise e)
      | Return size =>
          exists w' d,
            svg_render version format_size format_number toxml toprettyxml
              code w
            = (w', Return (if compress w then toxml d else toprettyxml d)) /\
            svg_options w' = svg_options w /\
            _document w' = Some d /\
            document_tree d
            = Some (svg_tree version format_size format_number (base w) size
                      (trace (base w) code))
      end
  end.
Proof.
  destruct code as [|line0 rest]; [reflexivity|].
  destruct (calculate_size _ _ _ _) as [size|e] eqn:Hsize.
  - apply (svg_render_tree version format_size format_number toxml
             toprettyxml (line0 :: rest) w line0 size);
      [reflexivity | exact Hsize|].
    rewrite render_recorded_closed. unfold render_result. cbn [snd].
    now destruct (str_truth (text (base w))).
  - unfold svg_render, render. cbn [initialize svg_callbacks].
    rewrite mbind_unfold. unfold _init. now rewrite Hsize.
Qed.

End SVGOutcome.

(** ** Lines of any characters *)

(** The index loop of [render] on any line. *)
Lemma mlist_fold_loop (s : string) : forall (a : ascii) (c : Z) (acc : list Z),
  snd (fold_left (mlist_step (String a (s +:+ " ")))
         (seq 0 (String.length (s +:+ " "))) (c, acc))
  = acc ++ rle_loop a c s.
Proof.
  induction s as [|b s IH]; intros a c acc.
  - simpl. unfold opt_ascii_eqb.
    destruct (ascii_eqb a " "); [now rewrite app_nil_r|].
    unfold token. now destruct (ascii_eqb a "1").
  - change (String b s +:+ " ") with (String b (s +:+ " ")).
    cbn [String.length seq fold_left].
    rewrite mlist_fold_shift.
    unfold mlist_step at 2. cbn [char_at String.get Nat.add opt_ascii_eqb].
    cbn [rle_loop].
    destruct (ascii_eqb a b) eqn:Hab.
    + apply Ascii.eqb_eq in Hab. subst b. apply IH.
    + unfold token.
      destruct (ascii_eqb a "1"); rewrite IH;
        rewrite <- app_assoc; reflexivity.
Qed.

Lemma mlist_loop (a : ascii) (s : string) :
  mlist (String a s) = rle_loop a 1 s.
Proof.
  unfold mlist.
  change (String a s +:+ " ") with (String a (s +:+ " ")).
  replace (String.length (String a (s +:+ " ")) - 1)%nat
    with (String.length (s +:+ " ")) by (simpl; lia).
  now rewrite mlist_fold_loop.
Qed.

Lemma module_of_any_token (a : ascii) (c : Z) :
  1 <= c -> module_of_token (token a c) = painted_char a.
Proof.
  intros Hc. unfold module_of_token, token, painted_char.
  destruct (ascii_eqb a "1").
  - destruct (Z.ltb_spec 0 c); [reflexivity | lia].
  - destruct (Z.ltb_spec 0 (- c)); [lia | reflexivity].
Qed.

Lemma expand_rle_loop (s : string) : forall (a : ascii) (c : Z),
  1 <= c ->
  expand (rle_loop a c s)
  = match rstrip_blanks s with
    | EmptyString =>
        if ascii_eqb a " " then EmptyString
        else repeat_char (painted_char a) (Z.to_nat c)
    | String b r =>
        repeat_char (painted_char a) (Z.to_nat c) +:+ painted (String b r)
    end.
Proof.
  induction s as [|b s IH]; intros a c Hc.
  - cbn [rle_loop rstrip_blanks]. destruct (ascii_eqb a " "); [reflexivity|].
    cbn [expand]. rewrite module_of_any_token, abs_token by exact Hc.
    apply append_empty_r.
  - cbn [rle_loop rstrip_blanks].
    destruct (ascii_eqb a b) eqn:Hab.
    + apply Ascii.eqb_eq in Hab. subst b.
      rewrite IH by lia.
      replace (Z.to_nat (c + 1)) with (S (Z.to_nat c)) by lia.
      destruct (rstrip_blanks s) as [|b' r].
      * destruct (ascii_eqb a " "); [reflexivity|].
        rewrite <- (append_empty_r (repeat_char _ (S _))).
        now rewrite repeat_char_snoc.
      * now rewrite repeat_char_snoc.
    + cbn [expand]. rewrite module_of_any_token, abs_token by exact Hc.
      rewrite IH by lia.
      destruct (rstrip_blanks s) as [|b' r].
      * destruct (ascii_eqb b " ") eqn:Hb.
        -- apply Ascii.eqb_eq in Hb. subst b.
           unfold ascii_eqb in *. rewrite Hab. apply append_empty_r.
        -- reflexivity.
      * reflexivity.
Qed.

Lemma sum_abs_cons (t : Z) (rest : list Z) :
  sum_abs (t :: rest) = Z.abs t + sum_abs rest.
Proof. reflexivity. Qed.

Lemma sum_abs_rle_loop (s : string) : forall (a : ascii) (c : Z),
  1 <= c ->
  sum_abs (rle_loop a c s)
  = match rstrip_blanks s with
    | EmptyString => if ascii_eqb a " " then 0 else c
    | String b r => c + Z.of_nat (String.length (String b r))
    end.
Proof.
  induction s as [|b s IH]; intros a c Hc.
  - cbn [rle_loop rstrip_blanks]. destruct (ascii_eqb a " "); [reflexivity|].
    rewrite sum_abs_cons, abs_token by exact Hc. cbn. lia.
  - cbn [rle_loop rstrip_blanks].
    destruct (ascii_eqb a b) eqn:Hab.
    + apply Ascii.eqb_eq in Hab. subst b. rewrite IH by lia.
      destruct (rstrip_blanks s) as [|b' r].
      * destruct (ascii_eqb a " "); cbn [String.length]; lia.
      * cbn [String.length]. lia.
    + rewrite sum_abs_cons, abs_token, IH by (exact Hc || lia).
      destruct (rstrip_blanks s) as [|b' r].
      * destruct (ascii_eqb b " ") eqn:Hb.
        -- apply Ascii.eqb_eq in Hb. subst b.
           unfold ascii_eqb in *. rewrite Hab. lia.
        -- cbn [String.length]. lia.
      * cbn [String.length]. lia.
Qed.

(** X17.  [render] takes any line: every character other than [1] is
    painted as a space, and the blanks a line ends in are not painted at
    all.  The tokens of a line, expanded, are the modules of the line
    without its trailing blanks, and their absolute values add up to its
    length without them. *)
Theorem mlist_of_any_line (line : string) :
  expand (mlist line) = painted (rstrip_blanks line) /\
  sum_abs (mlist line) = Z.of_nat (String.length (rstrip_blanks line)).
Proof.
  destruct line as [|a s]; [split; reflexivity|].
  rewrite mlist_loop, expand_rle_loop, sum_abs_rle_loop by lia.
  cbn [rstrip_blanks]. destruct (rstrip_blanks s) as [|b r].
  - destruct (ascii_eqb a " "); split; reflexivity.
  - split; [reflexivity|]. cbn [String.length]. lia.
Qed.

(** ** The lines of the text: counted and painted *)

Lemma str_truth_snoc (cur : string) (c : ascii) :
  str_truth (cur +:+ String c EmptyString) = true.
Proof. destruct cur; reflexivity. Qed.

Lemma split_char_splitlines (s : string) : forall cur : string,
  only_line_feeds s = true ->
  split_char "010" cur s
  = splitlines_from false cur s
    ++ (if match s with
           | EmptyString => negb (str_truth cur)
           | String _ _ => ends_line s
           end
        then [EmptyString] else []).
Proof.
  induction s as [|c rest IH]; intros cur Honly.
  - cbn [split_char splitlines_from]. destruct cur; reflexivity.
  - cbn [only_line_feeds] in Honly.
    apply andb_true_iff in Honly as [Hc Hrest].
    cbn [split_char splitlines_from andb].
    destruct (ascii_eqb c "010") eqn:Hlf.
    + apply Ascii.eqb_eq in Hlf. subst c.
      change (is_linebreak "010") with true.
      change (ascii_eqb "010" "013") with false. cbn iota.
      rewrite (IH EmptyString Hrest). cbn [app]. do 2 f_equal;
        now destruct rest.
    + rewrite orb_false_r in Hc. apply negb_true_iff in Hc. rewrite Hc.
      rewrite (IH _ Hrest). f_equal.
      destruct rest as [|c' rest']; [|reflexivity].
      cbn [ends_line]. now rewrite str_truth_snoc, Hlf.
Qed.

(** X18.  [calculate_size] counts the lines of the text with
    [splitlines]; the writers paint one line for each part of
    [text.split("\n")].  For a text whose only line boundaries are line
    feeds the parts are the lines, and one empty part more when the text
    is empty or ends in a line feed: the size then accounts for one line
    fewer than are painted. *)
Theorem painted_lines_and_counted_lines (text : string) :
  only_line_feeds text = true ->
  split_char "010" EmptyString text
  = splitlines text ++ (if ends_line text then [EmptyString] else []) /\
  length (split_char "010" EmptyString text)
  = (length (splitlines text) + if ends_line text then 1 else 0)%nat.
Proof.
  intros Honly.
  assert (Heq : split_char "010" EmptyString text
                = splitlines text
                  ++ (if ends_line text then [EmptyString] else [])).
  { unfold splitlines. rewrite split_char_splitlines by exact Honly.
    now destruct text. }
  split; [exact Heq|]. rewrite Heq, length_app.
  now destruct (ends_line text).
Qed.

Lemma painted_lines_and_counted_lines_witness :
  split_char "010" EmptyString
    ("4006381" +:+ String "010" ("333931" +:+ String "010" EmptyString))
  = splitlines
      ("4006381" +:+ String "010" ("333931" +:+ String "010" EmptyString))
    ++ (if ends_line
             ("4006381" +:+ String "010"
                ("333931" +:+ String "010" EmptyString))
        then [EmptyString] else []) /\
  length
    (split_char "010" EmptyString
       ("4006381" +:+ String "010" ("333931" +:+ String "010" EmptyString)))
  = (length
       (splitlines
          ("4006381" +:+ String "010"
             ("333931" +:+ String "010" EmptyString)))
     + if ends_line
            ("4006381" +:+ String "010"
               ("333931" +:+ String "010" EmptyString))
       then 1 else 0)%nat.
Proof.
  apply (painted_lines_and_counted_lines
           ("4006381" +:+ String "010"
              ("333931" +:+ String "010" EmptyString))).
  reflexivity.
Defined.

(** ** The options [get] hands to the writer *)

Section GetOptions.
Context {T : Type} `{Number T}.
Variable construct :
  barcode_class -> pyval T -> option (pyobject T) -> result (Barcode (T:=T)).
Variable str_of_dict : dict T -> string.

Lemma in_dict_set (key : string) (val : pyval T) (d : dict T) :
  In (key, val) (dict_set key val d).
Proof.
  induction d as [|[k v] rest IH]; cbn [dict_set]; [now left|].
  destruct (String.eqb_spec k key) as [->|Hne]; [now left | now right].
Qed.

Lemma in_dict_set_other (key key' : string) (val val' : pyval T) (d : dict T) :
  key' <> key -> In (key', val') d -> In (key', val') (dict_set key val d).
Proof.
  intros Hne. induction d as [|[k v] rest IH]; cbn [dict_set]; [intros []|].
  destruct (String.eqb_spec k key) as [->|Hk]; intros [Heq | Hin].
  - injection Heq as -> _. congruence.
  - now right.
  - now left.
  - right. now apply IH.
Qed.

(** A binding that no later keyword argument replaces is in the merged
    dictionary. *)
Lemma in_dict_update_kept (kwargs : dict T) : forall (d : dict T) key val,
  ~ In key (map fst kwargs) -> In (key, val) d ->
  In (key, val) (dict_update d kwargs).
Proof.
  unfold dict_update.
  induction kwargs as [|[k v] rest IH]; intros d key val Hnot Hin;
    [exact Hin|].
  cbn [fold_left fst snd]. apply IH.
  - intros Hrest. apply Hnot. now right.
  - apply in_dict_set_other; [|exact Hin].
    intros ->. apply Hnot. now left.
Qed.

Lemma in_dict_update_kwargs (kwargs : dict T) : forall (d : dict T) key val,
  List.NoDup (map fst kwargs) -> In (key, val) kwargs ->
  In (key, val) (dict_update d kwargs).
Proof.
  induction kwargs as [|[k v] rest IH]; intros d key val Hnodup Hin;
    [destruct Hin|].
  cbn [map fst] in Hnodup. apply List.NoDup_cons_iff in Hnodup as [Hk Hrest].
  destruct Hin as [[= -> ->] | Hin].
  - change (dict_update d ((key, val) :: rest))
      with (dict_update (dict_set key val d) rest).
    apply in_dict_update_kept; [exact Hk | apply in_dict_set].
  - change (dict_update d ((k, v) :: rest))
      with (dict_update (dict_set k v d) rest).
    now apply IH.
Qed.

(** What [get] returns for a name of the registry and a code. *)
Lemma get_returns_barcode name barcode code writer_arg options bc lines bc' :
  __BARCODE_MAP !! lower name = Some barcode ->
  construct barcode code writer_arg = Return bc ->
  get construct str_of_dict name (Some code) writer_arg (Some options)
  = (lines, Return (GotBarcode bc')) ->
  set_options (dict_update (default_writer_options bc) options) (writer bc)
  = (writer bc', Return tt).
Proof.
  intros Hname Hbc. unfold get. rewrite Hname, Hbc. cbn [rbind].
  destruct (set_options _ (writer bc)) as [w [[]|e]].
  - now intros [= _ <-].
  - destruct e; try discriminate.
    destruct (str_contains _ msg); discriminate.
Qed.

Lemma set_options_sets_member (options : dict T) key val
    (self self' : pyobject T) :
  List.NoDup (map (fun kv => lstrip_underscore (fst kv)) options) ->
  In (key, val) options ->
  hasattr self (lstrip_underscore key) = true ->
  lstrip_underscore key <> "file_type" ->
  set_options options self = (self', Return tt) ->
  instance_dict self' !! lstrip_underscore key = Some val.
Proof.
  intros Hnodup Hin Hattr Hplain Hrun.
  apply in_split in Hin as (before & after & ->).
  apply (set_options_sets_last before after key val self self');
    try assumption.
  intros kv Hkv Heq. rewrite map_app in Hnodup. cbn [map fst] in Hnodup.
  apply List.NoDup_remove_2 in Hnodup. apply Hnodup, in_or_app. right.
  rewrite <- Heq. now apply (in_map (fun kv => lstrip_underscore (fst kv))).
Qed.

(** X19.  The writer options given to [get] override the defaults of
    the barcode, and the defaults hold otherwise: when [get] returns the
    barcode, an attribute of its writer other than [file_type] that a
    writer option names holds the value of the option, and one that only
    a default names holds the default; the names of the merged options
    are taken to be distinct, their leading underscores apart. *)
Theorem get_applies_writer_options (name : string) (barcode : barcode_class)
    (code : pyval T) (writer_arg : option (pyobject T)) (options : dict T)
    (bc bc' : Barcode (T:=T)) (lines : list string) :
  __BARCODE_MAP !! lower name = Some barcode ->
  construct barcode code writer_arg = Return bc ->
  List.NoDup (map fst options) ->
  List.NoDup (map (fun kv => lstrip_underscore (fst kv))
           (dict_update (default_writer_options bc) options)) ->
  get construct str_of_dict name (Some code) writer_arg (Some options)
  = (lines, Return (GotBarcode bc')) ->
  (forall key val,
     In (key, val) options ->
     hasattr (writer bc) (lstrip_underscore key) = true ->
     lstrip_underscore key <> "file_type" ->
     instance_dict (writer bc') !! lstrip_underscore key = Some val) /\
  (forall key val,
     In (key, val) (default_writer_options bc) ->
     ~ In key (map fst options) ->
     hasattr (writer bc) (lstrip_underscore key) = true ->
     lstrip_underscore key <> "file_type" ->
     instance_dict (writer bc') !! lstrip_underscore key = Some val).
Proof.
  intros Hname Hbc Hkeys Hnames Hget.
  pose proof (get_returns_barcode _ _ _ _ _ _ _ _ Hname Hbc Hget) as Hrun.
  split; intros key val Hin; [|intros Hnot]; intros Hattr Hplain.
  - apply (set_options_sets_member _ key val (writer bc) (writer bc') Hnames);
      try assumption.
    now apply in_dict_update_kwargs.
  - apply (set_options_sets_member _ key val (writer bc) (writer bc') Hnames);
      try assumption.
    now apply in_dict_update_kept.
Qed.

End GetOptions.

Lemma get_applies_writer_options_witness :
  exists bc' : Barcode (T:=Qc),
    get example_construct (fun _ => EmptyString) "EAN13"
      (Some (VStr "4006381333931")) None
      (Some [("module_height", VFloat (Qc_decimal 80 1));
             ("font_size", VInt 14)])
    = ([], Return (GotBarcode bc')) /\
    instance_dict (writer bc') !! lstrip_underscore "module_height"
    = Some (VFloat (Qc_decimal 80 1)) /\
    instance_dict (writer bc') !! lstrip_underscore "quiet_zone"
    = Some (VFloat (Qc_decimal 65 1)).
Proof.
  eexists. split; [vm_compute; reflexivity|].
  split.
  - refine (proj1 (get_applies_writer_options example_construct
                     (fun _ => EmptyString) "EAN13" EAN13
                     (VStr "4006381333931") None
                     [("module_height", VFloat (Qc_decimal 80 1));
                      ("font_size", VInt 14)]
                     _ _ [] _ _ _ _ _) "module_height" _ _ _ _).
    + vm_compute. reflexivity.
    + reflexivity.
    + repeat constructor; cbn; intuition discriminate.
    + vm_compute. repeat constructor; cbn; intuition discriminate.
    + vm_compute. reflexivity.
    + now left.
    + vm_compute. reflexivity.
    + discriminate.
  - refine (proj2 (get_applies_writer_options example_construct
                     (fun _ => EmptyString) "EAN13" EAN13
                     (VStr "4006381333931") None
                     [("module_height", VFloat (Qc_decimal 80 1));
                      ("font_size", VInt 14)]
                     _ _ [] _ _ _ _ _) "quiet_zone" _ _ _ _ _).
    + vm_compute. reflexivity.
    + reflexivity.
    + repeat constructor; cbn; intuition discriminate.
    + vm_compute. repeat constructor; cbn; intuition discriminate.
    + vm_compute. reflexivity.
    + cbn. now right; right; left.
    + cbn. intuition discriminate.
    + vm_compute. reflexivity.
    + discriminate.
Defined.

(** ** The modules and the size the SVG writer declares *)





